(** * DagBot front end: chat streaming, chat hook, conversations hook and
    settings panel, embedded from the TypeScript sources.

    Strings are sequences of code units; the embedding keeps the code units
    below 256, one [ascii] each.  Every definition names the source function
    it is taken from. *)

From Stdlib Require Import ZArith PrimFloat.
From Stdlib Require Ascii String DecimalString.
From stdpp Require Import gmap strings list.

Local Open Scope Z_scope.

Import (notations) Stdlib.Strings.Ascii.
Abbreviation ascii := Ascii.ascii.

(** ** JavaScript string primitives used by the sources *)

Module Js.

Definition nl : ascii := "010"%char.
Definition dquote : ascii := "034"%char.
Definition backslash : ascii := "092"%char.

(** [s.startsWith(p)] *)
Definition startsWith (s p : string) : bool := Stdlib.Strings.String.prefix p s.

(** [s.endsWith(p)] *)
Definition endsWith (s p : string) : bool :=
  Stdlib.Strings.String.prefix (String.rev p) (String.rev s).

(** [s.slice(n)] for a non-negative [n]: the string without its first [n]
    code units. *)
Fixpoint slice (n : nat) (s : string) : string :=
  match n, s with
  | O, _ => s
  | S _, EmptyString => EmptyString
  | S n', String _ s' => slice n' s'
  end.

(** [s.includes(q)] *)
Fixpoint includes (s q : string) : bool :=
  startsWith s q ||
  match s with
  | EmptyString => false
  | String _ s' => includes s' q
  end.

(** [s.split('\n')]: never empty, the last element is what follows the last
    line feed. *)
Fixpoint split_nl (s : string) : list string :=
  match s with
  | EmptyString => [EmptyString]
  | String c s' =>
      if Ascii.eqb c nl then EmptyString :: split_nl s'
      else match split_nl s' with
           | [] => [String c EmptyString]
           | l :: ls => String c l :: ls
           end
  end.

(** Code units that [trim] strips, among those below 256: TAB, LF, VT, FF,
    CR, SP and NBSP. *)
Definition is_white (c : ascii) : bool :=
  match Ascii.N_of_ascii c with
  | 9 | 10 | 11 | 12 | 13 | 32 | 160 => true
  | _ => false
  end%N.

Fixpoint trimStart (s : string) : string :=
  match s with
  | EmptyString => EmptyString
  | String c s' => if is_white c then trimStart s' else s
  end.

Definition trimEnd (s : string) : string := String.rev (trimStart (String.rev s)).

(** [s.trim()] *)
Definition trim (s : string) : string := trimEnd (trimStart s).

(** Truthiness of a string: non-empty. *)
Definition truthy_string (s : string) : bool :=
  match s with EmptyString => false | String _ _ => true end.

(** [toLowerCase] on one code unit below 256: A-Z, and the Latin-1 capitals
    U+00C0-U+00DE except the multiplication sign U+00D7. *)
Definition lower_unit (c : ascii) : ascii :=
  let n := Ascii.N_of_ascii c in
  if ((65 <=? n) && (n <=? 90) ||
      (192 <=? n) && (n <=? 222) && negb (n =? 215))%N
  then Ascii.ascii_of_N (n + 32) else c.

(** [s.toLowerCase()] *)
Fixpoint toLowerCase (s : string) : string :=
  match s with
  | EmptyString => EmptyString
  | String c s' => String (lower_unit c) (toLowerCase s')
  end.

(** The concatenation of a list of strings, in order. *)
Definition concat (l : list string) : string := foldr String.append EmptyString l.

(** Decimal rendering of a non-negative integer inside a template string. *)
Definition show_nat (n : nat) : string :=
  DecimalString.NilZero.string_of_uint (Nat.to_uint n).

(** The property names that an object literal inherits from
    [Object.prototype]; [o[name]] finds a function there, or the prototype
    itself for [__proto__], when [o] has no own entry of that name. *)
Definition on_Object_prototype (name : string) : bool :=
  bool_decide (name ∈ ["constructor"; "__proto__"; "hasOwnProperty"; "isPrototypeOf";
                       "propertyIsEnumerable"; "toLocaleString"; "toString"; "valueOf";
                       "__defineGetter__"; "__defineSetter__"; "__lookupGetter__";
                       "__lookupSetter__"]).

End Js.

(** ** JSON values, as [JSON.parse] returns them *)

Module Json.

#[local] Set Warnings "-register-all".

(** A number is kept as the exact decimal [m * 10^e] read from the text. *)
Inductive JValue : Type :=
| JNull
| JBool (b : bool)
| JNum (m e : Z)
| JStr (s : string)
| JArr (items : list JValue)
| JObj (fields : list (string * JValue)).

(** A JavaScript value slot: [None] is [undefined]. *)
Definition Value : Type := option JValue.
Definition undefined : Value := None.
Definition null : Value := Some JNull.
Definition str (s : string) : Value := Some (JStr s).

(** Own property of a parsed object; with a repeated key the last one
    wins, as in [JSON.parse]. *)
Fixpoint lookup_field (fields : list (string * JValue)) (key : string) : Value :=
  match fields with
  | [] => None
  | (k, v) :: rest =>
      match lookup_field rest key with
      | Some v' => Some v'
      | None => if String.eqb k key then Some v else None
      end
  end.

(** [data.key] for the keys the sources read ([type], [content], [id],
    [conversation_id], [message], [error]): none of them exists on the
    prototypes of strings, numbers, booleans or arrays, so only an object
    can carry them.  Reading a property of [null] throws and is handled
    where it is read. *)
Definition get (data : JValue) (key : string) : Value :=
  match data with
  | JObj fields => lookup_field fields key
  | _ => None
  end.

(** A decimal [m * 10^e] that a double rounds to zero: [m = 0], or the
    magnitude is at most [2^-1075], half of the least subnormal. *)
Definition rounds_to_zero (m e : Z) : bool :=
  if m =? 0 then true
  else if 0 <=? e then false
  else Z.abs m * 2 ^ 1075 <=? 10 ^ (- e).

(** Truthiness of a value, [if (v)]. *)
Definition truthy (v : Value) : bool :=
  match v with
  | None => false
  | Some JNull => false
  | Some (JBool b) => b
  | Some (JNum m e) => negb (rounds_to_zero m e)
  | Some (JStr s) => Js.truthy_string s
  | Some (JArr _) => true
  | Some (JObj _) => true
  end.

(** [v === 'literal'] *)
Definition is_string (v : Value) (lit : string) : bool :=
  match v with
  | Some (JStr s) => String.eqb s lit
  | _ => false
  end.

(** *** A parser for the JSON grammar

    [JSON.parse] belongs to the platform; the development is stated over any
    parser (class [Platform] below).  This one reads the JSON grammar over
    the code units of the string model and is used to run the model on
    concrete wire data; a [\u] escape above [00FF] has no code unit in the
    model and is refused. *)

Definition is_ws (c : ascii) : bool :=
  match Ascii.N_of_ascii c with
  | 9 | 10 | 13 | 32 => true
  | _ => false
  end%N.

Fixpoint skip_ws (s : string) : string :=
  match s with
  | EmptyString => EmptyString
  | String c s' => if is_ws c then skip_ws s' else s
  end.

Definition digit_of (c : ascii) : option Z :=
  let n := Ascii.N_of_ascii c in
  if ((48 <=? n) && (n <=? 57))%N then Some (Z.of_N n - 48) else None.

Definition hex_of (c : ascii) : option Z :=
  let n := Z.of_N (Ascii.N_of_ascii c) in
  if (48 <=? n) && (n <=? 57) then Some (n - 48)
  else if (65 <=? n) && (n <=? 70) then Some (n - 55)
  else if (97 <=? n) && (n <=? 102) then Some (n - 87)
  else None.

(** Reads [0-9]*, accumulating the value and counting the digits. *)
Fixpoint read_digits (acc cnt : Z) (s : string) : Z * Z * string :=
  match s with
  | EmptyString => (acc, cnt, EmptyString)
  | String c s' =>
      match digit_of c with
      | Some d => read_digits (acc * 10 + d) (cnt + 1) s'
      | None => (acc, cnt, s)
      end
  end.

(** number = [-] int [frac] [exp] *)
Definition parse_number (s : string) : option (JValue * string) :=
  let '(sign, s1) :=
    match s with
    | String "-" r => (-1, r)
    | _ => (1, s)
    end in
  match s1 with
  | EmptyString => None
  | String c r =>
      match digit_of c with
      | None => None
      | Some d =>
          let '(int, _, s2) := if d =? 0 then (0, 1, r) else read_digits d 1 r in
          let frac :=
            match s2 with
            | String "." r2 =>
                let '(m, k, s3) := read_digits int 0 r2 in
                if k =? 0 then None else Some (m, k, s3)
            | _ => Some (int, 0, s2)
            end in
          match frac with
          | None => None
          | Some (m, k, s3) =>
              let exponent (r3 : string) :=
                let '(esign, r4) :=
                  match r3 with
                  | String "-" r5 => (-1, r5)
                  | String "+" r5 => (1, r5)
                  | _ => (1, r3)
                  end in
                let '(ev, ek, s4) := read_digits 0 0 r4 in
                if ek =? 0 then None
                else Some (JNum (sign * m) (esign * ev - k), s4) in
              match s3 with
              | String "e" r3 => exponent r3
              | String "E" r3 => exponent r3
              | _ => Some (JNum (sign * m) (- k), s3)
              end
          end
      end
  end.

Definition simple_escape (c : ascii) : option ascii :=
  match Ascii.N_of_ascii c with
  | 34 => Some "034" | 92 => Some "092" | 47 => Some "/"
  | 98 => Some "008" | 102 => Some "012" | 110 => Some "010"
  | 114 => Some "013" | 116 => Some "009"
  | _ => None
  end%N%char.

(** The characters of a string literal after its opening quote. *)
Fixpoint read_string (s : string) : option (string * string) :=
  match s with
  | EmptyString => None
  | String c s' =>
      if Ascii.eqb c Js.dquote then Some (EmptyString, s')
      else if Ascii.eqb c Js.backslash then
        match s' with
        | String "u" (String h1 (String h2 (String h3 (String h4 r)))) =>
            match hex_of h1, hex_of h2, hex_of h3, hex_of h4 with
            | Some 0, Some 0, Some a, Some b =>
                match read_string r with
                | Some (t, r') =>
                    Some (String (Ascii.ascii_of_N (Z.to_N (a * 16 + b))) t, r')
                | None => None
                end
            | _, _, _, _ => None
            end
        | String e r =>
            match simple_escape e, read_string r with
            | Some c', Some (t, r') => Some (String c' t, r')
            | _, _ => None
            end
        | EmptyString => None
        end
      else if (Ascii.N_of_ascii c <? 32)%N then None
      else match read_string s' with
           | Some (t, r') => Some (String c t, r')
           | None => None
           end
  end.

Definition expect (lit : string) (v : JValue) (s : string) : option (JValue * string) :=
  if Js.startsWith s lit then Some (v, Js.slice (Stdlib.Strings.String.length lit) s)
  else None.

Section Composite.
Variable parse_value : string -> option (JValue * string).

(** elements after [[], the first already known to be present *)
Fixpoint parse_elements (fuel : nat) (acc : list JValue) (s : string)
  : option (JValue * string) :=
  match fuel with
  | O => None
  | S fuel' =>
      match parse_value s with
      | None => None
      | Some (v, r) =>
          match skip_ws r with
          | String "," r' => parse_elements fuel' (v :: acc) r'
          | String "]" r' => Some (JArr (rev (v :: acc)), r')
          | _ => None
          end
      end
  end.

(** members after [{], the first already known to be present *)
Fixpoint parse_members (fuel : nat) (acc : list (string * JValue)) (s : string)
  : option (JValue * string) :=
  match fuel with
  | O => None
  | S fuel' =>
      match skip_ws s with
      | String q r0 =>
          if negb (Ascii.eqb q Js.dquote) then None else
          match read_string r0 with
          | None => None
          | Some (k, r1) =>
              match skip_ws r1 with
              | String ":" r2 =>
                  match parse_value r2 with
                  | None => None
                  | Some (v, r3) =>
                      match skip_ws r3 with
                      | String "," r4 => parse_members fuel' ((k, v) :: acc) r4
                      | String "}" r4 => Some (JObj (rev ((k, v) :: acc)), r4)
                      | _ => None
                      end
                  end
              | _ => None
              end
          end
      | EmptyString => None
      end
  end.
End Composite.

Fixpoint parse_value (fuel : nat) (s : string) : option (JValue * string) :=
  match fuel with
  | O => None
  | S fuel' =>
      match skip_ws s with
      | EmptyString => None
      | String c r as t =>
          if Ascii.eqb c Js.dquote then
            match read_string r with
            | Some (x, r') => Some (JStr x, r')
            | None => None
            end
          else match c with
          | "{"%char =>
              match skip_ws r with
              | String "}" r' => Some (JObj [], r')
              | r' => parse_members (parse_value fuel') fuel' [] r'
              end
          | "["%char =>
              match skip_ws r with
              | String "]" r' => Some (JArr [], r')
              | r' => parse_elements (parse_value fuel') fuel' [] r'
              end
          | "t"%char => expect "true" (JBool true) t
          | "f"%char => expect "false" (JBool false) t
          | "n"%char => expect "null" JNull t
          | _ => parse_number t
          end
      end
  end.

(** [JSON.parse(text)]; [None] is the [SyntaxError]. *)
Definition parse (text : string) : option JValue :=
  match parse_value (S (Stdlib.Strings.String.length text)) text with
  | Some (v, r) =>
      match skip_ws r with
      | EmptyString => Some v
      | String _ _ => None
      end
  | None => None
  end.

(** Wire text for the examples: [{"k1":"v1",...}] with plain string
    values. *)
Definition quoted (s : string) : string :=
  String Js.dquote (s +:+ String Js.dquote EmptyString).

Fixpoint members_text (fields : list (string * string)) : string :=
  match fields with
  | [] => EmptyString
  | [(k, v)] => quoted k +:+ ":" +:+ quoted v
  | (k, v) :: rest => quoted k +:+ ":" +:+ quoted v +:+ "," +:+ members_text rest
  end.

Definition object_text (fields : list (string * string)) : string :=
  "{" +:+ members_text fields +:+ "}".

End Json.

(** ** Exceptions: a thrown [Error], a rejected promise *)

Inductive Exception : Type := Error (message : string).

Inductive Result (A : Type) : Type :=
| Ok (a : A)
| Throw (e : Exception).
Arguments Ok {A} a.
Arguments Throw {A} e.

#[global] Instance result_ret : MRet Result := fun A a => Ok a.
#[global] Instance result_bind : MBind Result := fun A B f m =>
  match m with
  | Ok a => f a
  | Throw e => Throw e
  end.

(** [try { body } catch (err) { handler }] *)
Definition try_catch {A} (body : Result A) (handler : Exception -> Result A) : Result A :=
  match body with
  | Ok a => Ok a
  | Throw e => handler e
  end.

(** What the sources take from the platform: the JSON parser ([None] is its
    [SyntaxError]) and the string conversion that [+] applies to a number,
    an array or an object. *)
Class Platform : Type := {
  JSON_parse : string -> option Json.JValue;
  string_of_object : Json.JValue -> string
}.

(** ** types/index.ts *)

Inductive Role : Type := system | user | assistant.

#[global] Instance Role_eq_dec : EqDecision Role.
Proof. solve_decision. Defined.

(** The parts of a multi-part content: [{type:'text', text}] and
    [{type:'image_url', image_url:{url}}]; the last is the image part with
    a [null] url, which a failed [FileReader] read leaves. *)
Inductive ContentPart : Type :=
| text_part (text : string)
| image_url_part (url : string)
| image_null_part.

(** [content: string | Array<...>] *)
Inductive Content : Type :=
| Text (s : string)
| Parts (parts : list ContentPart).

Module ChatMessage.
Record t : Type := mk {
  id : option string;
  role : Role;
  content : Content;
  provider : option string;
  model : option string;
  created_at : option string
}.
(** [{ ...m, content: c }] *)
Definition with_content (m : t) (c : Content) : t :=
  mk (id m) (role m) c (provider m) (model m) (created_at m).
(** [{ role, content }] *)
Definition make (r : Role) (c : Content) : t := mk None r c None None None.
End ChatMessage.

Module Conversation.
Record t : Type := mk {
  id : string;
  title : string;
  system_prompt : option string;
  created_at : string;
  updated_at : string;
  preview : option string;
  message_count : float
}.
End Conversation.

Module ConversationDetail.
(** [interface ConversationDetail extends Conversation] *)
Record t : Type := mk {
  id : string;
  title : string;
  system_prompt : option string;
  created_at : string;
  updated_at : string;
  preview : option string;
  message_count : float;
  messages : list ChatMessage.t
}.
(** [{ ...prev, title }] *)
Definition with_title (c : t) (new_title : string) : t :=
  mk (id c) new_title (system_prompt c) (created_at c) (updated_at c)
     (preview c) (message_count c) (messages c).
End ConversationDetail.

Module Provider.
Record t : Type := mk {
  name : string;
  display_name : string;
  base_url : string;
  api_key : string;
  default_model : string;
  access_method : string;
  icon : string;
  is_custom : bool;
  description : option string;
  recommended : option bool;
  models : option (list string)
}.
End Provider.

Module ProviderOptions.
Record t : Type := mk {
  free_only : option bool;
  auto_choose : option bool
}.
Definition empty : t := mk None None.
End ProviderOptions.

Inductive OptionKey : Type := free_only | auto_choose.

Module ChatSettings.
Record t : Type := mk {
  provider : string;
  model : string;
  temperature : float;
  top_p : float;
  max_tokens : float;
  presence_penalty : float;
  frequency_penalty : float;
  provider_options : option (gmap string ProviderOptions.t)
}.
(** [Partial<ChatSettings>], for the fields the settings panel sends. *)
Record partial : Type := mk_partial {
  p_provider : option string;
  p_model : option string;
  p_provider_options : option (gmap string ProviderOptions.t)
}.
End ChatSettings.

Module ProviderTestResult.
Record t : Type := mk {
  success : bool;
  message : string;
  response_time_ms : option float
}.
End ProviderTestResult.

Module ProviderCreate.
Record t : Type := mk {
  name : string;
  display_name : string;
  base_url : string;
  api_key : option string;
  default_model : option string;
  access_method : option string;
  icon : option string
}.
End ProviderCreate.

Module SavedPrompt.
Record t : Type := mk {
  id : string;
  title : string;
  content : string;
  category : string;
  tags : list string;
  is_favorite : bool;
  created_at : string;
  updated_at : string
}.
End SavedPrompt.

Module PromptCreate.
Record t : Type := mk {
  title : string;
  content : string;
  category : option string;
  tags : option (list string);
  is_favorite : option bool
}.
End PromptCreate.

(** ** lib/api.ts *)

Module Api.

Definition API_BASE : string := "/api".

(** The request body of [updateConversation], before [JSON.stringify]. *)
Record ConversationUpdate : Type := {
  title : option string;
  system_prompt : option string
}.

Record RequestInit : Type := {
  method : string;
  body : option ConversationUpdate
}.

(** The response [fetch] resolves with, as [fetchJson] reads it: [res.ok],
    [res.status], [await res.text()] and [res.json()]. *)
Record Response (T : Type) : Type := {
  ok : bool;
  status : nat;
  text : string;
  json : Result T
}.
Arguments ok {T} _.
Arguments status {T} _.
Arguments text {T} _.
Arguments json {T} _.

(** The network: what [fetch(url, init)] settles with; [Throw] is a
    rejected promise (the server could not be reached). *)
Definition Fetch (T : Type) : Type := string -> option RequestInit -> Result (Response T).

Definition fetchJson {T} (fetch : Fetch T) (url : string) (options : option RequestInit)
  : Result T :=
  res ← fetch (API_BASE +:+ url) options;
  if negb (ok res)
  then Throw (Error ("API Error " +:+ Js.show_nat (status res) +:+ ": " +:+ text res))
  else json res.

Definition listConversations (fetch : Fetch (list Conversation.t)) : Result (list Conversation.t) :=
  fetchJson fetch "/conversations" None.

(** The payload [{ status: string }] of an update or a delete. *)
Record Status : Type := { status_text : string }.

Definition updateConversation (fetch : Fetch Status) (id : string) (data : ConversationUpdate)
  : Result Status :=
  fetchJson fetch ("/conversations/" +:+ id) (Some {| method := "PATCH"; body := Some data |}).

Definition listProviders (fetch : Fetch (list Provider.t)) : Result (list Provider.t) :=
  fetchJson fetch "/providers" None.

Definition testProvider (fetch : Fetch ProviderTestResult.t) (name : string)
  : Result ProviderTestResult.t :=
  fetchJson fetch ("/providers/" +:+ name +:+ "/test") (Some {| method := "POST"; body := None |}).

Definition deleteConversation (fetch : Fetch Status) (id : string) : Result Status :=
  fetchJson fetch ("/conversations/" +:+ id) (Some {| method := "DELETE"; body := None |}).

(** *** Chat SSE streaming *)

(** The request fields of [ChatStreamOptions]. *)
Record ChatRequest : Type := {
  provider : string;
  model : string;
  messages : list (Role * Content);
  req_system_prompt : option string;
  conversation_id : option string;
  temperature : float;
  top_p : float;
  max_tokens : float;
  presence_penalty : float;
  frequency_penalty : float
}.

(** One [await reader.read()]: the next decoded chunk arrives, or, while
    the loop is suspended on the read, another task of the page runs. *)
Inductive Step (A : Type) : Type :=
| Read (value : string)
| Meanwhile (action : A).
Arguments Read {A} value.
Arguments Meanwhile {A} action.

(** How the reader ends: [{done: true}], or a rejected read. *)
Inductive ReadEnd : Type := Eof | ReadError (e : Exception).

Record ChatResponse (A : Type) : Type := {
  chat_ok : bool;
  chat_status : nat;
  chat_body : option (list (Step A) * ReadEnd)
}.
Arguments chat_ok {A} _.
Arguments chat_status {A} _.
Arguments chat_body {A} _.

(** The four callbacks of [ChatStreamOptions], acting on the caller's
    state [S]. *)
Record Sink (S : Type) : Type := {
  onToken : Json.Value -> S -> S;
  onConversationId : Json.Value -> S -> S;
  onDone : Json.Value -> S -> S;
  onError : Json.Value -> S -> S
}.
Arguments onToken {S} _ _ _.
Arguments onConversationId {S} _ _ _.
Arguments onDone {S} _ _ _.
Arguments onError {S} _ _ _.

Section StreamChat.
Context {P : Platform} {S A : Type}.
Variable options : Sink S.
Variable meanwhile : A -> S -> S.

(** The body of the [try]: the chain of [if]/[else if] on the parsed
    [data].  Reading [data.type] of [null] throws. *)
Definition dispatch (data : Json.JValue) (s : S) : Result S :=
  match data with
  | Json.JNull => Throw (Error "TypeError")
  | _ =>
      let type := Json.get data "type" in
      if Json.is_string type "token" then Ok (onToken options (Json.get data "content") s)
      else if Json.is_string type "conversation_id" then Ok (onConversationId options (Json.get data "id") s)
      else if Json.is_string type "done" then Ok (onDone options (Json.get data "conversation_id") s)
      else if Json.is_string type "error" then Ok (onError options (Json.get data "message") s)
      else if Json.truthy (Json.get data "error") then Ok (onError options (Json.get data "error") s)
      else Ok s
  end.

(** One iteration of [for (const line of lines)].  The [catch] covers the
    parse and the property reads; a callback is a function of the caller's
    state and does not throw. *)
Definition handle_line (s : S) (line : string) : S :=
  if negb (Js.startsWith line "data: ") then s
  else
    match
      try_catch
        (data ← match JSON_parse (Js.slice 6 line) with
                | Some d => Ok d
                | None => Throw (Error "SyntaxError")
                end;
         dispatch data s)
        (fun _ => Ok s)
    with
    | Ok s' => s'
    | Throw _ => s
    end.

(** The body of [while (true)] after a read that returned a chunk:
    the new buffer and the caller's state after the complete lines. *)
Definition on_chunk (buffer value : string) (s : S) : string * S :=
  let buffer := buffer +:+ value in
  let lines := Js.split_nl buffer in
  (default EmptyString (last lines), foldl handle_line s (removelast lines)).

Fixpoint read_loop (buffer : string) (steps : list (Step A)) (s : S) : string * S :=
  match steps with
  | [] => (buffer, s)
  | Read value :: rest =>
      let '(buffer', s') := on_chunk buffer value s in
      read_loop buffer' rest s'
  | Meanwhile a :: rest => read_loop buffer rest (meanwhile a s)
  end.

Definition streamChat (fetch : string -> ChatRequest -> Result (ChatResponse A))
    (request : ChatRequest) (s : S) : S * Result unit :=
  match fetch (API_BASE +:+ "/chat") request with
  | Throw e => (s, Throw e)
  | Ok res =>
      if negb (chat_ok res)
      then (s, Throw (Error ("Chat API error: " +:+ Js.show_nat (chat_status res))))
      else
        match chat_body res with
        | None => (s, Throw (Error "No response body"))
        | Some (steps, ending) =>
            let s' := snd (read_loop EmptyString steps s) in
            (s', match ending with
                 | Eof => Ok ()
                 | ReadError e => Throw e
                 end)
        end
  end.
End StreamChat.

(** The events a sink can receive. *)
Inductive Callback : Type :=
| Token (token : Json.Value)
| ConversationId (id : Json.Value)
| Done (conversationId : Json.Value)
| Failure (error : Json.Value).

(** A sink that only records what it is called with, in call order. *)
Definition recorder : Sink (list Callback) := {|
  onToken v log := log ++ [Token v];
  onConversationId v log := log ++ [ConversationId v];
  onDone v log := log ++ [Done v];
  onError v log := log ++ [Failure v]
|}.

(** What a sink does with a recorded event. *)
Definition deliver {S} (options : Sink S) (s : S) (c : Callback) : S :=
  match c with
  | Token v => onToken options v s
  | ConversationId v => onConversationId options v s
  | Done v => onDone options v s
  | Failure v => onError options v s
  end.

End Api.

(** ** hooks/useChat.ts *)

Module UseChat.

(** A browser [File], with what the readers the hook uses resolve with:
    [FileReader.readAsDataURL] and [file.text()]. *)
Record File : Type := {
  type : string;
  name : string;
  dataURL : string;
  text : string
}.

(** The hook's state and refs.  [error] is [null] or the last message. *)
Record State : Type := mk {
  messages : list ChatMessage.t;
  isStreaming : bool;
  error : Json.Value;
  abortRef : bool;
  convIdRef : Json.Value
}.

Definition setMessages (f : list ChatMessage.t -> list ChatMessage.t) (st : State) : State :=
  mk (f (messages st)) (isStreaming st) (error st) (abortRef st) (convIdRef st).
Definition setIsStreaming (b : bool) (st : State) : State :=
  mk (messages st) b (error st) (abortRef st) (convIdRef st).
Definition setError (e : Json.Value) (st : State) : State :=
  mk (messages st) (isStreaming st) e (abortRef st) (convIdRef st).
Definition set_abortRef (b : bool) (st : State) : State :=
  mk (messages st) (isStreaming st) (error st) b (convIdRef st).
Definition set_convIdRef (v : Json.Value) (st : State) : State :=
  mk (messages st) (isStreaming st) (error st) (abortRef st) v.

Definition stopStreaming (st : State) : State := set_abortRef true st.

Definition clearMessages (st : State) : State :=
  setError Json.null (setMessages (fun _ => []) st).

(** One iteration of [for (const file of attachments)]. *)
Definition push_file (parts : list ContentPart) (file : File) : list ContentPart :=
  if Js.startsWith (type file) "image/" then
    parts ++ [image_url_part (dataURL file)]
  else if Js.startsWith (type file) "text/" || Js.endsWith (name file) ".ts"
          || Js.endsWith (name file) ".tsx" || Js.endsWith (name file) ".js"
          || Js.endsWith (name file) ".json" || Js.endsWith (name file) ".md" then
    parts ++ [text_part ("File: " +:+ name file +:+ String Js.nl (String Js.nl (text file)))]
  else parts.

(** [messageContent] as [sendMessage] computes it from the typed input and
    the optional attachment list. *)
Definition messageContent (content : string) (attachments : option (list File)) : Content :=
  match attachments with
  | Some ((_ :: _) as files) =>
      let parts := if Js.truthy_string (Js.trim content) then [text_part content] else [] in
      Parts (foldl push_file parts files)
  | _ => Text content
  end.

(** The kinds of attachment, in the words of the attachment rule: an
    image has a MIME type that starts with [image/]; a text-like file has
    a MIME type that starts with [text/] or a name that ends in [.ts],
    [.tsx], [.js], [.json] or [.md]. *)
Definition is_image (file : File) : bool := Js.startsWith (type file) "image/".

Definition is_text_like (file : File) : bool :=
  Js.startsWith (type file) "text/"
  || existsb (Js.endsWith (name file)) [".ts"; ".tsx"; ".js"; ".json"; ".md"].

(** The part an attachment stands for: an image its data URL, a text-like
    file its name and contents, any other file nothing. *)
Definition parts_of_file (file : File) : list ContentPart :=
  if is_image file then [image_url_part (dataURL file)]
  else if is_text_like file then
    [text_part ("File: " +:+ name file +:+ String Js.nl (String Js.nl (text file)))]
  else [].

Section Hook.
Context {P : Platform}.

(** [currentContent + token]: the string the token is appended as. *)
Definition to_string (token : Json.Value) : string :=
  match token with
  | None => "undefined"
  | Some (Json.JStr s) => s
  | Some Json.JNull => "null"
  | Some (Json.JBool true) => "true"
  | Some (Json.JBool false) => "false"
  | Some o => string_of_object o
  end.

(** The updater that [onToken] hands to [setMessages]. *)
Definition append_token (token : Json.Value) (prev : list ChatMessage.t)
  : list ChatMessage.t :=
  match last prev with
  | Some l =>
      if decide (ChatMessage.role l = assistant) then
        let currentContent :=
          match ChatMessage.content l with
          | Text s => s
          | Parts _ => EmptyString
          end in
        <[(length prev - 1)%nat :=
            ChatMessage.with_content l (Text (currentContent +:+ to_string token))]> prev
      else prev
  | None => prev
  end.

(** The callbacks [sendMessage] passes to [streamChat]. *)
Definition callbacks : Api.Sink State := {|
  Api.onToken token st :=
    if abortRef st then st else setMessages (append_token token) st;
  Api.onConversationId id st := set_convIdRef id st;
  Api.onDone _ st := setIsStreaming false st;
  Api.onError errMsg st := setIsStreaming false (setError errMsg st)
|}.

(** The sessions in which the page does nothing to the hook but press
    stop; every write to the hook that is not the call's own comes with
    [PageAction] below. *)
Inductive Action : Type := stop.

Definition meanwhile (a : Action) (st : State) : State :=
  match a with stop => stopStreaming st end.

(** The buffer of the read loop and the hook's state after the reader
    has gone through [steps], from the state [streamChat] was called
    in. *)
Definition streaming (steps : list (Api.Step Action)) (st : State) : string * State :=
  Api.read_loop callbacks meanwhile EmptyString steps st.

Definition of_option (o : option string) : Json.Value :=
  match o with
  | Some s => Json.str s
  | None => Json.undefined
  end.

(** The state when [streamChat] is called: error cleared, flag
    reset, the user message and an empty assistant message appended. *)
Definition begin (content : string) (conversationId : option string)
    (attachments : option (list File)) (st : State) : State :=
  let st := set_convIdRef (of_option conversationId) (set_abortRef false (setError Json.null st)) in
  let userMessage := ChatMessage.make user (messageContent content attachments) in
  let updatedMessages := messages st ++ [userMessage] in
  let st := setMessages (fun _ => updatedMessages) st in
  let assistantMessage := ChatMessage.make assistant (Text EmptyString) in
  setIsStreaming true (setMessages (fun prev => prev ++ [assistantMessage]) st).

Definition request (settings : ChatSettings.t) (conversationId systemPrompt : option string)
    (updatedMessages : list ChatMessage.t) : Api.ChatRequest := {|
  Api.provider := ChatSettings.provider settings;
  Api.model := ChatSettings.model settings;
  Api.messages := (fun m => (ChatMessage.role m, ChatMessage.content m)) <$> updatedMessages;
  Api.req_system_prompt := systemPrompt;
  Api.conversation_id := conversationId;
  Api.temperature := ChatSettings.temperature settings;
  Api.top_p := ChatSettings.top_p settings;
  Api.max_tokens := ChatSettings.max_tokens settings;
  Api.presence_penalty := ChatSettings.presence_penalty settings;
  Api.frequency_penalty := ChatSettings.frequency_penalty settings
|}.

(** [sendMessage]: the returned conversation id and the hook's state
    once the promise settles.  The [messages] of the closure are those of
    the state the call starts in. *)
Definition sendMessage (fetch : string -> Api.ChatRequest -> Result (Api.ChatResponse Action))
    (content : string) (settings : ChatSettings.t)
    (conversationId systemPrompt : option string) (attachments : option (list File))
    (st : State) : Json.Value * State :=
  let updatedMessages :=
    messages st ++ [ChatMessage.make user (messageContent content attachments)] in
  let st0 := begin content conversationId attachments st in
  let '(st1, outcome) :=
    Api.streamChat callbacks meanwhile fetch
      (request settings conversationId systemPrompt updatedMessages) st0 in
  let st2 :=
    match outcome with
    | Ok _ => st1
    | Throw (Error message) => setIsStreaming false (setError (Json.str message) st1)
    end in
  (convIdRef st2, st2).
End Hook.

(** *** The hook on a live page

    [sendMessage] is one of several tasks of the page.  While it awaits
    its file reads and its stream, the page can call what the hook hands
    out ([stopStreaming], [clearMessages], [setMessages], [sendMessage]
    again: the Enter key sends while a response is streaming), and another
    [sendMessage] that is still running writes the same state and the same
    two refs from its own callbacks and its own [catch]. *)

(** An attachment with how its reads end.  [FileReader] always reaches
    [loadend]: [reader.result] is the data URL, or [null] after a failed
    read; [file.text()] resolves with the contents or rejects. *)
Record Upload : Type := {
  upload_type : string;
  upload_name : string;
  reader_result : option string;
  text_result : Result string
}.

(** A [File] is an attachment whose reads succeed. *)
Definition upload_of (f : File) : Upload :=
  {| upload_type := type f; upload_name := name f;
     reader_result := Some (dataURL f); text_result := Ok (text f) |}.

(** The kinds of attachment and the parts an attachment stands for, as
    for a [File]; reading the text of a text-like file that is not an
    image can fail, and the first failure is the outcome. *)
Definition upload_is_image (u : Upload) : bool := Js.startsWith (upload_type u) "image/".

Definition upload_is_text_like (u : Upload) : bool :=
  Js.startsWith (upload_type u) "text/"
  || existsb (Js.endsWith (upload_name u)) [".ts"; ".tsx"; ".js"; ".json"; ".md"].

Definition parts_of_upload (u : Upload) : Result (list ContentPart) :=
  if upload_is_image u then
    Ok [match reader_result u with
        | Some base64 => image_url_part base64
        | None => image_null_part
        end]
  else if upload_is_text_like u then
    match text_result u with
    | Ok text =>
        Ok [text_part ("File: " +:+ upload_name u +:+ String Js.nl (String Js.nl text))]
    | Throw e => Throw e
    end
  else Ok [].

Fixpoint collect_parts (uploads : list Upload) : Result (list ContentPart) :=
  match uploads with
  | [] => Ok []
  | u :: rest =>
      match parts_of_upload u with
      | Ok parts =>
          match collect_parts rest with
          | Ok more => Ok (parts ++ more)
          | Throw e => Throw e
          end
      | Throw e => Throw e
      end
  end.

(** The attachments of a call during which nothing else runs and every
    read succeeds. *)
Definition undisturbed {A} (attachments : option (list File))
  : option (list (Upload * list A)) :=
  match attachments with
  | Some files => Some ((fun f => (upload_of f, [])) <$> files)
  | None => None
  end.

(** Every write to the hook that is not the awaited call's own. *)
Inductive PageAction : Type :=
| press_stop
| new_chat
| open_conversation (loaded : list ChatMessage.t)
| send_called (conversationId : option string)
| send_started (updatedMessages : list ChatMessage.t)
| other_stream (c : Api.Callback)
| other_failed (message : string).

(** What [sendMessage] writes when it is called, before its first
    [await]. *)
Definition called (conversationId : option string) (st : State) : State :=
  set_convIdRef (of_option conversationId) (set_abortRef false (setError Json.null st)).

(** What [sendMessage] writes once the attachments are read:
    [updatedMessages] replace the list, the empty assistant message is
    appended, the spinner is set. *)
Definition started (updatedMessages : list ChatMessage.t) (st : State) : State :=
  let st := setMessages (fun _ => updatedMessages) st in
  setIsStreaming true
    (setMessages (fun prev => prev ++ [ChatMessage.make assistant (Text EmptyString)]) st).

(** The [catch] of [sendMessage]. *)
Definition caught (message : string) (st : State) : State :=
  setIsStreaming false (setError (Json.str message) st).

Definition calls_send (a : PageAction) : bool :=
  match a with
  | send_called _ => true
  | _ => false
  end.

(** The actions that put a list in the place of the messages. *)
Definition sets_messages (a : PageAction) : bool :=
  match a with
  | new_chat | open_conversation _ | send_started _ => true
  | _ => false
  end.

(** Those of them that can put messages there. *)
Definition fills_messages (a : PageAction) : bool :=
  match a with
  | open_conversation _ | send_started _ => true
  | _ => false
  end.


Section Page.
Context {P : Platform}.

Definition page (a : PageAction) (st : State) : State :=
  match a with
  | press_stop => stopStreaming st
  | new_chat => clearMessages st
  | open_conversation loaded => setMessages (fun _ => loaded) st
  | send_called conversationId => called conversationId st
  | send_started updatedMessages => started updatedMessages st
  | other_stream c => Api.deliver callbacks st c
  | other_failed message => caught message st
  end.

Section Among.
Context {A : Type}.
Variable others : A -> State -> State.

(** Whether the loop reads the file, and so awaits. *)
Definition awaited (u : Upload) : bool :=
  Js.startsWith (upload_type u) "image/"
  || (Js.startsWith (upload_type u) "text/" || Js.endsWith (upload_name u) ".ts"
      || Js.endsWith (upload_name u) ".tsx" || Js.endsWith (upload_name u) ".js"
      || Js.endsWith (upload_name u) ".json" || Js.endsWith (upload_name u) ".md").

(** One iteration of [for (const file of attachments)], once the read is
    settled. *)
Definition push_upload (parts : list ContentPart) (u : Upload) : Result (list ContentPart) :=
  if Js.startsWith (upload_type u) "image/" then
    Ok (parts ++ [match reader_result u with
                  | Some base64 => image_url_part base64
                  | None => image_null_part
                  end])
  else if Js.startsWith (upload_type u) "text/" || Js.endsWith (upload_name u) ".ts"
          || Js.endsWith (upload_name u) ".tsx" || Js.endsWith (upload_name u) ".js"
          || Js.endsWith (upload_name u) ".json" || Js.endsWith (upload_name u) ".md" then
    text ← text_result u;
    Ok (parts ++ [text_part ("File: " +:+ upload_name u +:+ String Js.nl (String Js.nl text))])
  else Ok parts.

(** The loop over the attachments, each with what else runs while its
    read is awaited.  A rejected [file.text()] ends the loop and the
    call. *)
Fixpoint read_uploads (parts : list ContentPart) (attachments : list (Upload * list A))
    (st : State) : Result (list ContentPart) * State :=
  match attachments with
  | [] => (Ok parts, st)
  | (u, meanwhile) :: rest =>
      let st := if awaited u then foldl (fun s a => others a s) st meanwhile else st in
      match push_upload parts u with
      | Ok parts => read_uploads parts rest st
      | Throw e => (Throw e, st)
      end
  end.

(** [messageContent], read from the attachments. *)
Definition read_content (content : string) (attachments : option (list (Upload * list A)))
    (st : State) : Result Content * State :=
  match attachments with
  | Some ((_ :: _) as files) =>
      let parts := if Js.truthy_string (Js.trim content) then [text_part content] else [] in
      match read_uploads parts files st with
      | (Ok parts, st) => (Ok (Parts parts), st)
      | (Throw e, st) => (Throw e, st)
      end
  | _ => (Ok (Text content), st)
  end.

(** [sendMessage] among the other tasks of the page: how the promise
    settles and the hook's state then.  [captured] is the [messages] of the
    render the callback was created in. *)
Definition sendMessage_among
    (fetch : string -> Api.ChatRequest -> Result (Api.ChatResponse A))
    (captured : list ChatMessage.t) (content : string) (settings : ChatSettings.t)
    (conversationId systemPrompt : option string)
    (attachments : option (list (Upload * list A))) (st : State)
  : Result Json.Value * State :=
  let st := called conversationId st in
  match read_content content attachments st with
  | (Throw e, st) => (Throw e, st)
  | (Ok messageContent, st) =>
      let updatedMessages := captured ++ [ChatMessage.make user messageContent] in
      let st0 := started updatedMessages st in
      let '(st1, outcome) :=
        Api.streamChat callbacks others fetch
          (request settings conversationId systemPrompt updatedMessages) st0 in
      let st2 :=
        match outcome with
        | Ok _ => st1
        | Throw (Error message) => caught message st1
        end in
      (Ok (convIdRef st2), st2)
  end.
End Among.

End Page.

End UseChat.

(** ** hooks/useConversations.ts *)

Module UseConversations.

Record State : Type := mk {
  conversations : list Conversation.t;
  activeConversation : option ConversationDetail.t;
  isLoading : bool
}.

Definition setConversations (data : list Conversation.t) (st : State) : State :=
  mk data (activeConversation st) (isLoading st).
Definition setActiveConversation
    (f : option ConversationDetail.t -> option ConversationDetail.t) (st : State) : State :=
  mk (conversations st) (f (activeConversation st)) (isLoading st).

(** [loadConversations]: a failure is logged and swallowed. *)
Definition loadConversations (fetch : Api.Fetch (list Conversation.t)) (st : State) : State :=
  match Api.listConversations fetch with
  | Ok data => setConversations data st
  | Throw _ => st
  end.

(** [renameConversation(id, title)].  [captured] is the [activeConversation]
    of the render the callback was created in, which the [if] tests; the
    updater receives the state current when it runs. *)
Definition renameConversation (fetch_update : Api.Fetch Api.Status)
    (fetch_list : Api.Fetch (list Conversation.t))
    (captured : option ConversationDetail.t)
    (id title : string) (st : State) : State * Result unit :=
  match Api.updateConversation fetch_update id
          {| Api.title := Some title; Api.system_prompt := None |} with
  | Throw e => (st, Throw e)
  | Ok _ =>
      let st1 := loadConversations fetch_list st in
      let st2 :=
        if bool_decide (ConversationDetail.id <$> captured = Some id) then
          setActiveConversation
            (fun prev => match prev with
                         | Some c => Some (ConversationDetail.with_title c title)
                         | None => None
                         end) st1
        else st1 in
      (st2, Ok ())
  end.

(** [removeConversation(id)]; [captured] is the [activeConversation] of the
    render the callback was created in. *)
Definition removeConversation (fetch_delete : Api.Fetch Api.Status)
    (fetch_list : Api.Fetch (list Conversation.t))
    (captured : option ConversationDetail.t) (id : string) (st : State)
  : State * Result unit :=
  match Api.deleteConversation fetch_delete id with
  | Throw e => (st, Throw e)
  | Ok _ =>
      let st1 :=
        if bool_decide (ConversationDetail.id <$> captured = Some id)
        then setActiveConversation (fun _ => None) st
        else st in
      (loadConversations fetch_list st1, Ok ())
  end.

End UseConversations.

(** ** hooks/useProviders.ts *)

Module UseProviders.

Record State : Type := mk {
  providers : list Provider.t;
  isLoading : bool
}.

(** [loadProviders] *)
Definition loadProviders (fetch : Api.Fetch (list Provider.t)) (st : State) : State :=
  let st := mk (providers st) true in
  let st :=
    match Api.listProviders fetch with
    | Ok data => mk data (isLoading st)
    | Throw _ => st
    end in
  mk (providers st) false.

(** [testConnection] *)
Definition testConnection (fetch : Api.Fetch ProviderTestResult.t) (name : string)
  : Result ProviderTestResult.t :=
  Api.testProvider fetch name.

End UseProviders.

(** ** App.tsx *)

Module App.

(** [handleSettingsChange]: [{ ...prev, ...partial }].  The copy written to
    [localStorage] is not part of the state and is left out. *)
Definition handleSettingsChange (partial : ChatSettings.partial) (prev : ChatSettings.t)
  : ChatSettings.t :=
  ChatSettings.mk
    (default (ChatSettings.provider prev) (ChatSettings.p_provider partial))
    (default (ChatSettings.model prev) (ChatSettings.p_model partial))
    (ChatSettings.temperature prev) (ChatSettings.top_p prev)
    (ChatSettings.max_tokens prev) (ChatSettings.presence_penalty prev)
    (ChatSettings.frequency_penalty prev)
    (match ChatSettings.p_provider_options partial with
     | Some o => Some o
     | None => ChatSettings.provider_options prev
     end).

End App.

(** ** components/SettingsPanel.tsx *)

Module SettingsPanel.

(** The panel's own state (the hooks [useState] it declares that the
    modelled handlers read or write). *)
Record State : Type := mk {
  expanded : option string;
  results : gmap string ProviderTestResult.t;
  testing : option string;
  modelSearch : string;
  dynamicModels : gmap string (list string)
}.

Definition setExpanded (e : option string) (st : State) : State :=
  mk e (results st) (testing st) (modelSearch st) (dynamicModels st).
Definition setResults
    (f : gmap string ProviderTestResult.t -> gmap string ProviderTestResult.t)
    (st : State) : State :=
  mk (expanded st) (f (results st)) (testing st) (modelSearch st) (dynamicModels st).
Definition setTesting (t : option string) (st : State) : State :=
  mk (expanded st) (results st) t (modelSearch st) (dynamicModels st).

(** [test]: [try { ... } catch { ... } finally { setTesting(null) }]. *)
Definition test (onTestProvider : string -> Result ProviderTestResult.t)
    (n : string) (st : State) : Result State :=
  let st := setTesting (Some n) st in
  let tried :=
    try_catch
      (r ← onTestProvider n;
       Ok (setResults (fun p => <[n := r]> p) st))
      (fun _ =>
         Ok (setResults
               (fun p => <[n := ProviderTestResult.mk false "Failed" None]> p) st)) in
  st' ← tried;
  Ok (setTesting None st').

(** The panel with its props: the settings that [App] holds. *)
Record World : Type := {
  settings : ChatSettings.t;
  panel : State
}.

Definition onSettingsChange (partial : ChatSettings.partial) (w : World) : World :=
  {| settings := App.handleSettingsChange partial (settings w); panel := panel w |}.

Definition field (key : OptionKey) (o : ProviderOptions.t) : option bool :=
  match key with
  | free_only => ProviderOptions.free_only o
  | auto_choose => ProviderOptions.auto_choose o
  end.

(** [settings.provider_options?.[providerName]?.[key] ?? false] *)
Definition getOption (settings : ChatSettings.t) (providerName : string) (key : OptionKey)
  : bool :=
  match ChatSettings.provider_options settings with
  | None => false
  | Some options =>
      match options !! providerName with
      | None => false
      | Some o => default false (field key o)
      end
  end.

(** [{ ...o, [key]: val }] *)
Definition with_field (key : OptionKey) (val : bool) (o : ProviderOptions.t)
  : ProviderOptions.t :=
  match key with
  | free_only => ProviderOptions.mk (Some val) (ProviderOptions.auto_choose o)
  | auto_choose => ProviderOptions.mk (ProviderOptions.free_only o) (Some val)
  end.

(** [updateOption]: the partial settings it sends. *)
Definition updateOption (settings : ChatSettings.t) (providerName : string)
    (key : OptionKey) (val : bool) : ChatSettings.partial :=
  let options := default ∅ (ChatSettings.provider_options settings) in
  let options :=
    <[providerName :=
        with_field key val (default ProviderOptions.empty (options !! providerName))]> options in
  ChatSettings.mk_partial None None (Some options).

Definition isSelected (w : World) (p : Provider.t) : bool :=
  bool_decide (ChatSettings.provider (settings w) = Provider.name p).
Definition isExpanded (w : World) (p : Provider.t) : bool :=
  bool_decide (expanded (panel w) = Some (Provider.name p)).

(** [onClick] of the provider's [SelectionCard]. *)
Definition card_onClick (p : Provider.t) (w : World) : World :=
  let w1 :=
    if negb (isSelected w p) then
      let model :=
        if getOption (settings w) (Provider.name p) auto_choose
        then "openrouter/auto" else Provider.default_model p in
      onSettingsChange (ChatSettings.mk_partial (Some (Provider.name p)) (Some model) None) w
    else w in
  {| settings := settings w1;
     panel := setExpanded (if isExpanded w p then None else Some (Provider.name p)) (panel w1) |}.

(** [onChange] of the free-only checkbox. *)
Definition free_only_onChange (p : Provider.t) (checked : bool) (w : World) : World :=
  onSettingsChange (updateOption (settings w) (Provider.name p) free_only checked) w.

(** [onChange] of the auto-choose checkbox. *)
Definition auto_choose_onChange (p : Provider.t) (checked : bool) (w : World) : World :=
  let w1 := onSettingsChange (updateOption (settings w) (Provider.name p) auto_choose checked) w in
  if isSelected w p then
    onSettingsChange
      (ChatSettings.mk_partial None
         (Some (if checked then "openrouter/auto" else Provider.default_model p)) None) w1
  else w1.

(** [onClick] of the use-provider button. *)
Definition use_provider_onClick (p : Provider.t) (w : World) : World :=
  onSettingsChange
    (ChatSettings.mk_partial (Some (Provider.name p)) (Some (Provider.default_model p)) None) w.

(** [onClick] of a model button. *)
Definition model_onClick (p : Provider.t) (m : string) (w : World) : World :=
  if isSelected w p then onSettingsChange (ChatSettings.mk_partial None (Some m) None) w
  else w.

(** [Array.from(new Set(l))]: first occurrences, in order. *)
Fixpoint unique_from (seen l : list string) : list string :=
  match l with
  | [] => []
  | m :: l' =>
      if bool_decide (m ∈ seen) then unique_from seen l'
      else m :: unique_from (m :: seen) l'
  end.

(** [dynamicModels[name]]: the state is a plain object, so the read finds
    the own entry, else a member of [Object.prototype], else [undefined]. *)
Inductive Lookup : Type :=
| own (models : list string)
| inherited
| missing.

Definition read_dynamicModels (st : State) (name : string) : Lookup :=
  match dynamicModels st !! name with
  | Some models => own models
  | None => if Js.on_Object_prototype name then inherited else missing
  end.

(** [Array.from(new Set([...baseModels, ...currentDynamicModels]))] with
    [currentDynamicModels = dynamicModels[p.name] || []]: a member of
    [Object.prototype] is truthy and not iterable, and the spread throws. *)
Definition combinedModels (p : Provider.t) (w : World) : Result (list string) :=
  let baseModels := default [] (Provider.models p) in
  match read_dynamicModels (panel w) (Provider.name p) with
  | own currentDynamicModels => Ok (unique_from [] (baseModels ++ currentDynamicModels))
  | missing => Ok (unique_from [] (baseModels ++ []))
  | inherited => Throw (Error "TypeError")
  end.

(** The predicate of the free-only [filter]. *)
Definition free_tier (m : string) : bool :=
  Js.includes (Js.toLowerCase m) "free" || Js.endsWith (Js.toLowerCase m) ":free".

(** What the model selection area renders: a text input holding a model
    name, or one button per candidate model with its selected mark. *)
Inductive ModelArea : Type :=
| model_input (value : string)
| model_buttons (candidates : list (string * bool)).

Definition current_model (p : Provider.t) (w : World) : string :=
  if isSelected w p then ChatSettings.model (settings w) else Provider.default_model p.

(** The model area of an expanded card; [Throw] when rendering it
    throws. *)
Definition model_area (p : Provider.t) (w : World) : Result ModelArea :=
  combined ← combinedModels p w;
  match combined with
  | [] => Ok (model_input (current_model p w))
  | _ :: _ =>
      let filtered := combined in
      let filtered :=
        if getOption (settings w) (Provider.name p) free_only
        then filter (fun m => Is_true (free_tier m)) filtered else filtered in
      let filtered :=
        if Js.truthy_string (modelSearch (panel w)) then
          let q := Js.toLowerCase (modelSearch (panel w)) in
          filter (fun m => Is_true (Js.includes (Js.toLowerCase m) q)) filtered
        else filtered in
      Ok (model_buttons ((fun m => (m, bool_decide (current_model p w = m))) <$> filtered))
  end.

(** The details of an expanded card are on the page when rendering them
    does not throw. *)
Definition card_renders (w : World) (p : Provider.t) : bool :=
  match model_area p w with
  | Ok _ => true
  | Throw _ => false
  end.

(** The models offered as buttons. *)
Definition candidates (area : ModelArea) : list string :=
  match area with
  | model_input _ => []
  | model_buttons l => fst <$> l
  end.

(** The controls of the panel that change the settings or the expanded
    card, as events. *)
Inductive Event : Type :=
| click_card (p : Provider.t)
| change_free_only (p : Provider.t) (checked : bool)
| change_auto_choose (p : Provider.t) (checked : bool)
| click_use_provider (p : Provider.t)
| click_model (p : Provider.t) (m : string)
| commit_model_name (mi : string).

(** Whether the control is on the page: the details of a provider are
    rendered only while its card is expanded and rendering them does not
    throw, the free-only box only with a non-empty catalog, the auto-choose
    box only for [openrouter], the use-provider button only for a provider
    that is not the selected one, a model button only for a candidate.
    While auto-choose is on for the selected provider the model list is
    dimmed by a style class only; its buttons still take a click from the
    keyboard. *)
Definition rendered (w : World) (e : Event) : bool :=
  match e with
  | click_card _ => true
  | change_free_only p _ =>
      isExpanded w p && card_renders w p &&
      (bool_decide (default [] (Provider.models p) <> [])
       || bool_decide (default [] (dynamicModels (panel w) !! Provider.name p) <> []))
  | change_auto_choose p _ =>
      isExpanded w p && card_renders w p && bool_decide (Provider.name p = "openrouter")
  | click_use_provider p => isExpanded w p && card_renders w p && negb (isSelected w p)
  | click_model p m =>
      isExpanded w p &&
      match model_area p w with
      | Ok area => bool_decide (m ∈ candidates area)
      | Throw _ => false
      end
  | commit_model_name _ => true
  end.

Definition handle (w : World) (e : Event) : World :=
  match e with
  | click_card p => card_onClick p w
  | change_free_only p checked => free_only_onChange p checked w
  | change_auto_choose p checked => auto_choose_onChange p checked w
  | click_use_provider p => use_provider_onClick p w
  | click_model p m => model_onClick p m w
  | commit_model_name mi =>
      if Js.truthy_string (Js.trim mi)
      then onSettingsChange (ChatSettings.mk_partial None (Some (Js.trim mi)) None) w
      else w
  end.

Definition step (w : World) (e : Event) : World :=
  if rendered w e then handle w e else w.

(** Only the selected provider's card is expanded, if any. *)
Definition expanded_is_selected (w : World) : Prop :=
  expanded (panel w) = None \/
  expanded (panel w) = Some (ChatSettings.provider (settings w)).

(** The read-only API key field of an expanded provider:
    [<input value={p.api_key} readOnly type="password" />]. *)
Record Input : Type := {
  value : string;
  readOnly : bool;
  input_type : string
}.

Definition api_key_field (p : Provider.t) : Input :=
  {| value := Provider.api_key p; readOnly := true; input_type := "password" |}.

Definition setDynamicModels
    (f : gmap string (list string) -> gmap string (list string)) (st : State) : State :=
  mk (expanded st) (results st) (testing st) (modelSearch st) (f (dynamicModels st)).

(** [handleRefreshModels], on the panel state paired with [fetchingModels]:
    [try { ... } catch { log } finally { setFetchingModels(null) }].  The
    request is a plain [fetch] of the models URL. *)
Definition handleRefreshModels (fetch : Api.Fetch (list string)) (providerName : string)
    (st : State * option string) : Result (State * option string) :=
  let st := (fst st, Some providerName) in
  let tried :=
    try_catch
      (response ← fetch ("/api/providers/" +:+ providerName +:+ "/models") None;
       if Api.ok response then
         models ← Api.json response;
         Ok (setDynamicModels (fun prev => <[providerName := models]> prev) (fst st), snd st)
       else Ok st)
      (fun _ => Ok st) in
  st' ← tried;
  Ok (fst st', None).

(** The add-provider form: [np] and [showAdd]. *)
Record AddForm : Type := {
  np : ProviderCreate.t;
  showAdd : bool
}.

Definition blank_provider : ProviderCreate.t :=
  ProviderCreate.mk EmptyString EmptyString EmptyString (Some EmptyString) (Some EmptyString)
    None None.

(** [s.replace(/\s/g, '_')], on the code units below 256. *)
Fixpoint replace_spaces (s : string) : string :=
  match s with
  | EmptyString => EmptyString
  | String c s' => String (if Js.is_white c then "_"%char else c) (replace_spaces s')
  end.

(** The controls of the form. *)
Inductive FormEvent : Type :=
| click_show
| click_cancel
| type_name (value : string)
| type_display_name (value : string)
| type_base_url (value : string)
| type_api_key (value : string)
| type_default_model (value : string)
| click_add.

(** [setNp(p => ({ ...p, field: ... }))] for each input of the form. *)
Definition type_into (e : FormEvent) (p : ProviderCreate.t) : ProviderCreate.t :=
  match e with
  | type_name value =>
      ProviderCreate.mk (replace_spaces (Js.toLowerCase value)) (ProviderCreate.display_name p)
        (ProviderCreate.base_url p) (ProviderCreate.api_key p) (ProviderCreate.default_model p)
        (ProviderCreate.access_method p) (ProviderCreate.icon p)
  | type_display_name value =>
      ProviderCreate.mk (ProviderCreate.name p) value
        (ProviderCreate.base_url p) (ProviderCreate.api_key p) (ProviderCreate.default_model p)
        (ProviderCreate.access_method p) (ProviderCreate.icon p)
  | type_base_url value =>
      ProviderCreate.mk (ProviderCreate.name p) (ProviderCreate.display_name p)
        value (ProviderCreate.api_key p) (ProviderCreate.default_model p)
        (ProviderCreate.access_method p) (ProviderCreate.icon p)
  | type_api_key value =>
      ProviderCreate.mk (ProviderCreate.name p) (ProviderCreate.display_name p)
        (ProviderCreate.base_url p) (Some value) (ProviderCreate.default_model p)
        (ProviderCreate.access_method p) (ProviderCreate.icon p)
  | type_default_model value =>
      ProviderCreate.mk (ProviderCreate.name p) (ProviderCreate.display_name p)
        (ProviderCreate.base_url p) (ProviderCreate.api_key p) (Some value)
        (ProviderCreate.access_method p) (ProviderCreate.icon p)
  | _ => p
  end.

(** [add], with the providers handed to [onAddProvider] so far.  When
    [onAddProvider] rejects, the form is left as it is. *)
Definition add (onAddProvider : ProviderCreate.t -> Result unit)
    (st : AddForm * list ProviderCreate.t) : AddForm * list ProviderCreate.t :=
  let form := fst st in
  if negb (Js.truthy_string (ProviderCreate.name (np form)))
     || negb (Js.truthy_string (ProviderCreate.display_name (np form)))
     || negb (Js.truthy_string (ProviderCreate.base_url (np form)))
  then st
  else
    match onAddProvider (np form) with
    | Throw _ => (form, snd st ++ [np form])
    | Ok _ => ({| np := blank_provider; showAdd := false |}, snd st ++ [np form])
    end.

(** One event on the form; the inputs and the two buttons are on the page
    only while [showAdd] holds, the opening button only while it does
    not. *)
Definition form_step (onAddProvider : ProviderCreate.t -> Result unit)
    (st : AddForm * list ProviderCreate.t) (e : FormEvent) : AddForm * list ProviderCreate.t :=
  let form := fst st in
  match e with
  | click_show => if showAdd form then st else ({| np := np form; showAdd := true |}, snd st)
  | click_cancel => if showAdd form then ({| np := np form; showAdd := false |}, snd st) else st
  | click_add => if showAdd form then add onAddProvider st else st
  | _ => if showAdd form then ({| np := type_into e (np form); showAdd := true |}, snd st) else st
  end.

(** The form when the panel is mounted. *)
Definition initial_form : AddForm := {| np := blank_provider; showAdd := false |}.

End SettingsPanel.

(** ** components/ChatArea.tsx *)

Module ChatArea.

(** [l.filter((_, i) => keep(i))], counting from [i]. *)
Fixpoint filter_index {X} (keep : nat -> bool) (i : nat) (l : list X) : list X :=
  match l with
  | [] => []
  | x :: l' =>
      if keep i then x :: filter_index keep (S i) l' else filter_index keep (S i) l'
  end.

(** [removeAttachment(index)] *)
Definition removeAttachment (index : nat) (prev : list UseChat.File) : list UseChat.File :=
  filter_index (fun i => negb (Nat.eqb i index)) O prev.

(** [handleSend]: what is handed to [onSend], if anything, with the input
    and the attachments afterwards. *)
Definition handleSend (input : string) (attachments : list UseChat.File)
  : option (string * list UseChat.File) * string * list UseChat.File :=
  if negb (Js.truthy_string (Js.trim input)) && bool_decide (length attachments = O)
  then (None, input, attachments)
  else (Some (input, attachments), EmptyString, []).

End ChatArea.

(** ** components/MessageBubble.tsx *)

Module MessageBubble.

(** What a bubble shows: a markdown block or an image; [src={null}]
    gives an image without source. *)
Inductive Node : Type :=
| markdown (source : string)
| img (src : string)
| img_without_src.

(** One step of [content.map]: a text part with an empty text gives
    [null]. *)
Definition render_part (part : ContentPart) : option Node :=
  match part with
  | text_part text => if Js.truthy_string text then Some (markdown text) else None
  | image_url_part url => Some (img url)
  | image_null_part => Some img_without_src
  end.

(** [renderContent], without the [null]s. *)
Definition renderContent (content : Content) : list Node :=
  match content with
  | Text s => [markdown s]
  | Parts parts => omap render_part parts
  end.

End MessageBubble.

(** ** contexts/ThemeContext.tsx *)

Module ThemeContext.

Inductive ThemeMode : Type := system | light | dark.

Inductive Resolved : Type := resolved_light | resolved_dark.

(** The string a mode is in the source. *)
Definition mode_name (m : ThemeMode) : string :=
  match m with
  | system => "system"
  | light => "light"
  | dark => "dark"
  end.

(** [getSystemPreference]; [window] is [None] where there is no window,
    else whether the dark colour scheme is preferred. *)
Definition getSystemPreference (window : option bool) : Resolved :=
  match window with
  | None => resolved_light
  | Some true => resolved_dark
  | Some false => resolved_light
  end.

Definition resolveTheme (window : option bool) (mode : ThemeMode) : Resolved :=
  match mode with
  | system => getSystemPreference window
  | light => resolved_light
  | dark => resolved_dark
  end.

(** The initial state, from [localStorage.getItem('dagbot-theme')]. *)
Definition initial (stored : option string) : ThemeMode :=
  match stored with
  | Some v =>
      if String.eqb v "light" then light
      else if String.eqb v "dark" then dark
      else if String.eqb v "system" then system
      else system
  | None => system
  end.

(** The provider's state with the stored item. *)
Record State : Type := {
  theme : ThemeMode;
  stored : option string
}.

Definition setTheme (newTheme : ThemeMode) (st : State) : State :=
  {| theme := newTheme; stored := Some (mode_name newTheme) |}.

(** [toggleTheme], in a render that sees [theme st] and the system
    preference [window]. *)
Definition toggleTheme (window : option bool) (st : State) : State :=
  setTheme (match resolveTheme window (theme st) with
            | resolved_dark => light
            | resolved_light => dark
            end) st.

End ThemeContext.

(** ** components/PromptLibrary.tsx *)

Module PromptLibrary.

Record State : Type := mk {
  search : string;
  editing : option SavedPrompt.t;
  creating : bool;
  form : PromptCreate.t
}.

Definition blank_form : PromptCreate.t :=
  PromptCreate.mk EmptyString EmptyString (Some "General") (Some []) None.

(** The predicate of [prompts.filter]. *)
Definition matches (search : string) (p : SavedPrompt.t) : bool :=
  Js.includes (Js.toLowerCase (SavedPrompt.title p)) (Js.toLowerCase search)
  || Js.includes (Js.toLowerCase (SavedPrompt.content p)) (Js.toLowerCase search)
  || Js.includes (Js.toLowerCase (SavedPrompt.category p)) (Js.toLowerCase search).

Definition filtered (prompts : list SavedPrompt.t) (search : string) : list SavedPrompt.t :=
  filter (fun p => Is_true (matches search p)) prompts.

(** [startEdit] *)
Definition startEdit (p : SavedPrompt.t) (st : State) : State :=
  mk (search st) (Some p) true
     (PromptCreate.mk (SavedPrompt.title p) (SavedPrompt.content p)
        (Some (SavedPrompt.category p)) (Some (SavedPrompt.tags p)) None).

(** The call [handleSave] makes: [onEdit(id, form)] or [onAdd(form)]. *)
Inductive Call : Type :=
| edit (id : string) (data : PromptCreate.t)
| create (data : PromptCreate.t).

(** [handleSave]: the state afterwards, the call made, if any, and how the
    handler ends. *)
Definition handleSave (perform : Call -> Result unit) (st : State)
  : State * option Call * Result unit :=
  if negb (Js.truthy_string (Js.trim (PromptCreate.title (form st))))
     || negb (Js.truthy_string (Js.trim (PromptCreate.content (form st))))
  then (st, None, Ok ())
  else
    match editing st with
    | Some p =>
        let call := edit (SavedPrompt.id p) (form st) in
        match perform call with
        | Throw e => (st, Some call, Throw e)
        | Ok _ => (mk (search st) None (creating st) blank_form, Some call, Ok ())
        end
    | None =>
        let call := create (form st) in
        match perform call with
        | Throw e => (st, Some call, Throw e)
        | Ok _ => (mk (search st) None false blank_form, Some call, Ok ())
        end
    end.

End PromptLibrary.

(** ** The provider list of the back end *)

Module Backend.

(** Modelled from the spec: the handler of [GET /api/providers] is back-end
    code outside the sources at hand.  The spec has the registry hold each
    provider with its credential and says that credentials are never echoed
    back in list responses: the response lists every provider of the
    registry, in order, with the credential slot left blank. *)
Definition without_credential (p : Provider.t) : Provider.t :=
  Provider.mk (Provider.name p) (Provider.display_name p) (Provider.base_url p)
    EmptyString (Provider.default_model p) (Provider.access_method p) (Provider.icon p)
    (Provider.is_custom p) (Provider.description p) (Provider.recommended p)
    (Provider.models p).

(** Two provider records that differ at most in the credential. *)
Definition same_public (p p' : Provider.t) : Prop :=
  without_credential p = without_credential p'.

Definition list_providers (registry : list Provider.t) : Api.Fetch (list Provider.t) :=
  fun _ _ =>
    Ok {| Api.ok := true; Api.status := 200; Api.text := EmptyString;
          Api.json := Ok (without_credential <$> registry) |}.

End Backend.

(** ** Observing a chat stream *)

Module Stream.

Section Observe.
Context {P : Platform}.

(** The callbacks one line makes [streamChat] invoke, as recorded. *)
Definition calls_of_line (line : string) : list Api.Callback :=
  Api.handle_line Api.recorder [] line.

(** The lines of a text that a line feed terminates. *)
Definition complete_lines (text : string) : list string :=
  removelast (Js.split_nl text).

(** All the text the reader yields, whatever runs in between. *)
Fixpoint received {A} (steps : list (Api.Step A)) : string :=
  match steps with
  | [] => EmptyString
  | Api.Read value :: rest => value +:+ received rest
  | Api.Meanwhile _ :: rest => received rest
  end.

(** What runs between the reads, in order. *)
Fixpoint interleaved {A} (steps : list (Api.Step A)) : list A :=
  match steps with
  | [] => []
  | Api.Read _ :: rest => interleaved rest
  | Api.Meanwhile a :: rest => a :: interleaved rest
  end.

(** The events the response text carries, in order. *)
Definition events (text : string) : list Api.Callback :=
  flat_map calls_of_line (complete_lines text).

(** What the read loop delivers to a recording sink. *)
Definition delivered {A} (steps : list (Api.Step A)) : list Api.Callback :=
  snd (Api.read_loop Api.recorder (fun _ log => log) EmptyString steps []).

(** What [streamChat] as a whole delivers to a recording sink. *)
Definition streamed {A} (fetch : string -> Api.ChatRequest -> Result (Api.ChatResponse A))
    (request : Api.ChatRequest) : list Api.Callback :=
  fst (Api.streamChat Api.recorder (fun _ log => log) fetch request []).

(** A token event, in the words of the wire format: a line [data: ]
    followed by a JSON object whose [type] is the string [token]; it
    carries the object's [content]. *)
Definition token_of_line (line : string) : option Json.Value :=
  if Js.startsWith line "data: " then
    match JSON_parse (Js.slice 6 line) with
    | Some (Json.JObj fields) =>
        if Json.is_string (Json.lookup_field fields "type") "token"
        then Some (Json.lookup_field fields "content") else None
    | _ => None
    end
  else None.
End Observe.

(** The last element of a split: the unfinished line, kept in the buffer. *)
Definition pending (text : string) : string :=
  default EmptyString (last (Js.split_nl text)).

Definition is_terminal (c : Api.Callback) : bool :=
  match c with
  | Api.Done _ | Api.Failure _ => true
  | _ => false
  end.

Definition token_of (c : Api.Callback) : option Json.Value :=
  match c with
  | Api.Token v => Some v
  | _ => None
  end.

Definition tokens (calls : list Api.Callback) : list Json.Value := omap token_of calls.

(** Exactly one terminal event, and no token after it. *)
Fixpoint well_terminated (calls : list Api.Callback) : bool :=
  match calls with
  | [] => false
  | c :: rest =>
      if is_terminal c
      then forallb (fun c' => negb (is_terminal c') && negb (bool_decide (is_Some (token_of c')))) rest
      else well_terminated rest
  end.

(** The shapes of parsed event data that [streamChat] recognizes, each with
    the callback it stands for. *)
Inductive recognized : Json.JValue -> Api.Callback -> Prop :=
| recognized_token fields :
    Json.lookup_field fields "type" = Json.str "token" ->
    recognized (Json.JObj fields) (Api.Token (Json.lookup_field fields "content"))
| recognized_conversation_id fields :
    Json.lookup_field fields "type" = Json.str "conversation_id" ->
    recognized (Json.JObj fields) (Api.ConversationId (Json.lookup_field fields "id"))
| recognized_done fields :
    Json.lookup_field fields "type" = Json.str "done" ->
    recognized (Json.JObj fields) (Api.Done (Json.lookup_field fields "conversation_id"))
| recognized_error fields :
    Json.lookup_field fields "type" = Json.str "error" ->
    recognized (Json.JObj fields) (Api.Failure (Json.lookup_field fields "message"))
| recognized_error_field fields :
    Json.is_string (Json.lookup_field fields "type") "token" = false ->
    Json.is_string (Json.lookup_field fields "type") "conversation_id" = false ->
    Json.is_string (Json.lookup_field fields "type") "done" = false ->
    Json.is_string (Json.lookup_field fields "type") "error" = false ->
    Json.truthy (Json.lookup_field fields "error") = true ->
    recognized (Json.JObj fields) (Api.Failure (Json.lookup_field fields "error")).

(** The state [sendMessage] ends in when [streamChat] throws before it
    reads: the user message and the empty assistant message stay, the
    message of the exception is shown, the spinner is off. *)
Definition failed (message : string) (content : string) (cid : option string)
    (att : option (list UseChat.File)) (st : UseChat.State) : UseChat.State :=
  UseChat.mk
    (UseChat.messages st ++
       [ChatMessage.make user (UseChat.messageContent content att);
        ChatMessage.make assistant (Text EmptyString)])
    false (Json.str message) false (UseChat.of_option cid).

Definition conversation_id_of (c : Api.Callback) : option Json.Value :=
  match c with
  | Api.ConversationId v => Some v
  | _ => None
  end.

Definition failure_of (c : Api.Callback) : option Json.Value :=
  match c with
  | Api.Failure v => Some v
  | _ => None
  end.

End Stream.

(** ** Concrete wire data *)

Module Wire.

(** The platform the examples run on: the parser of [Json]; every payload
    of the examples is a string, for which [string_of_object] is never
    consulted. *)
#[export] Instance reference : Platform := {|
  JSON_parse := Json.parse;
  string_of_object := fun _ => "[object Object]"
|}.

(** [data: {...}] followed by a line feed. *)
Definition data_line (fields : list (string * string)) : string :=
  "data: " +:+ Json.object_text fields +:+ String Js.nl EmptyString.

Definition token (content : string) : string :=
  data_line [("type", "token"); ("content", content)].
Definition done (id : string) : string :=
  data_line [("type", "done"); ("conversation_id", id)].
Definition failure (message : string) : string :=
  data_line [("type", "error"); ("message", message)].
Definition conversation_id (id : string) : string :=
  data_line [("type", "conversation_id"); ("id", id)].

Definition request : Api.ChatRequest :=
  {| Api.provider := "demo"; Api.model := "x";
     Api.messages := [(user, Text "hi")];
     Api.req_system_prompt := None; Api.conversation_id := None;
     Api.temperature := 0.5%float; Api.top_p := 1%float; Api.max_tokens := 4096%float;
     Api.presence_penalty := 0%float; Api.frequency_penalty := 0%float |}.

Definition blank : UseChat.State :=
  UseChat.mk [] false Json.null false Json.undefined.

Definition settings : ChatSettings.t :=
  ChatSettings.mk "demo" "x" 0.5%float 1%float 4096%float 0%float 0%float None.

Definition openrouter (catalog : list string) : Provider.t :=
  Provider.mk "openrouter" "OpenRouter" "https://openrouter.ai/api/v1" EmptyString
    "google/gemini-2.0-flash-exp:free" "api" "openrouter" false None (Some true)
    (Some catalog).

(** Settings with [ollama] selected and the given options stored for
    [openrouter]. *)
Definition with_options (o : ProviderOptions.t) : SettingsPanel.World :=
  {| SettingsPanel.settings :=
       ChatSettings.mk "ollama" "llama3" 0.5%float 1%float 4096%float 0%float 0%float
         (Some {[ "openrouter" := o ]});
     SettingsPanel.panel := SettingsPanel.mk None ∅ None EmptyString ∅ |}.

(** A server that cannot be reached. *)
Definition unreachable {T} : Api.Fetch T :=
  fun _ _ => Throw (Error "Failed to fetch").

(** A server that answers every request with the given payload. *)
Definition replies {T} (payload : T) : Api.Fetch T :=
  fun _ _ => Ok {| Api.ok := true; Api.status := 200; Api.text := EmptyString;
                   Api.json := Ok payload |}.

Definition conversation (id title : string) : ConversationDetail.t :=
  ConversationDetail.mk id title (Some "Be brief.") "2026-01-01T10:00:00"
    "2026-01-02T11:00:00" None 2%float
    [ChatMessage.make user (Text "hi"); ChatMessage.make assistant (Text "Hello")].

(** A server that answers every chat request with the given body. *)
Definition answers {A} (steps : list (Api.Step A)) (ending : Api.ReadEnd)
  : string -> Api.ChatRequest -> Result (Api.ChatResponse A) :=
  fun _ _ => Ok {| Api.chat_ok := true; Api.chat_status := 200;
                   Api.chat_body := Some (steps, ending) |}.

End Wire.

(** * Properties *)

(** ** Strings and lines *)

Section Lines.

Import Stream.

Lemma append_cons (c : ascii) (a b : string) : String c a +:+ b = String c (a +:+ b).
Proof. reflexivity. Qed.

Lemma append_empty_l (b : string) : EmptyString +:+ b = b.
Proof. reflexivity. Qed.

Lemma append_empty_r (a : string) : a +:+ EmptyString = a.
Proof. induction a as [|c a IH]; [reflexivity|]. rewrite append_cons, IH. reflexivity. Qed.

Lemma append_assoc (a b c : string) : (a +:+ b) +:+ c = a +:+ (b +:+ c).
Proof.
  induction a as [|x a IH]; [reflexivity|].
  rewrite !append_cons, IH. reflexivity.
Qed.

Lemma split_nl_not_nil (s : string) : Js.split_nl s <> [].
Proof.
  destruct s as [|c s]; simpl; [discriminate|].
  destruct (Ascii.eqb c Js.nl); [discriminate|].
  destruct (Js.split_nl s); discriminate.
Qed.

Lemma split_nl_cons_nl (s : string) :
  Js.split_nl (String Js.nl s) = EmptyString :: Js.split_nl s.
Proof. reflexivity. Qed.

Lemma split_nl_cons_other (c : ascii) (s : string) :
  Ascii.eqb c Js.nl = false ->
  exists l ls, Js.split_nl s = l :: ls /\ Js.split_nl (String c s) = String c l :: ls.
Proof.
  intros Hc. simpl. rewrite Hc.
  destruct (Js.split_nl s) as [|l ls] eqn:E.
  - exfalso. exact (split_nl_not_nil s E).
  - exists l, ls. split; reflexivity.
Qed.

Lemma removelast_cons2 {X} (x y : X) (l : list X) :
  removelast (x :: y :: l) = x :: removelast (y :: l).
Proof. reflexivity. Qed.

(** Splitting a text received in two pieces: the complete lines of the
    first piece, then the split of its unfinished line followed by the
    second piece. *)
Lemma split_nl_app (a b : string) :
  Js.split_nl (a +:+ b) =
  removelast (Js.split_nl a) ++ Js.split_nl (pending a +:+ b).
Proof.
  unfold pending.
  induction a as [|c a IH].
  - reflexivity.
  - rewrite append_cons.
    destruct (Ascii.eqb c Js.nl) eqn:Hc.
    + apply Ascii.eqb_eq in Hc. subst c.
      rewrite !split_nl_cons_nl, IH.
      destruct (Js.split_nl a) as [|l ls] eqn:E.
      { exfalso. exact (split_nl_not_nil a E). }
      rewrite removelast_cons2. rewrite last_cons_cons. reflexivity.
    + destruct (split_nl_cons_other c a Hc) as (l & ls & E & E').
      rewrite E'. rewrite E in IH.
      destruct (split_nl_cons_other c (a +:+ b) Hc) as (l2 & ls2 & E2 & E2').
      rewrite E2'. rewrite IH in E2.
      destruct ls as [|l' ls].
      * simpl in E2. simpl. rewrite Hc, E2. reflexivity.
      * rewrite removelast_cons2 in E2. rewrite last_cons_cons in E2.
        simpl app in E2. injection E2 as <- <-.
        rewrite removelast_cons2, last_cons_cons. reflexivity.
Qed.

Lemma removelast_last {X} (d : X) (l : list X) :
  l <> [] -> l = removelast l ++ [default d (last l)].
Proof.
  intros H. induction l as [|x xs IH]; [contradiction|].
  destruct xs as [|y ys]; [reflexivity|].
  rewrite removelast_cons2, last_cons_cons. simpl app. f_equal.
  apply IH. discriminate.
Qed.

Lemma split_nl_snoc (a : string) :
  Js.split_nl a = Stream.complete_lines a ++ [pending a].
Proof. apply removelast_last, split_nl_not_nil. Qed.

Lemma removelast_app_not_nil {X} (l1 l2 : list X) :
  l2 <> [] -> removelast (l1 ++ l2) = l1 ++ removelast l2.
Proof.
  intros H. induction l1 as [|x l1 IH]; [reflexivity|].
  simpl app. destruct (l1 ++ l2) as [|y t] eqn:E.
  - destruct l1; [simpl in E; contradiction|discriminate].
  - rewrite removelast_cons2, IH. reflexivity.
Qed.

Lemma last_app_not_nil {X} (l1 l2 : list X) :
  l2 <> [] -> last (l1 ++ l2) = last l2.
Proof.
  intros H. destruct l2 as [|y l2]; [contradiction|].
  induction l1 as [|x l1 IH]; [reflexivity|].
  simpl app. destruct (l1 ++ y :: l2) eqn:E.
  - destruct l1; discriminate.
  - rewrite last_cons_cons. exact IH.
Qed.

(** The complete lines of a text received in two pieces. *)
Lemma complete_lines_app (a b : string) :
  Stream.complete_lines (a +:+ b) =
  Stream.complete_lines a ++ Stream.complete_lines (pending a +:+ b).
Proof.
  unfold Stream.complete_lines.
  rewrite split_nl_app, removelast_app_not_nil by apply split_nl_not_nil.
  reflexivity.
Qed.

Lemma pending_app (a b : string) : pending (a +:+ b) = pending (pending a +:+ b).
Proof.
  unfold pending at 1 2.
  rewrite split_nl_app, last_app_not_nil by apply split_nl_not_nil.
  reflexivity.
Qed.

(** No element of a split holds a line feed. *)
Lemma split_nl_elements (s : string) :
  Forall (fun l => Js.split_nl l = [l]) (Js.split_nl s).
Proof.
  induction s as [|c s IH]; [repeat constructor|].
  destruct (Ascii.eqb c Js.nl) eqn:Hc.
  - apply Ascii.eqb_eq in Hc. subst c. rewrite split_nl_cons_nl.
    constructor; [reflexivity|exact IH].
  - destruct (split_nl_cons_other c s Hc) as (l & ls & E & E').
    rewrite E'. rewrite E in IH. inversion IH as [|? ? Hl Hls]; subst.
    constructor; [|exact Hls].
    simpl. rewrite Hc, Hl. reflexivity.
Qed.

Lemma pending_no_nl (s : string) : Js.split_nl (pending s) = [pending s].
Proof.
  pose proof (split_nl_elements s) as H.
  rewrite (split_nl_snoc s) in H. apply Forall_app in H as [_ H].
  inversion H; assumption.
Qed.

Lemma pending_idemp (s : string) : pending (pending s) = pending s.
Proof. unfold pending at 1. rewrite pending_no_nl. reflexivity. Qed.

Lemma complete_lines_pending (s : string) : complete_lines (pending s) = [].
Proof. unfold complete_lines. rewrite pending_no_nl. reflexivity. Qed.

Lemma chars_append (a b : string) :
  String.list_ascii_of_string (a +:+ b) =
  String.list_ascii_of_string a ++ String.list_ascii_of_string b.
Proof.
  induction a as [|c a IH]; [rewrite append_empty_l; reflexivity|].
  rewrite append_cons. cbn. rewrite IH. reflexivity.
Qed.

Lemma chars_rev_app (s1 s2 : string) :
  String.list_ascii_of_string (String.rev_app s1 s2) =
  List.rev (String.list_ascii_of_string s1) ++ String.list_ascii_of_string s2.
Proof.
  revert s2. induction s1 as [|c s1 IH]; intros s2; cbn; [reflexivity|].
  rewrite IH, <- app_assoc. reflexivity.
Qed.

Lemma chars_rev (s : string) :
  String.list_ascii_of_string (String.rev s) = List.rev (String.list_ascii_of_string s).
Proof. unfold String.rev. rewrite chars_rev_app. cbn. apply app_nil_r. Qed.

Lemma chars_inj (a b : string) :
  String.list_ascii_of_string a = String.list_ascii_of_string b -> a = b.
Proof.
  intros H. rewrite <- (Stdlib.Strings.String.string_of_list_ascii_of_string a),
              <- (Stdlib.Strings.String.string_of_list_ascii_of_string b), H.
  reflexivity.
Qed.

Lemma prefix_split (p s : string) :
  Stdlib.Strings.String.prefix p s = true -> exists t, s = p +:+ t.
Proof.
  revert s. induction p as [|c p IH]; intros s H.
  - exists s. rewrite append_empty_l. reflexivity.
  - destruct s as [|d s]; [discriminate|]. cbn in H.
    destruct (Ascii.ascii_dec c d) as [->|]; [|discriminate].
    destruct (IH s H) as [t ->]. exists t. rewrite append_cons. reflexivity.
Qed.

Lemma prefix_append (p t : string) : Stdlib.Strings.String.prefix p (p +:+ t) = true.
Proof.
  induction p as [|c p IH]; [rewrite append_empty_l; destruct t; reflexivity|].
  rewrite append_cons. cbn. destruct (Ascii.ascii_dec c c); [exact IH|congruence].
Qed.

Lemma includes_middle (a q b : string) : Js.includes (a +:+ (q +:+ b)) q = true.
Proof.
  induction a as [|c a IH].
  - rewrite append_empty_l.
    destruct (q +:+ b) eqn:E; cbn [Js.includes]; unfold Js.startsWith; rewrite <- E;
      rewrite prefix_append; reflexivity.
  - rewrite append_cons. cbn [Js.includes]. rewrite IH. apply orb_true_r.
Qed.

Lemma endsWith_split (s p : string) :
  Js.endsWith s p = true -> exists t, s = t +:+ p.
Proof.
  unfold Js.endsWith. intros H. apply prefix_split in H as [t H].
  exists (String.rev t). apply chars_inj.
  rewrite chars_append, chars_rev.
  apply (f_equal String.list_ascii_of_string) in H.
  rewrite chars_append, !chars_rev in H.
  apply (f_equal (@List.rev ascii)) in H.
  rewrite List.rev_app_distr, !List.rev_involutive in H. exact H.
Qed.

Lemma suffix_free_includes (s : string) :
  Js.endsWith s ":free" = true -> Js.includes s "free" = true.
Proof.
  intros E. apply endsWith_split in E as [t ->].
  change ":free" with (":" +:+ ("free" +:+ EmptyString)).
  rewrite <- append_assoc. apply includes_middle.
Qed.

End Lines.

(** ** The read loop of [streamChat] *)

Section ReadLoop.
Context {P : Platform}.

Import Stream.

Lemma recorder_deliver (log : list Api.Callback) (c : Api.Callback) :
  Api.deliver Api.recorder log c = log ++ [c].
Proof. destruct c; reflexivity. Qed.

(** A line invokes at most one callback, and any sink receives exactly
    what the recording sink records. *)
Lemma handle_line_deliver {S} (options : Api.Sink S) (s : S) (line : string) :
  Api.handle_line options s line = foldl (Api.deliver options) s (calls_of_line line).
Proof.
  unfold calls_of_line, Api.handle_line.
  destruct (Js.startsWith line "data: "); [cbn [negb]|reflexivity].
  destruct (JSON_parse (Js.slice 6 line)) as [data|]; [|reflexivity].
  unfold Api.dispatch, mbind, result_bind, try_catch.
  destruct data; try reflexivity;
    repeat match goal with
           | |- context [if ?b then _ else _] => destruct b
           end; reflexivity.
Qed.

Lemma foldl_deliver_recorder (log calls : list Api.Callback) :
  foldl (Api.deliver Api.recorder) log calls = log ++ calls.
Proof.
  revert log. induction calls as [|c calls IH]; intros log; simpl.
  - rewrite app_nil_r. reflexivity.
  - rewrite IH, recorder_deliver, <- app_assoc. reflexivity.
Qed.

Lemma handle_lines_deliver {S} (options : Api.Sink S) (s : S) (lines : list string) :
  foldl (Api.handle_line options) s lines =
  foldl (Api.deliver options) s (flat_map calls_of_line lines).
Proof.
  revert s. induction lines as [|l lines IH]; intros s; simpl; [reflexivity|].
  rewrite IH, handle_line_deliver, foldl_app. reflexivity.
Qed.

Lemma on_chunk_deliver {S} (options : Api.Sink S) (buffer value : string) (s : S) :
  Api.on_chunk options buffer value s =
  (pending (buffer +:+ value),
   foldl (Api.deliver options) s (events (buffer +:+ value))).
Proof. unfold Api.on_chunk, events. rewrite handle_lines_deliver. reflexivity. Qed.

Lemma events_app (a b : string) : events (a +:+ b) = events a ++ events (pending a +:+ b).
Proof. unfold events. rewrite complete_lines_app, flat_map_app. reflexivity. Qed.

Lemma read_loop_app {S A} (options : Api.Sink S) (meanwhile : A -> S -> S)
    (buffer : string) (l1 l2 : list (Api.Step A)) (s : S) :
  Api.read_loop options meanwhile buffer (l1 ++ l2) s =
  Api.read_loop options meanwhile (fst (Api.read_loop options meanwhile buffer l1 s)) l2
    (snd (Api.read_loop options meanwhile buffer l1 s)).
Proof.
  revert buffer s. induction l1 as [|[value|a] l1 IH]; intros buffer s; simpl.
  - reflexivity.
  - destruct (Api.on_chunk options buffer value s) as [b' s']. apply IH.
  - apply IH.
Qed.

(** An invariant of the caller's state that every callback and every
    interleaved action keeps is kept by the whole loop. *)
Lemma read_loop_invariant {S A} (options : Api.Sink S) (meanwhile : A -> S -> S)
    (I : S -> Prop) :
  (forall c s, I s -> I (Api.deliver options s c)) ->
  (forall a s, I s -> I (meanwhile a s)) ->
  forall steps buffer s, I s -> I (snd (Api.read_loop options meanwhile buffer steps s)).
Proof.
  intros Hc Hm steps.
  assert (Hfold : forall calls s, I s -> I (foldl (Api.deliver options) s calls)).
  { induction calls as [|c calls IH]; intros s Hs; simpl; [exact Hs|].
    apply IH, Hc, Hs. }
  induction steps as [|[value|a] steps IH]; intros buffer s Hs; cbn [Api.read_loop].
  - exact Hs.
  - rewrite on_chunk_deliver. apply IH, Hfold, Hs.
  - apply IH, Hm, Hs.
Qed.

(** When the interleaved actions leave the state alone (on the states
    of an invariant the callbacks keep), the loop ends with the unfinished
    line in its buffer and has delivered, in order, the events of the
    text received; how the text was cut into chunks does not matter. *)
Lemma read_loop_quiet {S A} (options : Api.Sink S) (meanwhile : A -> S -> S)
    (I : S -> Prop) :
  (forall c s, I s -> I (Api.deliver options s c)) ->
  (forall a s, I s -> meanwhile a s = s) ->
  forall steps buffer s, I s ->
    Api.read_loop options meanwhile (pending buffer) steps s =
    (pending (pending buffer +:+ received steps),
     foldl (Api.deliver options) s (events (pending buffer +:+ received steps))).
Proof.
  intros Hc Hm steps.
  assert (Hfold : forall calls s, I s -> I (foldl (Api.deliver options) s calls)).
  { induction calls as [|c calls IH]; intros s Hs; simpl; [exact Hs|].
    apply IH, Hc, Hs. }
  induction steps as [|[value|a] steps IH]; intros buffer s Hs;
    cbn [Api.read_loop received].
  - rewrite append_empty_r, pending_idemp. unfold events.
    rewrite complete_lines_pending. reflexivity.
  - rewrite on_chunk_deliver, IH by (apply Hfold, Hs).
    rewrite <- append_assoc, (pending_app (pending buffer +:+ value)),
      (events_app (pending buffer +:+ value)), foldl_app.
    reflexivity.
  - rewrite Hm by exact Hs. apply IH, Hs.
Qed.

End ReadLoop.

(** ** What [streamChat] delivers *)

Section Delivery.
Context {P : Platform}.

Import Stream.

Lemma pending_empty : pending EmptyString = EmptyString.
Proof. reflexivity. Qed.

(** The loop delivers the events of the text received, whatever the
    chunking and whatever runs between the reads. *)
Lemma delivered_events {A} (steps : list (Api.Step A)) :
  delivered steps = events (received steps).
Proof.
  unfold delivered. rewrite <- pending_empty at 1.
  rewrite (read_loop_quiet Api.recorder _ (fun _ => True)); try done.
  cbn [snd]. rewrite pending_empty, append_empty_l, foldl_deliver_recorder.
  reflexivity.
Qed.

Lemma streamed_ok {A} (fetch : string -> Api.ChatRequest -> Result (Api.ChatResponse A))
    (request : Api.ChatRequest) (res : Api.ChatResponse A)
    (steps : list (Api.Step A)) (ending : Api.ReadEnd) :
  fetch (Api.API_BASE +:+ "/chat") request = Ok res ->
  Api.chat_ok res = true ->
  Api.chat_body res = Some (steps, ending) ->
  streamed fetch request = events (received steps).
Proof.
  intros Hf Hok Hb. unfold streamed, Api.streamChat.
  rewrite Hf, Hok, Hb. cbn [negb fst]. apply delivered_events.
Qed.

Lemma is_string_spec (v : Json.Value) (lit : string) :
  Json.is_string v lit = true <-> v = Json.str lit.
Proof.
  unfold Json.is_string, Json.str.
  destruct v as [[]|]; try (split; [discriminate|congruence]).
  rewrite String.eqb_eq. split; congruence.
Qed.

(** The callbacks of a line, by cases on what the line holds. *)
Lemma calls_of_line_unfold (line : string) :
  calls_of_line line =
  if Js.startsWith line "data: " then
    match JSON_parse (Js.slice 6 line) with
    | Some (Json.JObj fields) =>
        let type := Json.lookup_field fields "type" in
        if Json.is_string type "token" then [Api.Token (Json.lookup_field fields "content")]
        else if Json.is_string type "conversation_id" then [Api.ConversationId (Json.lookup_field fields "id")]
        else if Json.is_string type "done" then [Api.Done (Json.lookup_field fields "conversation_id")]
        else if Json.is_string type "error" then [Api.Failure (Json.lookup_field fields "message")]
        else if Json.truthy (Json.lookup_field fields "error") then [Api.Failure (Json.lookup_field fields "error")]
        else []
    | _ => []
    end
  else [].
Proof.
  unfold calls_of_line, Api.handle_line.
  destruct (Js.startsWith line "data: "); [cbn [negb]|reflexivity].
  destruct (JSON_parse (Js.slice 6 line)) as [data|]; [|reflexivity].
  unfold Api.dispatch, mbind, result_bind, try_catch.
  destruct data; try reflexivity. cbn [Json.get].
  repeat match goal with
         | |- context [if ?b then _ else _] => destruct b
         end; reflexivity.
Qed.

Lemma recognized_calls (line : string) (data : Json.JValue) (c : Api.Callback) :
  Js.startsWith line "data: " = true ->
  JSON_parse (Js.slice 6 line) = Some data ->
  recognized data c ->
  calls_of_line line = [c].
Proof.
  intros Hp Hd Hr. rewrite calls_of_line_unfold, Hp, Hd.
  destruct Hr as [f H|f H|f H|f H|f H1 H2 H3 H4 H5]; cbn zeta.
  - rewrite H. reflexivity.
  - rewrite H. reflexivity.
  - rewrite H. reflexivity.
  - rewrite H. reflexivity.
  - rewrite H1, H2, H3, H4, H5. reflexivity.
Qed.

Lemma calls_recognized (line : string) (c : Api.Callback) :
  c ∈ calls_of_line line ->
  Js.startsWith line "data: " = true /\
  exists data, JSON_parse (Js.slice 6 line) = Some data /\ recognized data c.
Proof.
  rewrite calls_of_line_unfold.
  destruct (Js.startsWith line "data: "); [|intros H; inversion H].
  destruct (JSON_parse (Js.slice 6 line)) as [data|]; [|intros H; inversion H].
  destruct data as [| | | | |fields]; try (intros H; inversion H; fail).
  cbn zeta.
  destruct (Json.is_string _ "token") eqn:E1.
  { intros ->%list_elem_of_singleton. split; [reflexivity|]. eexists; split; [reflexivity|].
    apply recognized_token, is_string_spec, E1. }
  destruct (Json.is_string _ "conversation_id") eqn:E2.
  { intros ->%list_elem_of_singleton. split; [reflexivity|]. eexists; split; [reflexivity|].
    apply recognized_conversation_id, is_string_spec, E2. }
  destruct (Json.is_string _ "done") eqn:E3.
  { intros ->%list_elem_of_singleton. split; [reflexivity|]. eexists; split; [reflexivity|].
    apply recognized_done, is_string_spec, E3. }
  destruct (Json.is_string _ "error") eqn:E4.
  { intros ->%list_elem_of_singleton. split; [reflexivity|]. eexists; split; [reflexivity|].
    apply recognized_error, is_string_spec, E4. }
  destruct (Json.truthy _) eqn:E5.
  { intros ->%list_elem_of_singleton. split; [reflexivity|]. eexists; split; [reflexivity|].
    apply recognized_error_field; assumption. }
  intros H; inversion H.
Qed.

Lemma calls_of_line_short (line : string) : (length (calls_of_line line) <= 1)%nat.
Proof.
  rewrite calls_of_line_unfold.
  destruct (Js.startsWith line "data: "); [|simpl; lia].
  destruct (JSON_parse (Js.slice 6 line)) as [[| | | | |fields]|]; try (simpl; lia).
  cbn zeta.
  repeat match goal with
         | |- context [if ?b then _ else _] => destruct b
         end; simpl; lia.
Qed.

End Delivery.

(** ** Terminal events and event parsing *)

Section StreamClaims.

Import Stream.

(** A response that is not OK, or has no body, delivers nothing: the call
    throws before the sink is ever invoked. *)
Lemma streamed_failed {P : Platform} {A}
    (fetch : string -> Api.ChatRequest -> Result (Api.ChatResponse A))
    (request : Api.ChatRequest) (res : Api.ChatResponse A) :
  fetch (Api.API_BASE +:+ "/chat") request = Ok res ->
  Api.chat_ok res = false \/ Api.chat_body res = None ->
  streamed fetch request = [] /\
  exists message,
    snd (Api.streamChat Api.recorder (fun _ log => log) fetch request []) = Throw (Error message).
Proof.
  intros Hf H. unfold streamed, Api.streamChat. rewrite Hf.
  destruct (Api.chat_ok res); cbn [negb].
  - destruct H as [H|H]; [discriminate|]. rewrite H. split; [reflexivity|eauto].
  - split; [reflexivity|eauto].
Qed.

(** C1, as the code has it: [streamChat] relays the events of the response
    one for one and keeps no record of a terminal event.  When the response
    carries exactly one terminal event ([done] or [error]) and no token
    event after it, exactly one terminal event is delivered to the sink and
    no token is delivered after it; what is delivered is exactly the
    sequence of events of the response text. *)
Theorem C1_terminal_relayed {P : Platform} {A}
    (fetch : string -> Api.ChatRequest -> Result (Api.ChatResponse A))
    (request : Api.ChatRequest) (res : Api.ChatResponse A)
    (steps : list (Api.Step A)) (ending : Api.ReadEnd) :
  fetch (Api.API_BASE +:+ "/chat") request = Ok res ->
  Api.chat_ok res = true ->
  Api.chat_body res = Some (steps, ending) ->
  well_terminated (events (received steps)) = true ->
  streamed fetch request = events (received steps) /\
  well_terminated (streamed fetch request) = true.
Proof.
  intros Hf Hok Hb Hw.
  rewrite (streamed_ok fetch request res steps ending Hf Hok Hb).
  split; [reflexivity|exact Hw].
Qed.

Lemma C1_terminal_relayed_witness :
  well_terminated
    (streamed (P := Wire.reference) (A := unit)
       (Wire.answers [Api.Read (Wire.token "He");
                      Api.Read (Wire.token "llo" +:+ Wire.done "c1")] Api.Eof)
       Wire.request) = true.
Proof.
  refine (proj2 (C1_terminal_relayed (P := Wire.reference) (A := unit) _ Wire.request _ _ Api.Eof _ _ _ _)).
  - reflexivity.
  - reflexivity.
  - reflexivity.
  - vm_compute. reflexivity.
Defined.

(** C1 as stated fails.  A response that carries [done], then a token,
    then [done] again has all three delivered: two terminal events, and a
    token after the first.  A response that ends after a token delivers no
    terminal event at all. *)
Lemma C1_counterexample :
  streamed (P := Wire.reference) (A := unit)
    (Wire.answers
       [Api.Read (Wire.done "c1" +:+ Wire.token "late" +:+ Wire.done "c1")] Api.Eof)
    Wire.request
  = [Api.Done (Json.str "c1"); Api.Token (Json.str "late"); Api.Done (Json.str "c1")]
  /\ well_terminated
       (streamed (P := Wire.reference) (A := unit)
          (Wire.answers
             [Api.Read (Wire.done "c1" +:+ Wire.token "late" +:+ Wire.done "c1")] Api.Eof)
          Wire.request) = false
  /\ streamed (P := Wire.reference) (A := unit) (Wire.answers [Api.Read (Wire.token "He")] Api.Eof) Wire.request
     = [Api.Token (Json.str "He")]
  /\ Api.streamChat (P := Wire.reference) Api.recorder (fun (_ : unit) log => log)
       (Wire.answers [Api.Read (Wire.token "He")] Api.Eof) Wire.request []
     = ([Api.Token (Json.str "He")], Ok ()).
Proof. vm_compute. repeat split. Qed.

(** C4: event parsing is total.  A line without the [data: ] prefix, a
    line whose payload is not JSON, and a line whose parsed payload has no
    recognized shape invoke no callback; a line invokes a callback only
    for a recognized shape, and then the callback of that shape; and the
    lines after an ignored line are processed as if it were not there. *)
Theorem C4_event_parsing_total {P : Platform} (line : string) :
  (Js.startsWith line "data: " = false -> calls_of_line line = []) /\
  (JSON_parse (Js.slice 6 line) = None -> calls_of_line line = []) /\
  (forall data, JSON_parse (Js.slice 6 line) = Some data ->
                (forall c, ~ recognized data c) -> calls_of_line line = []) /\
  (forall data c, Js.startsWith line "data: " = true ->
                  JSON_parse (Js.slice 6 line) = Some data ->
                  recognized data c -> calls_of_line line = [c]) /\
  (forall c, c ∈ calls_of_line line ->
             Js.startsWith line "data: " = true /\
             exists data, JSON_parse (Js.slice 6 line) = Some data /\ recognized data c) /\
  (forall S (options : Api.Sink S) (s : S) (before after : list string),
      calls_of_line line = [] ->
      foldl (Api.handle_line options) s (before ++ line :: after) =
      foldl (Api.handle_line options) s (before ++ after)).
Proof.
  split; [|split; [|split; [|split; [|split]]]].
  - intros H. rewrite calls_of_line_unfold, H. reflexivity.
  - intros H. rewrite calls_of_line_unfold, H.
    destruct (Js.startsWith line "data: "); reflexivity.
  - intros data Hd Hn.
    destruct (calls_of_line line) as [|c rest] eqn:E; [reflexivity|].
    exfalso.
    destruct (calls_recognized line c) as (_ & data' & Hd' & Hr).
    { rewrite E. left. }
    rewrite Hd in Hd'. injection Hd' as <-. exact (Hn c Hr).
  - intros data c. apply recognized_calls.
  - apply calls_recognized.
  - intros S options s before after H.
    rewrite !foldl_app. cbn [foldl].
    rewrite (handle_line_deliver options _ line), H. reflexivity.
Qed.

Lemma C4_event_parsing_total_witness :
  calls_of_line (P := Wire.reference) ": keep-alive" = []
  /\ calls_of_line (P := Wire.reference) "data: {oops" = []
  /\ calls_of_line (P := Wire.reference) (Wire.token "He") = [Api.Token (Json.str "He")].
Proof.
  split; [|split].
  - exact (proj1 (C4_event_parsing_total (P := Wire.reference) ": keep-alive") eq_refl).
  - exact (proj1 (proj2 (C4_event_parsing_total (P := Wire.reference) "data: {oops")) eq_refl).
  - vm_compute. reflexivity.
Defined.

(** Wire noise: JSON that is not an object, and an object of no known
    shape, are skipped; an object with only an [error] field is an error. *)
Example noise_is_skipped :
  delivered (P := Wire.reference) (A := unit)
    [Api.Read ("data: null" +:+ String Js.nl ("data: [1, 2]" +:+ String Js.nl
                 ("data: 5" +:+ String Js.nl EmptyString)));
     Api.Read (Wire.data_line [("type", "ping")]);
     Api.Read (Wire.data_line [("error", "quota")])]
  = [Api.Failure (Json.str "quota")].
Proof. vm_compute. reflexivity. Qed.

(** A line cut by the chunking is handled once it is complete; a last line
    with no line feed stays in the buffer. *)
Example chunking_is_invisible :
  delivered (P := Wire.reference) (A := unit)
    [Api.Read "data: {"; Api.Read (Js.slice 7 (Wire.token "He")); Api.Read "data: {"]
  = [Api.Token (Json.str "He")]
  /\ fst (Api.read_loop (P := Wire.reference) Api.recorder (fun (_ : unit) log => log)
            EmptyString
            [Api.Read "data: {"; Api.Read (Js.slice 7 (Wire.token "He")); Api.Read "data: {"]
            [])
     = "data: {".
Proof. vm_compute. split; reflexivity. Qed.

(** The conversation id announced by the stream is what [sendMessage]
    returns. *)
Example conversation_id_returned :
  fst (UseChat.sendMessage (P := Wire.reference)
         (Wire.answers [Api.Read (Wire.conversation_id "c7" +:+ Wire.token "Hi");
                        Api.Read (Wire.done "c7")] Api.Eof)
         "hi" Wire.settings None None None Wire.blank)
  = Json.str "c7".
Proof. vm_compute. reflexivity. Qed.

(** The hook keeps no record of a terminal event either: a token that
    follows [done] in the response is appended like any other. *)
Example token_after_done_appended :
  snd (UseChat.sendMessage (P := Wire.reference)
         (Wire.answers [Api.Read (Wire.token "He" +:+ Wire.done "c1");
                        Api.Read (Wire.token "llo")] Api.Eof)
         "hi" Wire.settings None None None Wire.blank)
  = UseChat.mk
      [ChatMessage.make user (Text "hi"); ChatMessage.make assistant (Text "Hello")]
      false Json.null false Json.undefined.
Proof. vm_compute. reflexivity. Qed.

(** A response that is not OK reaches the hook as a thrown error, which
    the hook shows; the sink is never called. *)
Example http_error_shown :
  snd (UseChat.sendMessage (P := Wire.reference)
         (fun _ _ => Ok {| Api.chat_ok := false; Api.chat_status := 502;
                           Api.chat_body := None |})
         "hi" Wire.settings None None None Wire.blank)
  = UseChat.mk
      [ChatMessage.make user (Text "hi"); ChatMessage.make assistant (Text EmptyString)]
      false (Json.str "Chat API error: 502") false Json.undefined.
Proof. vm_compute. reflexivity. Qed.

End StreamClaims.

(** ** The chat hook while a stream is read *)

Section HookFacts.
Context {P : Platform}.

Import Stream.

Lemma deliver_abortRef (c : Api.Callback) (s : UseChat.State) :
  UseChat.abortRef (Api.deliver UseChat.callbacks s c) = UseChat.abortRef s.
Proof. destruct c; cbn; [destruct (UseChat.abortRef s) eqn:E; cbn; congruence|reflexivity..]. Qed.

Lemma deliver_aborted (c : Api.Callback) (s : UseChat.State) :
  UseChat.abortRef s = true ->
  UseChat.messages (Api.deliver UseChat.callbacks s c) = UseChat.messages s.
Proof. intros H. destruct c; cbn; [rewrite H|..]; reflexivity. Qed.

Lemma stop_again (a : UseChat.Action) (s : UseChat.State) :
  UseChat.abortRef s = true -> UseChat.meanwhile a s = s.
Proof. destruct a, s as [m i e ab cv]. cbn. intros ->. reflexivity. Qed.

Lemma foldl_deliver_aborted (calls : list Api.Callback) (s : UseChat.State) :
  UseChat.abortRef s = true ->
  UseChat.abortRef (foldl (Api.deliver UseChat.callbacks) s calls) = true /\
  UseChat.messages (foldl (Api.deliver UseChat.callbacks) s calls) = UseChat.messages s.
Proof.
  revert s. induction calls as [|c calls IH]; intros s H; cbn [foldl]; [auto|].
  destruct (IH (Api.deliver UseChat.callbacks s c)) as [IH1 IH2].
  { rewrite deliver_abortRef. exact H. }
  split; [exact IH1|]. rewrite IH2. apply deliver_aborted, H.
Qed.

(** While the flag is down, the messages follow the tokens delivered. *)
Lemma foldl_deliver_streaming (calls : list Api.Callback) (s : UseChat.State) :
  UseChat.abortRef s = false ->
  UseChat.abortRef (foldl (Api.deliver UseChat.callbacks) s calls) = false /\
  UseChat.messages (foldl (Api.deliver UseChat.callbacks) s calls) =
  foldl (fun prev token => UseChat.append_token token prev) (UseChat.messages s) (tokens calls).
Proof.
  revert s. induction calls as [|c calls IH]; intros s H; cbn [foldl]; [auto|].
  destruct (IH (Api.deliver UseChat.callbacks s c)) as [IH1 IH2].
  { rewrite deliver_abortRef. exact H. }
  split; [exact IH1|]. rewrite IH2.
  destruct c; cbn; [rewrite H|..]; reflexivity.
Qed.

Lemma with_content_id (m : ChatMessage.t) :
  ChatMessage.with_content m (ChatMessage.content m) = m.
Proof. destruct m; reflexivity. Qed.

Lemma append_token_assistant (token : Json.Value) (prior : list ChatMessage.t)
    (l : ChatMessage.t) (t : string) :
  ChatMessage.role l = assistant ->
  ChatMessage.content l = Text t ->
  UseChat.append_token token (prior ++ [l]) =
  prior ++ [ChatMessage.with_content l (Text (t +:+ UseChat.to_string token))].
Proof.
  intros Hr Hc. unfold UseChat.append_token.
  rewrite last_snoc, Hr, Hc. rewrite decide_True by reflexivity.
  rewrite length_app. cbn [length].
  replace (length prior + 1 - 1)%nat with (length prior + 0)%nat by lia.
  rewrite insert_app_r. reflexivity.
Qed.

(** Tokens appended to a list that ends with an assistant message extend
    the text of that message, in order, and touch nothing else. *)
Lemma append_tokens_assistant (vs : list Json.Value) (prior : list ChatMessage.t)
    (l : ChatMessage.t) (t : string) :
  ChatMessage.role l = assistant ->
  ChatMessage.content l = Text t ->
  foldl (fun prev token => UseChat.append_token token prev) (prior ++ [l]) vs =
  prior ++ [ChatMessage.with_content l (Text (t +:+ Js.concat (UseChat.to_string <$> vs)))].
Proof.
  revert l t. induction vs as [|v vs IH]; intros l t Hr Hc; cbn [foldl fmap list_fmap].
  - cbn. rewrite append_empty_r, <- Hc, with_content_id. reflexivity.
  - rewrite (append_token_assistant v prior l t Hr Hc).
    rewrite (IH _ (t +:+ UseChat.to_string v)); [|destruct l; exact Hr|destruct l; reflexivity].
    cbn [Js.concat foldr]. rewrite append_assoc. destruct l; reflexivity.
Qed.

Lemma read_loop_reads {S A} (options : Api.Sink S) (m m' : A -> S -> S)
    (chunks : list string) (buffer : string) (s : S) :
  Api.read_loop options m buffer (Api.Read <$> chunks) s =
  Api.read_loop options m' buffer (Api.Read <$> chunks) s.
Proof.
  revert buffer s. induction chunks as [|v chunks IH]; intros buffer s; [reflexivity|].
  cbn [fmap list_fmap Api.read_loop].
  destruct (Api.on_chunk options buffer v s). apply IH.
Qed.

Lemma received_reads {A} (chunks : list string) :
  received (A := A) (Api.Read <$> chunks) = Js.concat chunks.
Proof.
  induction chunks as [|v chunks IH]; [reflexivity|].
  cbn [fmap list_fmap received]. rewrite IH. reflexivity.
Qed.

(** A stream read without interruption: the state is the one the events
    of the whole text produce, in order. *)
Lemma read_loop_uninterrupted {S A} (options : Api.Sink S) (m : A -> S -> S)
    (chunks : list string) (s : S) :
  snd (Api.read_loop options m EmptyString (Api.Read <$> chunks) s) =
  foldl (Api.deliver options) s (events (Js.concat chunks)).
Proof.
  rewrite (read_loop_reads options m (fun _ s => s)).
  rewrite <- pending_empty at 1.
  rewrite (read_loop_quiet options _ (fun _ => True)); try done.
  cbn [snd]. rewrite pending_empty, append_empty_l, received_reads. reflexivity.
Qed.

(** Once the flag is up, the rest of the stream is still read and its
    events are still delivered to the callbacks, in order. *)
Lemma read_loop_after_stop (steps : list (Api.Step UseChat.Action)) (buffer : string)
    (s : UseChat.State) :
  UseChat.abortRef s = true ->
  snd (Api.read_loop UseChat.callbacks UseChat.meanwhile (pending buffer) steps s) =
  foldl (Api.deliver UseChat.callbacks) s (events (pending buffer +:+ received steps)).
Proof.
  intros H.
  rewrite (read_loop_quiet UseChat.callbacks UseChat.meanwhile
             (fun s => UseChat.abortRef s = true)); [reflexivity|..|exact H].
  - intros c s' Hs. rewrite deliver_abortRef. exact Hs.
  - intros a s' Hs. apply stop_again, Hs.
Qed.

Lemma read_loop_buffer {S A} (options : Api.Sink S) (m : A -> S -> S)
    (steps : list (Api.Step A)) (buffer : string) (s : S) :
  fst (Api.read_loop options m (pending buffer) steps s) =
  pending (fst (Api.read_loop options m (pending buffer) steps s)).
Proof.
  revert buffer s. induction steps as [|[v|a] steps IH]; intros buffer s; cbn [Api.read_loop].
  - cbn [fst]. rewrite pending_idemp. reflexivity.
  - rewrite on_chunk_deliver. apply IH.
  - apply IH.
Qed.

(** The loop keeps an invariant of the caller's state that every callback
    keeps and that the actions which do run between the reads keep. *)
Lemma read_loop_invariant_on {S A} (options : Api.Sink S) (meanwhile : A -> S -> S)
    (I : S -> Prop) (allowed : A -> Prop) :
  (forall c s, I s -> I (Api.deliver options s c)) ->
  (forall a s, allowed a -> I s -> I (meanwhile a s)) ->
  forall steps buffer s,
    Forall allowed (interleaved steps) -> I s ->
    I (snd (Api.read_loop options meanwhile buffer steps s)).
Proof.
  intros Hc Hm steps.
  assert (Hfold : forall calls s, I s -> I (foldl (Api.deliver options) s calls)).
  { induction calls as [|c calls IH]; intros s Hs; simpl; [exact Hs|].
    apply IH, Hc, Hs. }
  induction steps as [|[value|a] steps IH]; intros buffer s Ha Hs;
    cbn [Api.read_loop interleaved] in *.
  - exact Hs.
  - rewrite on_chunk_deliver. apply IH; [exact Ha|apply Hfold, Hs].
  - apply Forall_cons in Ha as [Ha Hrest]. apply IH; [exact Hrest|apply Hm; assumption].
Qed.


End HookFacts.

(** ** Token order and cancellation *)

Section ChatClaims.

Import Stream.

Lemma tokens_of_line {P : Platform} (line : string) :
  tokens (calls_of_line line) = option_list (token_of_line line).
Proof.
  rewrite calls_of_line_unfold. unfold token_of_line.
  destruct (Js.startsWith line "data: "); [|reflexivity].
  destruct (JSON_parse (Js.slice 6 line)) as [[| | | | |fields]|]; try reflexivity.
  cbn zeta.
  repeat match goal with
         | |- context [if ?b then _ else _] => destruct b
         end; reflexivity.
Qed.

Lemma tokens_events {P : Platform} (text : string) :
  tokens (events text) = omap token_of_line (complete_lines text).
Proof.
  unfold events, tokens.
  induction (complete_lines text) as [|l ls IH]; [reflexivity|].
  cbn [flat_map]. rewrite omap_app, IH.
  change (omap token_of (calls_of_line l)) with (tokens (calls_of_line l)).
  rewrite tokens_of_line. cbn [omap list_omap]. destruct (token_of_line l); reflexivity.
Qed.

Lemma begin_state (content : string) (cid : option string)
    (att : option (list UseChat.File)) (st : UseChat.State) :
  UseChat.abortRef (UseChat.begin content cid att st) = false /\
  UseChat.messages (UseChat.begin content cid att st) =
  (UseChat.messages st ++ [ChatMessage.make user (UseChat.messageContent content att)])
    ++ [ChatMessage.make assistant (Text EmptyString)].
Proof. split; reflexivity. Qed.

Lemma push_upload_of (parts : list ContentPart) (f : UseChat.File) :
  UseChat.push_upload parts (UseChat.upload_of f) = Ok (UseChat.push_file parts f).
Proof.
  unfold UseChat.push_upload, UseChat.push_file, UseChat.upload_of.
  cbn [UseChat.upload_type UseChat.upload_name UseChat.reader_result UseChat.text_result].
  destruct (Js.startsWith (UseChat.type f) "image/"); [reflexivity|].
  destruct (_ || _); reflexivity.
Qed.

(** A call during which nothing else runs and every read succeeds builds
    the content of the successful reads and leaves the state alone. *)
Lemma read_content_undisturbed {A} (others : A -> UseChat.State -> UseChat.State)
    (content : string) (files : option (list UseChat.File)) (st : UseChat.State) :
  UseChat.read_content others content (UseChat.undisturbed files) st =
  (Ok (UseChat.messageContent content files), st).
Proof.
  destruct files as [[|f files]|]; try reflexivity.
  unfold UseChat.read_content, UseChat.messageContent, UseChat.undisturbed.
  cbn [fmap list_fmap].
  assert (H : forall l parts,
             UseChat.read_uploads others parts
               ((fun f0 => (UseChat.upload_of f0, [])) <$> l) st =
             (Ok (foldl UseChat.push_file parts l), st)).
  { induction l as [|x l IH]; intros parts; [reflexivity|].
    cbn [fmap list_fmap UseChat.read_uploads foldl].
    rewrite push_upload_of.
    destruct (UseChat.awaited (UseChat.upload_of x)); apply IH. }
  exact (f_equal (fun r : Result (list ContentPart) * UseChat.State =>
                    match r with
                    | (Ok parts, st') => (Ok (Parts parts), st')
                    | (Throw e, st') => (Throw e, st')
                    end)
           (H (f :: files)
              (if Js.truthy_string (Js.trim content) then [text_part content] else []))).
Qed.

(** [sendMessage] among other tasks, once the server answers with a
    stream. *)
Lemma sendMessage_among_answers {P : Platform} {A}
    (others : A -> UseChat.State -> UseChat.State) (steps : list (Api.Step A))
    (ending : Api.ReadEnd) (captured : list ChatMessage.t) (content : string)
    (settings : ChatSettings.t) (cid sp : option string)
    (files : option (list UseChat.File)) (st : UseChat.State) :
  UseChat.sendMessage_among others (Wire.answers steps ending) captured content settings
    cid sp (UseChat.undisturbed files) st =
  let st0 :=
    UseChat.started
      (captured ++ [ChatMessage.make user (UseChat.messageContent content files)])
      (UseChat.called cid st) in
  let st1 := snd (Api.read_loop UseChat.callbacks others EmptyString steps st0) in
  let st2 :=
    match ending with
    | Api.Eof => st1
    | Api.ReadError (Error message) => UseChat.caught message st1
    end in
  (Ok (UseChat.convIdRef st2), st2).
Proof.
  unfold UseChat.sendMessage_among. rewrite read_content_undisturbed.
  unfold Api.streamChat, Wire.answers. cbn [Api.chat_ok Api.chat_body negb].
  destruct ending as [|[message]]; reflexivity.
Qed.

(** The text that the tokens of a sequence of events leave in a list
    that ends with an empty assistant message, while the flag is down. *)
Lemma delivered_text {P : Platform} (calls : list Api.Callback)
    (prior : list ChatMessage.t) (s : UseChat.State) :
  UseChat.abortRef s = false ->
  UseChat.messages s = prior ++ [ChatMessage.make assistant (Text EmptyString)] ->
  UseChat.messages (foldl (Api.deliver UseChat.callbacks) s calls) =
  prior ++ [ChatMessage.make assistant
              (Text (Js.concat (UseChat.to_string <$> tokens calls)))].
Proof.
  intros Ha Hm.
  destruct (foldl_deliver_streaming calls s Ha) as [_ ->].
  rewrite Hm, (append_tokens_assistant _ _ _ EmptyString) by reflexivity.
  reflexivity.
Qed.

(** What the stop button and the callbacks of any stream do to the flag
    and, while the flag is up, to the messages. *)
Lemma page_keeps_flag {P : Platform} (a : UseChat.PageAction) (s : UseChat.State) :
  UseChat.calls_send a = false ->
  UseChat.abortRef s = true -> UseChat.abortRef (UseChat.page a s) = true.
Proof.
  destruct a as [| | | | |c|]; try discriminate; intros _ H; try exact H; try reflexivity.
  cbn [UseChat.page]. rewrite deliver_abortRef. exact H.
Qed.

Lemma page_keeps_stopped {P : Platform} (a : UseChat.PageAction) (s : UseChat.State) :
  UseChat.calls_send a = false -> UseChat.sets_messages a = false ->
  UseChat.abortRef s = true -> UseChat.messages (UseChat.page a s) = UseChat.messages s.
Proof.
  destruct a as [| | | | |c|]; try discriminate; intros _ _ H; try reflexivity.
  cbn [UseChat.page]. apply deliver_aborted, H.
Qed.

(** After a stop: the flag stays up until [sendMessage] is called, and
    until then no callback of any stream changes the messages. *)
Lemma stop_holds {P : Platform} (post : list (Api.Step UseChat.PageAction))
    (buffer : string) (s : UseChat.State) :
  UseChat.abortRef s = true ->
  (Forall (fun a => UseChat.calls_send a = false) (interleaved post) ->
   UseChat.abortRef (snd (Api.read_loop UseChat.callbacks UseChat.page buffer post s)) = true)
  /\ (Forall (fun a => UseChat.calls_send a = false /\ UseChat.sets_messages a = false)
        (interleaved post) ->
      UseChat.messages (snd (Api.read_loop UseChat.callbacks UseChat.page buffer post s)) =
      UseChat.messages s).
Proof.
  intros H. split; intros Hp.
  - apply (read_loop_invariant_on UseChat.callbacks UseChat.page
             (fun s' => UseChat.abortRef s' = true)
             (fun a => UseChat.calls_send a = false)); [| |exact Hp|exact H].
    + intros c s' Hs. rewrite deliver_abortRef. exact Hs.
    + intros a s' Ha Hs. apply page_keeps_flag; assumption.
  - apply (read_loop_invariant_on UseChat.callbacks UseChat.page
             (fun s' => UseChat.abortRef s' = true /\
                        UseChat.messages s' = UseChat.messages s)
             (fun a => UseChat.calls_send a = false /\ UseChat.sets_messages a = false));
      [| |exact Hp|split; [exact H|reflexivity]].
    + intros c s' [Hs Hm]. split; [rewrite deliver_abortRef; exact Hs|].
      rewrite (deliver_aborted c s' Hs). exact Hm.
    + intros a s' [Ha1 Ha2] [Hs Hm]. split; [apply page_keeps_flag; assumption|].
      rewrite (page_keeps_stopped a s' Ha1 Ha2 Hs). exact Hm.
Qed.



(** C3, as the code has it: stopping sets the flag and nothing else.  The
    flag stays up until [sendMessage] is called again, and until then no
    token of any stream is appended: the messages stay as they were at the
    stop as long as the page starts no new chat, opens no conversation and
    sends no message.  The call is not closed: the rest of the response is
    read and every event of it is delivered to the callbacks. *)
Theorem C3_cancel_keeps_text {P : Platform} :
  (forall (pre post : list (Api.Step UseChat.PageAction)) (buffer : string)
          (st0 : UseChat.State),
      let run := Api.read_loop UseChat.callbacks UseChat.page buffer in
      let before := run pre st0 in
      let at_stop := run (pre ++ [Api.Meanwhile UseChat.press_stop]) st0 in
      let final := run (pre ++ Api.Meanwhile UseChat.press_stop :: post) st0 in
      UseChat.abortRef (snd at_stop) = true /\
      UseChat.messages (snd at_stop) = UseChat.messages (snd before) /\
      (Forall (fun a => UseChat.calls_send a = false) (interleaved post) ->
       UseChat.abortRef (snd final) = true) /\
      (Forall (fun a => UseChat.calls_send a = false /\ UseChat.sets_messages a = false)
         (interleaved post) ->
       UseChat.messages (snd final) = UseChat.messages (snd before)))
  /\ (forall A (steps : list (Api.Step A)), delivered steps = events (received steps))
  /\ (forall (chunks : list string) (post : list (Api.Step UseChat.PageAction))
             (ending : Api.ReadEnd) (captured : list ChatMessage.t) (content : string)
             (settings : ChatSettings.t) (cid sp : option string)
             (files : option (list UseChat.File)) (st : UseChat.State),
        Forall (fun a => UseChat.calls_send a = false /\ UseChat.sets_messages a = false)
          (interleaved post) ->
        UseChat.messages
          (snd (UseChat.sendMessage_among UseChat.page
                  (Wire.answers
                     ((Api.Read <$> chunks) ++ Api.Meanwhile UseChat.press_stop :: post)
                     ending)
                  captured content settings cid sp (UseChat.undisturbed files) st)) =
        captured ++
          [ChatMessage.make user (UseChat.messageContent content files);
           ChatMessage.make assistant
             (Text (Js.concat
                      (UseChat.to_string <$>
                         omap token_of_line (complete_lines (Js.concat chunks)))))]).
Proof.
  assert (Hrun : forall (pre post : list (Api.Step UseChat.PageAction)) (buffer : string)
                        (st0 : UseChat.State),
             let run := Api.read_loop UseChat.callbacks UseChat.page buffer in
             let before := run pre st0 in
             let at_stop := run (pre ++ [Api.Meanwhile UseChat.press_stop]) st0 in
             let final := run (pre ++ Api.Meanwhile UseChat.press_stop :: post) st0 in
             UseChat.abortRef (snd at_stop) = true /\
             UseChat.messages (snd at_stop) = UseChat.messages (snd before) /\
             (Forall (fun a => UseChat.calls_send a = false) (interleaved post) ->
              UseChat.abortRef (snd final) = true) /\
             (Forall (fun a => UseChat.calls_send a = false /\
                               UseChat.sets_messages a = false) (interleaved post) ->
              UseChat.messages (snd final) = UseChat.messages (snd before))).
  { intros pre post buffer st0. cbv zeta.
    rewrite !read_loop_app. cbn [Api.read_loop fst snd].
    set (r := Api.read_loop UseChat.callbacks UseChat.page buffer pre st0).
    assert (Ha : UseChat.abortRef (UseChat.page UseChat.press_stop (snd r)) = true)
      by reflexivity.
    destruct (stop_holds post (fst r) _ Ha) as [H1 H2].
    split; [exact Ha|]. split; [reflexivity|]. split; [exact H1|exact H2]. }
  split; [exact Hrun|]. split.
  - intros A steps. apply delivered_events.
  - intros chunks post ending captured content settings cid sp files st Hp.
    rewrite sendMessage_among_answers. cbv zeta.
    assert (H : UseChat.messages
                  (snd (Api.read_loop UseChat.callbacks UseChat.page EmptyString
                          ((Api.Read <$> chunks) ++ Api.Meanwhile UseChat.press_stop :: post)
                          (UseChat.started
                             (captured ++
                              [ChatMessage.make user (UseChat.messageContent content files)])
                             (UseChat.called cid st)))) =
                captured ++
                  [ChatMessage.make user (UseChat.messageContent content files);
                   ChatMessage.make assistant
                     (Text (Js.concat
                              (UseChat.to_string <$>
                                 omap token_of_line (complete_lines (Js.concat chunks)))))]).
    { destruct (Hrun (Api.Read <$> chunks) post EmptyString
                  (UseChat.started
                     (captured ++
                      [ChatMessage.make user (UseChat.messageContent content files)])
                     (UseChat.called cid st))) as (_ & _ & _ & Hm).
      cbv zeta in Hm. rewrite (Hm Hp), read_loop_uninterrupted.
      rewrite (delivered_text _ (captured ++
                 [ChatMessage.make user (UseChat.messageContent content files)]))
        by reflexivity.
      rewrite tokens_events, <- app_assoc. reflexivity. }
    destruct ending as [|[message]]; exact H.
Qed.

Lemma C3_cancel_keeps_text_witness :
  UseChat.messages
    (snd (UseChat.sendMessage_among (P := Wire.reference)
               (UseChat.page (P := Wire.reference))
            (Wire.answers
               ((Api.Read <$> [Wire.token "He"]) ++
                Api.Meanwhile UseChat.press_stop ::
                [Api.Read (Wire.token "llo");
                 Api.Meanwhile (UseChat.other_stream (Api.Token (Json.str "x")));
                 Api.Read (Wire.done "c1")])
               Api.Eof)
            [] "hi" Wire.settings None None None Wire.blank))
  = [ChatMessage.make user (Text "hi"); ChatMessage.make assistant (Text "He")].
Proof.
  refine (eq_trans
            (proj2 (proj2 (C3_cancel_keeps_text (P := Wire.reference)))
               [Wire.token "He"]
               [Api.Read (Wire.token "llo");
                Api.Meanwhile (UseChat.other_stream (Api.Token (Json.str "x")));
                Api.Read (Wire.done "c1")]
               Api.Eof [] "hi" Wire.settings None None None Wire.blank _) _).
  - repeat constructor.
  - vm_compute. reflexivity.
Defined.

(** C3 as stated fails on closing the call.  Stop is pressed after the
    first chunk; the loop still reads the two chunks that follow and
    delivers their events: the token is dropped by the callback, the error
    that arrives two reads later is shown.  The text [He] is kept. *)
Lemma C3_counterexample :
  delivered (P := Wire.reference)
    [Api.Read (Wire.token "He"); Api.Meanwhile UseChat.press_stop;
     Api.Read (Wire.token "llo"); Api.Read (Wire.failure "boom")]
  = [Api.Token (Json.str "He"); Api.Token (Json.str "llo"); Api.Failure (Json.str "boom")]
  /\ UseChat.sendMessage_among (P := Wire.reference)
               (UseChat.page (P := Wire.reference))
       (Wire.answers
          [Api.Read (Wire.token "He"); Api.Meanwhile UseChat.press_stop;
           Api.Read (Wire.token "llo"); Api.Read (Wire.failure "boom")] Api.Eof)
       [] "hi" Wire.settings None None None Wire.blank
     = (Ok Json.undefined,
        UseChat.mk
          [ChatMessage.make user (Text "hi"); ChatMessage.make assistant (Text "He")]
          false (Json.str "boom") true Json.undefined).
Proof. vm_compute. split; reflexivity. Qed.

End ChatClaims.

(** ** Attachments *)

Section AttachmentClaims.

Lemma push_file_parts (parts : list ContentPart) (file : UseChat.File) :
  UseChat.push_file parts file = parts ++ UseChat.parts_of_file file.
Proof.
  unfold UseChat.push_file, UseChat.parts_of_file, UseChat.is_image, UseChat.is_text_like.
  destruct (Js.startsWith (UseChat.type file) "image/"); [reflexivity|].
  cbn [existsb]. rewrite orb_false_r, !orb_assoc.
  destruct (_ || _); [reflexivity|]. rewrite app_nil_r. reflexivity.
Qed.

Lemma push_files_parts (files : list UseChat.File) (parts : list ContentPart) :
  foldl UseChat.push_file parts files = parts ++ flat_map UseChat.parts_of_file files.
Proof.
  revert parts. induction files as [|f files IH]; intros parts; cbn [foldl flat_map].
  - rewrite app_nil_r. reflexivity.
  - rewrite IH, push_file_parts, <- app_assoc. reflexivity.
Qed.

Lemma push_upload_parts (parts : list ContentPart) (u : UseChat.Upload) :
  UseChat.push_upload parts u =
  match UseChat.parts_of_upload u with
  | Ok more => Ok (parts ++ more)
  | Throw e => Throw e
  end.
Proof.
  unfold UseChat.push_upload, UseChat.parts_of_upload, UseChat.upload_is_image,
    UseChat.upload_is_text_like.
  destruct (Js.startsWith (UseChat.upload_type u) "image/"); [reflexivity|].
  cbn [existsb]. rewrite orb_false_r, !orb_assoc.
  destruct (_ || _).
  - unfold mbind, result_bind. destruct (UseChat.text_result u); reflexivity.
  - rewrite app_nil_r. reflexivity.
Qed.

Lemma read_uploads_parts {A} (others : A -> UseChat.State -> UseChat.State)
    (attachments : list (UseChat.Upload * list A)) (parts : list ContentPart)
    (st : UseChat.State) :
  fst (UseChat.read_uploads others parts attachments st) =
  match UseChat.collect_parts (fst <$> attachments) with
  | Ok more => Ok (parts ++ more)
  | Throw e => Throw e
  end.
Proof.
  revert parts st. induction attachments as [|[u meanwhile] rest IH]; intros parts st;
    cbn [UseChat.read_uploads UseChat.collect_parts fmap list_fmap fst].
  - rewrite app_nil_r. reflexivity.
  - rewrite push_upload_parts. fold (fmap (M := list) (@fst UseChat.Upload (list A)) rest).
    destruct (UseChat.parts_of_upload u) as [more|e]; [|reflexivity].
    rewrite IH. destruct (UseChat.collect_parts (fst <$> rest)); [|reflexivity].
    rewrite app_assoc. reflexivity.
Qed.

Lemma read_content_parts {A} (others : A -> UseChat.State -> UseChat.State)
    (content : string) (attachment : UseChat.Upload * list A)
    (attachments : list (UseChat.Upload * list A)) (st : UseChat.State) :
  fst (UseChat.read_content others content (Some (attachment :: attachments)) st) =
  match UseChat.collect_parts (fst <$> attachment :: attachments) with
  | Ok parts =>
      Ok (Parts ((if Js.truthy_string (Js.trim content) then [text_part content] else [])
                 ++ parts))
  | Throw e => Throw e
  end.
Proof.
  unfold UseChat.read_content.
  pose proof (read_uploads_parts others (attachment :: attachments)
                (if Js.truthy_string (Js.trim content) then [text_part content] else [])
                st) as H.
  destruct (UseChat.read_uploads others _ (attachment :: attachments) st) as [[parts|e] st'];
    cbn [fst] in *;
    destruct (UseChat.collect_parts (fst <$> attachment :: attachments)); congruence.
Qed.

(** When nothing else runs while the files are read, a failed read leaves
    the state in which the loop started. *)
Lemma read_uploads_alone {A} (others : A -> UseChat.State -> UseChat.State)
    (attachments : list (UseChat.Upload * list A)) (parts : list ContentPart)
    (st : UseChat.State) :
  Forall (fun a => snd a = []) attachments ->
  snd (UseChat.read_uploads others parts attachments st) = st.
Proof.
  intros H. revert parts. induction H as [|[u meanwhile] rest Hm _ IH]; intros parts;
    cbn [UseChat.read_uploads]; [reflexivity|].
  cbn [snd] in Hm. subst meanwhile. cbn [foldl].
  destruct (UseChat.awaited u); destruct (UseChat.push_upload parts u); try reflexivity;
    apply IH.
Qed.

(** C9, as the code has it: with a non-empty attachment list the message
    content is a list of parts: first a text part with the typed input
    when that input is not blank, then, in attachment order, for each image
    an [image_url] part with what the [FileReader] ended with (the data
    URL, or [null] after a failed read), for each text-like file that is
    not an image a text part with the file name and contents, and nothing
    for any other file.  The image test comes first: a file that is both
    gives an image part only.  When the text of a text-like file that is
    not an image cannot be read, [sendMessage] rejects with that failure:
    it makes no request and adds no message. *)
Theorem C9_attachment_parts {P : Platform} {A} (others : A -> UseChat.State -> UseChat.State)
    (content : string) (attachment : UseChat.Upload * list A)
    (attachments : list (UseChat.Upload * list A)) (st : UseChat.State) :
  let lead := if Js.truthy_string (Js.trim content) then [text_part content] else [] in
  let read := UseChat.read_content others content (Some (attachment :: attachments)) st in
  (forall parts, UseChat.collect_parts (fst <$> attachment :: attachments) = Ok parts ->
                 fst read = Ok (Parts (lead ++ parts)))
  /\ (forall e, UseChat.collect_parts (fst <$> attachment :: attachments) = Throw e ->
                fst read = Throw e)
  /\ (forall u, UseChat.upload_is_image u = true ->
                UseChat.parts_of_upload u =
                Ok [match UseChat.reader_result u with
                    | Some base64 => image_url_part base64
                    | None => image_null_part
                    end])
  /\ (forall u text, UseChat.upload_is_image u = false ->
                     UseChat.upload_is_text_like u = true ->
                     UseChat.text_result u = Ok text ->
                     UseChat.parts_of_upload u =
                     Ok [text_part ("File: " +:+ UseChat.upload_name u
                                      +:+ String Js.nl (String Js.nl text))])
  /\ (forall u e, UseChat.upload_is_image u = false ->
                  UseChat.upload_is_text_like u = true ->
                  UseChat.text_result u = Throw e ->
                  UseChat.parts_of_upload u = Throw e)
  /\ (forall u, UseChat.upload_is_image u = false ->
                UseChat.upload_is_text_like u = false ->
                UseChat.parts_of_upload u = Ok [])
  /\ (forall (fetch : string -> Api.ChatRequest -> Result (Api.ChatResponse A))
             (captured : list ChatMessage.t) (settings : ChatSettings.t)
             (cid sp : option string) (e : Exception),
        UseChat.collect_parts (fst <$> attachment :: attachments) = Throw e ->
        let result :=
          UseChat.sendMessage_among others fetch captured content settings cid sp
            (Some (attachment :: attachments)) st in
        fst result = Throw e /\
        (Forall (fun a => snd a = []) (attachment :: attachments) ->
         snd result = UseChat.called cid st)).
Proof.
  cbv zeta.
  split; [|split; [|split; [|split; [|split; [|split]]]]].
  - intros parts H. rewrite read_content_parts, H. reflexivity.
  - intros e H. rewrite read_content_parts, H. reflexivity.
  - intros u H. unfold UseChat.parts_of_upload. rewrite H. reflexivity.
  - intros u text H1 H2 H3. unfold UseChat.parts_of_upload. rewrite H1, H2, H3. reflexivity.
  - intros u e H1 H2 H3. unfold UseChat.parts_of_upload. rewrite H1, H2, H3. reflexivity.
  - intros u H1 H2. unfold UseChat.parts_of_upload. rewrite H1, H2. reflexivity.
  - intros fetch captured settings cid sp e H.
    unfold UseChat.sendMessage_among.
    pose proof (read_content_parts others content attachment attachments
                  (UseChat.called cid st)) as Hr.
    rewrite H in Hr.
    destruct (UseChat.read_content others content (Some (attachment :: attachments))
                (UseChat.called cid st)) as [[c|e'] st'] eqn:E; cbn [fst] in Hr;
      [discriminate|].
    injection Hr as ->. cbn [fst snd]. split; [reflexivity|].
    intros Hq. unfold UseChat.read_content in E.
    pose proof (read_uploads_alone others (attachment :: attachments)
                  (if Js.truthy_string (Js.trim content) then [text_part content] else [])
                  (UseChat.called cid st) Hq) as Hs.
    destruct (UseChat.read_uploads others _ (attachment :: attachments)
                (UseChat.called cid st)) as [[parts|e''] st''];
      cbn [snd] in Hs; congruence.
Qed.

Lemma C9_attachment_parts_witness :
  fst (UseChat.read_content (fun (_ : unit) st => st) "see these"
         (Some [ ({| UseChat.upload_type := "image/png"; UseChat.upload_name := "a.png";
                     UseChat.reader_result := Some "data:image/png;base64,AAAA";
                     UseChat.text_result := Ok EmptyString |}, []);
                 ({| UseChat.upload_type := "application/pdf"; UseChat.upload_name := "b.pdf";
                     UseChat.reader_result := Some "data:application/pdf;base64,BBBB";
                     UseChat.text_result := Ok "%PDF" |}, []);
                 ({| UseChat.upload_type := ""; UseChat.upload_name := "c.md";
                     UseChat.reader_result := Some "data:;base64,CCCC";
                     UseChat.text_result := Ok "# C" |}, []) ])
         Wire.blank)
  = Ok (Parts [ text_part "see these";
                image_url_part "data:image/png;base64,AAAA";
                text_part ("File: c.md" +:+ String Js.nl (String Js.nl "# C")) ]).
Proof.
  apply (C9_attachment_parts (P := Wire.reference) (fun (_ : unit) st => st) "see these").
  vm_compute. reflexivity.
Defined.

(** C9 as stated fails for a file that is both an image and text-like:
    [pic.md] with the MIME type [image/svg+xml] has a name that ends in
    [.md], and gives an image part only, no text part with its name and
    contents. *)
Lemma C9_counterexample :
  let pic :=
    {| UseChat.type := "image/svg+xml"; UseChat.name := "pic.md";
       UseChat.dataURL := "data:image/svg+xml;base64,PHN2Zy8+"; UseChat.text := "<svg/>" |} in
  UseChat.is_text_like pic = true
  /\ UseChat.messageContent EmptyString (Some [pic])
     = Parts [image_url_part "data:image/svg+xml;base64,PHN2Zy8+"]
  /\ fst (UseChat.read_content (fun (_ : unit) st => st) EmptyString
            (Some [(UseChat.upload_of pic, [])]) Wire.blank)
     = Ok (Parts [image_url_part "data:image/svg+xml;base64,PHN2Zy8+"]).
Proof. vm_compute. repeat split. Qed.

(** A text file that cannot be read: the call rejects, nothing is
    requested and no message is added. *)
Example unreadable_attachment :
  UseChat.sendMessage_among (P := Wire.reference) (fun (_ : unit) st => st)
    (fun _ _ => Throw (Error "never requested")) [] "see" Wire.settings None None
    (Some [ ({| UseChat.upload_type := "text/plain"; UseChat.upload_name := "notes.txt";
                UseChat.reader_result := None;
                UseChat.text_result := Throw (Error "NotReadableError") |}, []) ])
    Wire.blank
  = (Throw (Error "NotReadableError"), Wire.blank).
Proof. vm_compute. reflexivity. Qed.

(** Without attachments the content stays the typed string. *)
Lemma messageContent_plain (content : string) :
  UseChat.messageContent content None = Text content /\
  UseChat.messageContent content (Some []) = Text content.
Proof. split; reflexivity. Qed.

End AttachmentClaims.

(** ** Renaming a conversation *)

Section RenameClaims.

(** What [renameConversation] does to the active conversation.  The [if]
    tests the conversation the callback captured, the updater rewrites the
    conversation that is active when it runs.  Whatever the network
    answers, every field of the active conversation other than the title
    is as before; when the captured conversation does not have the renamed
    id, the active conversation is untouched; when it has and the update
    went through, the active conversation, whichever it is by then, gets
    the new title. *)
Lemma rename_frame (fetch_update : Api.Fetch Api.Status)
    (fetch_list : Api.Fetch (list Conversation.t))
    (captured : option ConversationDetail.t) (id title : string)
    (st : UseConversations.State) :
  let result := UseConversations.renameConversation fetch_update fetch_list captured id title st in
  let active := UseConversations.activeConversation st in
  let active' := UseConversations.activeConversation (fst result) in
  (ConversationDetail.id <$> captured <> Some id -> active' = active)
  /\ (ConversationDetail.id <$> captured = Some id -> snd result = Ok () ->
      active' = (fun c => ConversationDetail.with_title c title) <$> active)
  /\ ConversationDetail.id <$> active' = ConversationDetail.id <$> active
  /\ ConversationDetail.messages <$> active' = ConversationDetail.messages <$> active
  /\ ConversationDetail.system_prompt <$> active' = ConversationDetail.system_prompt <$> active
  /\ ConversationDetail.created_at <$> active' = ConversationDetail.created_at <$> active
  /\ ConversationDetail.updated_at <$> active' = ConversationDetail.updated_at <$> active
  /\ ConversationDetail.preview <$> active' = ConversationDetail.preview <$> active
  /\ ConversationDetail.message_count <$> active' = ConversationDetail.message_count <$> active.
Proof.
  cbn zeta. unfold UseConversations.renameConversation.
  destruct (Api.updateConversation fetch_update id _) as [updated|e]; cbn [fst snd].
  2: { repeat split; intros; try reflexivity; discriminate. }
  assert (Hload : UseConversations.activeConversation
                    (UseConversations.loadConversations fetch_list st) =
                  UseConversations.activeConversation st).
  { unfold UseConversations.loadConversations.
    destruct (Api.listConversations fetch_list); reflexivity. }
  case_bool_decide as Hid; cbn [UseConversations.setActiveConversation
                                 UseConversations.activeConversation];
    rewrite ?Hload.
  - destruct (UseConversations.activeConversation st) as [c|];
      repeat split; intros; try reflexivity; try contradiction.
  - repeat split; intros; try reflexivity; try contradiction.
Qed.

(** C10: the frame fails when the active conversation changes while the
    rename is awaited.  [renameConversation("c1", "New")] is called from a
    render in which [c1] is active; before the update request and the
    reload of the list are answered, the user opens [c2].  The test
    [activeConversation?.id === id] reads the captured [c1] and passes, and
    the updater retitles [prev], which is [c2]: the ids differ, and the
    active conversation is not unchanged. *)
Theorem C10_rename_retitles_other :
  let captured := Wire.conversation "c1" "Old" in
  let st := UseConversations.mk [] (Some (Wire.conversation "c2" "Other")) false in
  let result :=
    UseConversations.renameConversation (Wire.replies {| Api.status_text := "ok" |})
      (Wire.replies []) (Some captured) "c1" "New" st in
  ConversationDetail.id <$> UseConversations.activeConversation st = Some "c2"
  /\ snd result = Ok ()
  /\ UseConversations.activeConversation (fst result) = Some (Wire.conversation "c2" "New")
  /\ ConversationDetail.title <$> UseConversations.activeConversation st = Some "Other".
Proof. vm_compute. repeat split. Qed.

(** With a callback of the current render the renamed conversation alone
    is retitled. *)
Example rename_of_the_active :
  UseConversations.activeConversation
    (fst (UseConversations.renameConversation (Wire.replies {| Api.status_text := "ok" |})
            Wire.unreachable (Some (Wire.conversation "c1" "Old")) "c1" "New"
            (UseConversations.mk [] (Some (Wire.conversation "c1" "Old")) false)))
  = Some (Wire.conversation "c1" "New")
  /\ UseConversations.activeConversation
       (fst (UseConversations.renameConversation (Wire.replies {| Api.status_text := "ok" |})
               Wire.unreachable (Some (Wire.conversation "c1" "Old")) "c2" "New"
               (UseConversations.mk [] (Some (Wire.conversation "c1" "Old")) false)))
     = Some (Wire.conversation "c1" "Old").
Proof. vm_compute. split; reflexivity. Qed.

End RenameClaims.

(** ** Model selection in the settings panel *)

Section ResolverClaims.

Import SettingsPanel.

Lemma unique_from_spec (l seen : list string) :
  NoDup (unique_from seen l) /\
  (forall m, m ∈ unique_from seen l <-> m ∈ l /\ m ∉ seen) /\
  unique_from seen l `sublist_of` l.
Proof.
  revert seen. induction l as [|x l IH]; intros seen; cbn [unique_from].
  - split; [constructor|]. split; [|constructor].
    intros m. split; [intros H; inversion H|intros [H _]; inversion H].
  - destruct (IH seen) as (N1 & M1 & S1). destruct (IH (x :: seen)) as (N2 & M2 & S2).
    destruct (decide (x ∈ seen)) as [Hx|Hx].
    + rewrite (bool_decide_eq_true_2 _ Hx). split; [exact N1|]. split.
      * intros m. rewrite M1, elem_of_cons. split; [tauto|].
        intros [[->|H] Hs]; [contradiction|tauto].
      * apply sublist_cons, S1.
    + rewrite (bool_decide_eq_false_2 _ Hx). split; [|split].
      * constructor; [|exact N2]. rewrite M2, elem_of_cons. tauto.
      * intros m. rewrite !elem_of_cons, M2, elem_of_cons.
        destruct (decide (m = x)) as [->|Hm]; tauto.
      * apply sublist_skip, S2.
Qed.

Lemma combinedModels_Ok (p : Provider.t) (w : World) (l : list string) :
  combinedModels p w = Ok l ->
  read_dynamicModels (panel w) (Provider.name p) <> inherited /\
  l = unique_from []
        (default [] (Provider.models p) ++
         default [] (dynamicModels (panel w) !! Provider.name p)).
Proof.
  unfold combinedModels, read_dynamicModels.
  destruct (dynamicModels (panel w) !! Provider.name p) as [models|].
  - intros H. injection H as <-. split; [discriminate|reflexivity].
  - destruct (Js.on_Object_prototype (Provider.name p)); [discriminate|].
    intros H. injection H as <-. split; [discriminate|reflexivity].
Qed.

Lemma combinedModels_Throw (p : Provider.t) (w : World) (e : Exception) :
  combinedModels p w = Throw e <->
  e = Error "TypeError" /\
  dynamicModels (panel w) !! Provider.name p = None /\
  Js.on_Object_prototype (Provider.name p) = true.
Proof.
  unfold combinedModels, read_dynamicModels.
  destruct (dynamicModels (panel w) !! Provider.name p) as [models|].
  - split; [discriminate|intros (_ & H & _); discriminate].
  - destruct (Js.on_Object_prototype (Provider.name p)).
    + split; [intros H; injection H as <-; auto|intros (-> & _); reflexivity].
    + split; [discriminate|intros (_ & _ & H); discriminate].
Qed.

Lemma combinedModels_nodup (p : Provider.t) (w : World) (l : list string) :
  combinedModels p w = Ok l -> NoDup l.
Proof. intros H. apply combinedModels_Ok in H as [_ ->]. apply unique_from_spec. Qed.

Lemma model_area_Ok (p : Provider.t) (w : World) (area : ModelArea) :
  model_area p w = Ok area ->
  exists l, combinedModels p w = Ok l /\
    area =
    match l with
    | [] => model_input (current_model p w)
    | _ :: _ =>
        model_buttons
          ((fun m => (m, bool_decide (current_model p w = m))) <$>
             (let filtered :=
                if getOption (settings w) (Provider.name p) free_only
                then filter (fun m => Is_true (free_tier m)) l
                else l in
              if Js.truthy_string (modelSearch (panel w)) then
                filter (fun m => Is_true (Js.includes (Js.toLowerCase m)
                                            (Js.toLowerCase (modelSearch (panel w))))) filtered
              else filtered))
    end.
Proof.
  unfold model_area, mbind, result_bind.
  destruct (combinedModels p w) as [l|e]; [|discriminate].
  intros H. exists l. split; [reflexivity|].
  destruct l; injection H as <-; reflexivity.
Qed.

Lemma fst_marked (mark : string -> bool) (l : list string) :
  fst <$> ((fun m => (m, mark m)) <$> l) = l.
Proof.
  rewrite <- list_fmap_compose.
  induction l as [|m l IH]; [reflexivity|]. cbn. rewrite IH. reflexivity.
Qed.

Lemma free_tier_includes (m : string) :
  free_tier m = Js.includes (Js.toLowerCase m) "free".
Proof.
  unfold free_tier.
  destruct (Js.includes (Js.toLowerCase m) "free") eqn:E; [reflexivity|].
  destruct (Js.endsWith (Js.toLowerCase m) ":free") eqn:E'; [|reflexivity].
  rewrite (suffix_free_includes _ E') in E. discriminate.
Qed.

Lemma truthy_string_false (s : string) : Js.truthy_string s = false <-> s = EmptyString.
Proof. destruct s; split; (reflexivity || discriminate). Qed.

(** Ticking the free-only box changes neither the selected provider nor
    the model. *)
Lemma free_only_keeps_model (p : Provider.t) (checked : bool) (w : World) :
  ChatSettings.model (settings (step w (change_free_only p checked))) =
    ChatSettings.model (settings w) /\
  ChatSettings.provider (settings (step w (change_free_only p checked))) =
    ChatSettings.provider (settings w).
Proof.
  unfold step. destruct (rendered w (change_free_only p checked)); split; reflexivity.
Qed.

(** C5, as the code has it.  In a card whose catalog is read and is not
    empty, with free-only set, the model buttons are the catalog entries
    whose lower-cased id contains [free] (every entry that ends in
    [:free] among them), narrowed to those that contain the search text
    when there is one, in catalog order; when no entry contains [free] no
    button is shown.  Ticking or clearing the box never changes the model
    in force: nothing falls back to the provider's default model. *)
Theorem C5_free_only_candidates (p : Provider.t) (w : World) (catalog : list string) :
  combinedModels p w = Ok catalog ->
  catalog <> [] ->
  getOption (settings w) (Provider.name p) free_only = true ->
  exists buttons : list (string * bool),
    model_area p w = Ok (model_buttons buttons) /\
    fst <$> buttons `sublist_of` catalog /\
    (forall m, m ∈ fst <$> buttons <->
               m ∈ catalog /\
               Js.includes (Js.toLowerCase m) "free" = true /\
               (modelSearch (panel w) = EmptyString \/
                Js.includes (Js.toLowerCase m)
                  (Js.toLowerCase (modelSearch (panel w))) = true)) /\
    (forall m, m ∈ catalog -> Js.endsWith (Js.toLowerCase m) ":free" = true ->
               modelSearch (panel w) = EmptyString -> m ∈ fst <$> buttons) /\
    ((forall m, m ∈ catalog -> Js.includes (Js.toLowerCase m) "free" = false) ->
     buttons = []) /\
    (forall checked : bool,
       ChatSettings.model (settings (step w (change_free_only p checked))) =
       ChatSettings.model (settings w)).
Proof.
  intros Hc Hne Hf.
  set (by_tier := filter (fun m => Is_true (free_tier m)) catalog).
  set (shown := if Js.truthy_string (modelSearch (panel w))
                then filter (fun m => Is_true (Js.includes (Js.toLowerCase m)
                                                 (Js.toLowerCase (modelSearch (panel w)))))
                       by_tier
                else by_tier).
  exists ((fun m => (m, bool_decide (current_model p w = m))) <$> shown).
  assert (Hin : forall m, m ∈ shown <->
                  m ∈ catalog /\
                  Js.includes (Js.toLowerCase m) "free" = true /\
                  (modelSearch (panel w) = EmptyString \/
                   Js.includes (Js.toLowerCase m)
                     (Js.toLowerCase (modelSearch (panel w))) = true)).
  { intros m. subst shown by_tier.
    destruct (Js.truthy_string (modelSearch (panel w))) eqn:Es.
    - rewrite !list_elem_of_filter, free_tier_includes, !Is_true_true.
      split; [intros (H1 & H2 & H3); auto|].
      intros (H1 & H2 & [H3|H3]); [|auto].
      rewrite H3 in Es. discriminate.
    - rewrite list_elem_of_filter, free_tier_includes, Is_true_true.
      apply truthy_string_false in Es. split; [intros (H1 & H2); auto|].
      intros (H1 & H2 & _); auto. }
  rewrite fst_marked.
  split; [|split; [|split; [exact Hin|split; [|split]]]].
  - unfold model_area, mbind, result_bind. rewrite Hc, Hf.
    destruct catalog; [contradiction|]. reflexivity.
  - subst shown by_tier. destruct (Js.truthy_string _);
      repeat (etransitivity; [apply sublist_filter|]); reflexivity.
  - intros m Hm He Hs. apply Hin. split; [exact Hm|].
    split; [apply suffix_free_includes, He|left; exact Hs].
  - intros Hnone.
    assert (E : shown = []).
    { destruct shown as [|m rest]; [reflexivity|]. exfalso.
      destruct (proj1 (Hin m)) as (Hm & Hi & _); [left|].
      rewrite (Hnone m Hm) in Hi. discriminate. }
    rewrite E. reflexivity.
  - intros checked. apply free_only_keeps_model.
Qed.

Lemma C5_free_only_candidates_witness :
  exists buttons : list (string * bool),
    model_area (Wire.openrouter ["a:free"; "b"; "c:free"])
      (step (Wire.with_options (ProviderOptions.mk (Some true) None))
         (click_card (Wire.openrouter ["a:free"; "b"; "c:free"])))
    = Ok (model_buttons buttons) /\
    fst <$> buttons `sublist_of` ["a:free"; "b"; "c:free"].
Proof.
  destruct (C5_free_only_candidates (Wire.openrouter ["a:free"; "b"; "c:free"])
              (step (Wire.with_options (ProviderOptions.mk (Some true) None))
                 (click_card (Wire.openrouter ["a:free"; "b"; "c:free"])))
              ["a:free"; "b"; "c:free"]) as (buttons & H1 & H2 & _).
  - vm_compute. reflexivity.
  - discriminate.
  - vm_compute. reflexivity.
  - exists buttons. split; assumption.
Defined.

(** The catalog of the claim, on the page: the card has been clicked, so
    it is the selected and expanded one, free-only is set, and the buttons
    are [a:free] and [c:free]. *)
Example free_only_on_the_page :
  model_area (Wire.openrouter ["a:free"; "b"; "c:free"])
    (step (Wire.with_options (ProviderOptions.mk (Some true) None))
       (click_card (Wire.openrouter ["a:free"; "b"; "c:free"])))
  = Ok (model_buttons [("a:free", false); ("c:free", false)]).
Proof. vm_compute. reflexivity. Qed.

(** C5 as stated fails on the fallback.  On a fresh panel the card of a
    provider whose catalog is the one model [b] is clicked, the model [b]
    is clicked, and free-only is ticked, each on a page that shows the
    control.  The card is then the selected and expanded one, free-only is
    set and no catalog entry is free-tier: no button is shown, and the
    model in force is still [b], which is neither free-tier nor the
    provider's default model. *)
Lemma C5_counterexample :
  let provider := Wire.openrouter ["b"] in
  let page :=
    foldl step (Wire.with_options (ProviderOptions.mk None None))
      [click_card provider; click_model provider "b"; change_free_only provider true] in
  rendered (Wire.with_options (ProviderOptions.mk None None)) (click_card provider) = true
  /\ rendered
       (foldl step (Wire.with_options (ProviderOptions.mk None None)) [click_card provider])
       (click_model provider "b") = true
  /\ rendered
       (foldl step (Wire.with_options (ProviderOptions.mk None None))
          [click_card provider; click_model provider "b"])
       (change_free_only provider true) = true
  /\ isSelected page provider = true
  /\ isExpanded page provider = true
  /\ getOption (settings page) "openrouter" free_only = true
  /\ combinedModels provider page = Ok ["b"]
  /\ free_tier "b" = false
  /\ model_area provider page = Ok (model_buttons [])
  /\ ChatSettings.model (settings page) = "b"
  /\ Provider.default_model provider = "google/gemini-2.0-flash-exp:free".
Proof. vm_compute. repeat split. Qed.

End ResolverClaims.

(** ** Auto-choose *)

Section AutoChooseClaims.

Import SettingsPanel.

Lemma getOption_updateOption (st : ChatSettings.t) (n : string) (key : OptionKey) (val : bool) :
  getOption (App.handleSettingsChange (updateOption st n key val) st) n key = val.
Proof.
  unfold getOption, updateOption, App.handleSettingsChange. cbn.
  rewrite lookup_insert_eq. destruct key; reflexivity.
Qed.

(** Changing one option of a provider leaves its other option as it was. *)
Lemma getOption_updateOption_other (st : ChatSettings.t) (n : string) (val : bool) :
  getOption (App.handleSettingsChange (updateOption st n free_only val) st) n auto_choose
  = getOption st n auto_choose.
Proof.
  unfold getOption, updateOption, App.handleSettingsChange. cbn.
  rewrite lookup_insert_eq.
  destruct (ChatSettings.provider_options st) as [m|]; cbn.
  - destruct (m !! n) as [o|]; reflexivity.
  - rewrite lookup_empty. reflexivity.
Qed.

Lemma step_expanded_is_selected (w : World) (e : Event) :
  expanded_is_selected w -> expanded_is_selected (step w e).
Proof.
  intros Hinv. unfold step.
  destruct (rendered w e) eqn:Hr; [|exact Hinv].
  destruct e as [p|p b|p b|p|p m|mi]; cbn [handle].
  - unfold card_onClick, expanded_is_selected.
    destruct (isExpanded w p); cbn; [left; reflexivity|].
    right. unfold isSelected. case_bool_decide as Hs; cbn; congruence.
  - exact Hinv.
  - unfold auto_choose_onChange. destruct (isSelected w p); exact Hinv.
  - cbn [rendered] in Hr. apply andb_true_iff in Hr as [He Hs].
    apply andb_true_iff in He as [He _].
    unfold isExpanded in He. unfold isSelected in Hs.
    apply bool_decide_eq_true in He.
    apply negb_true_iff, bool_decide_eq_false in Hs.
    destruct Hinv as [Hn|Hn]; rewrite Hn in He; [discriminate|].
    injection He as He. contradiction.
  - unfold model_onClick. destruct (isSelected w p); exact Hinv.
  - destruct (Js.truthy_string _); exact Hinv.
Qed.

Lemma step_rendered (w : World) (e : Event) :
  rendered w e = true -> step w e = handle w e.
Proof. intros H. unfold step. rewrite H. reflexivity. Qed.

Lemma run_expanded_is_selected (events : list Event) (w : World) :
  expanded_is_selected w -> expanded_is_selected (foldl step w events).
Proof.
  revert w. induction events as [|e events IH]; intros w H; [exact H|].
  cbn [foldl]. apply IH, step_expanded_is_selected, H.
Qed.

(** In a panel where only the selected card is expanded, the selected
    provider changes only by a click on another provider's card, which
    honours that provider's auto-choose option. *)
Lemma selection_by_card (w : World) (e : Event) :
  expanded_is_selected w ->
  ChatSettings.provider (settings (step w e)) <> ChatSettings.provider (settings w) ->
  exists p, e = click_card p /\ step w e = card_onClick p w /\ isSelected w p = false.
Proof.
  intros Hinv Hch. pose proof (step_expanded_is_selected w e Hinv) as Hinv'.
  unfold step in *. destruct (rendered w e) eqn:Hr; [|contradiction].
  destruct e as [p|p b|p b|p|p m|mi]; cbn [handle] in *.
  - exists p. split; [reflexivity|]. split; [reflexivity|].
    unfold card_onClick in Hch. destruct (isSelected w p); [contradiction|reflexivity].
  - contradiction Hch; reflexivity.
  - unfold auto_choose_onChange in Hch.
    destruct (isSelected w p); contradiction Hch; reflexivity.
  - cbn [rendered] in Hr. apply andb_true_iff in Hr as [He Hs].
    apply andb_true_iff in He as [He _].
    unfold isExpanded in He. unfold isSelected in Hs.
    apply bool_decide_eq_true in He.
    apply negb_true_iff, bool_decide_eq_false in Hs.
    destruct Hinv as [Hn|Hn]; rewrite Hn in He; [discriminate|].
    injection He as He. contradiction.
  - unfold model_onClick in Hch.
    destruct (isSelected w p); contradiction Hch; reflexivity.
  - destruct (Js.truthy_string _); contradiction Hch; reflexivity.
Qed.

(** C6: with auto-choose set for a provider that is not the selected one,
    clicking its card selects it with the model [openrouter/auto], whatever
    its free-only option is or is changed to; clearing auto-choose on the
    selected provider stores the option as off and sets the model to the
    provider's default model, setting it stores it as on and sets the model
    to [openrouter/auto].  In every run of the panel from a state with no
    card expanded, whenever an event makes another provider the selected
    one and auto-choose was set for it, the model after the event is
    [openrouter/auto]. *)
Theorem C6_auto_choose_precedence (p : Provider.t) (w : World) :
  (getOption (settings w) (Provider.name p) auto_choose = true ->
   isSelected w p = false ->
   ChatSettings.provider (settings (card_onClick p w)) = Provider.name p /\
   ChatSettings.model (settings (card_onClick p w)) = "openrouter/auto" /\
   forall b : bool,
     ChatSettings.model (settings (card_onClick p (free_only_onChange p b w)))
     = "openrouter/auto")
  /\ (isSelected w p = true ->
      ChatSettings.model (settings (auto_choose_onChange p false w)) = Provider.default_model p /\
      getOption (settings (auto_choose_onChange p false w)) (Provider.name p) auto_choose = false)
  /\ (isSelected w p = true ->
      ChatSettings.model (settings (auto_choose_onChange p true w)) = "openrouter/auto" /\
      getOption (settings (auto_choose_onChange p true w)) (Provider.name p) auto_choose = true)
  /\ (forall (events : list Event) (e : Event),
        expanded (panel w) = None ->
        let before := foldl step w events in
        let after := step before e in
        ChatSettings.provider (settings after) <> ChatSettings.provider (settings before) ->
        getOption (settings before) (ChatSettings.provider (settings after)) auto_choose = true ->
        ChatSettings.model (settings after) = "openrouter/auto")
  /\ (forall (events : list Event) (q : Provider.t) (checked : bool),
        expanded (panel w) = None ->
        let before := foldl step w events in
        rendered before (change_auto_choose q checked) = true ->
        ChatSettings.model (settings (step before (change_auto_choose q checked)))
        = if checked then "openrouter/auto" else Provider.default_model q).
Proof.
  split; [|split; [|split; [|split]]].
  - intros Ha Hs. unfold card_onClick. rewrite Hs, Ha. cbn [negb].
    split; [reflexivity|]. split; [reflexivity|].
    intros b. unfold free_only_onChange, onSettingsChange, isSelected in *.
    cbn [settings panel] in *.
    rewrite getOption_updateOption_other, Ha.
    replace (ChatSettings.provider (App.handleSettingsChange _ (settings w)))
      with (ChatSettings.provider (settings w)) by reflexivity.
    rewrite Hs. reflexivity.
  - intros Hs. unfold auto_choose_onChange. rewrite Hs.
    split; [reflexivity|].
    exact (getOption_updateOption (settings w) (Provider.name p) auto_choose false).
  - intros Hs. unfold auto_choose_onChange. rewrite Hs.
    split; [reflexivity|].
    exact (getOption_updateOption (settings w) (Provider.name p) auto_choose true).
  - intros events e Hw. cbn zeta. intros Hch Ha.
    destruct (selection_by_card (foldl step w events) e) as (q & -> & Hq & Hs);
      [apply run_expanded_is_selected; left; exact Hw|exact Hch|].
    rewrite Hq in *. unfold card_onClick in *. rewrite Hs in *. cbn [negb] in *.
    cbn in Ha. rewrite Ha. reflexivity.
  - intros events q checked Hw. cbn zeta. intros Hr.
    rewrite (step_rendered _ _ Hr). cbn [handle].
    assert (Hsel : isSelected (foldl step w events) q = true).
    { cbn [rendered] in Hr. apply andb_true_iff in Hr as [He _].
      apply andb_true_iff in He as [He _].
      unfold isExpanded in He. apply bool_decide_eq_true in He.
      destruct (run_expanded_is_selected events w (or_introl Hw)) as [Hn|Hn];
        rewrite Hn in He; [discriminate|].
      injection He as He. unfold isSelected. apply bool_decide_eq_true. exact He. }
    unfold auto_choose_onChange. rewrite Hsel. reflexivity.
Qed.

Lemma C6_auto_choose_precedence_witness :
  ChatSettings.model
    (settings (card_onClick (Wire.openrouter ["a:free"; "b"])
                 (Wire.with_options (ProviderOptions.mk (Some true) (Some true)))))
  = "openrouter/auto".
Proof.
  refine (proj1 (proj2 (proj1 (C6_auto_choose_precedence _ _) _ _)));
    vm_compute; reflexivity.
Defined.

End AutoChooseClaims.

(** ** Provider credentials and connectivity *)

Section RegistryClaims.

Import SettingsPanel.

(** C7: no credential comes back from the provider list.  The list
    response carries every provider with a blank credential slot;
    [listProviders] returns the response as it is, the providers hook
    stores it as it is, and the API key field of the settings panel shows
    the listed [api_key], which is blank.  Two registries that differ only
    in credentials are listed, stored and shown alike. *)
Theorem C7_credentials_not_listed (registry : list Provider.t)
    (st : UseProviders.State) :
  let listed := Api.listProviders (Backend.list_providers registry) in
  let shown := UseProviders.providers
                 (UseProviders.loadProviders (Backend.list_providers registry) st) in
  listed = Ok (Backend.without_credential <$> registry)
  /\ shown = Backend.without_credential <$> registry
  /\ Forall (fun p => Provider.api_key p = EmptyString /\
                     value (api_key_field p) = EmptyString) shown
  /\ (forall registry' : list Provider.t,
        Forall2 Backend.same_public registry registry' ->
        Api.listProviders (Backend.list_providers registry') = listed /\
        api_key_field <$> UseProviders.providers
          (UseProviders.loadProviders (Backend.list_providers registry') st)
        = api_key_field <$> shown).
Proof.
  cbn zeta.
  assert (Hl : forall r, Api.listProviders (Backend.list_providers r)
                         = Ok (Backend.without_credential <$> r)) by reflexivity.
  assert (Hs : forall r, UseProviders.providers
                           (UseProviders.loadProviders (Backend.list_providers r) st)
                         = Backend.without_credential <$> r) by reflexivity.
  split; [apply Hl|]. split; [apply Hs|]. split.
  - rewrite Hs. apply Forall_fmap, Forall_true. intros p. split; reflexivity.
  - intros registry' H.
    assert (E : Backend.without_credential <$> registry'
                = Backend.without_credential <$> registry).
    { induction H as [|x y l l' Hxy _ IH]; [reflexivity|].
      cbn [fmap list_fmap]. f_equal; [symmetry; exact Hxy|exact IH]. }
    rewrite !Hl, !Hs, E. split; reflexivity.
Qed.

Lemma C7_credentials_not_listed_witness :
  Api.listProviders
    (Backend.list_providers
       [Provider.mk "openai" "OpenAI" "https://api.openai.com/v1" "sk-one"
          "gpt-4o-mini" "api" "openai" false None None None])
  = Api.listProviders
      (Backend.list_providers
         [Provider.mk "openai" "OpenAI" "https://api.openai.com/v1" "sk-two"
            "gpt-4o-mini" "api" "openai" false None None None]).
Proof.
  symmetry.
  refine (proj1 (proj2 (proj2 (proj2
            (C7_credentials_not_listed _ (UseProviders.mk [] false))) ) _ _)).
  repeat constructor.
Defined.

(** The front end adds nothing to and takes nothing from what is listed:
    whatever [api_key] a list response carries is what the key field
    holds. *)
Lemma listed_key_shown (ps : list Provider.t) (st : UseProviders.State) :
  UseProviders.providers (UseProviders.loadProviders (Wire.replies ps) st) = ps /\
  value <$> (api_key_field <$> ps) = Provider.api_key <$> ps.
Proof.
  split; [reflexivity|].
  induction ps as [|p ps IH]; [reflexivity|]. cbn. f_equal. exact IH.
Qed.

(** The API client and the providers hook themselves reject when the
    server cannot be reached or answers with an error status. *)
Lemma testConnection_rejects (fetch : Api.Fetch ProviderTestResult.t) (name : string) :
  (forall e, fetch (Api.API_BASE +:+ "/providers/" +:+ name +:+ "/test")
               (Some {| Api.method := "POST"; Api.body := None |}) = Throw e ->
             UseProviders.testConnection fetch name = Throw e)
  /\ (forall res, fetch (Api.API_BASE +:+ "/providers/" +:+ name +:+ "/test")
                   (Some {| Api.method := "POST"; Api.body := None |}) = Ok res ->
                 Api.ok res = false ->
                 UseProviders.testConnection fetch name =
                 Throw (Error ("API Error " +:+ Js.show_nat (Api.status res)
                                 +:+ ": " +:+ Api.text res))).
Proof.
  unfold UseProviders.testConnection, Api.testProvider, Api.fetchJson.
  split.
  - intros e H. rewrite H. reflexivity.
  - intros res H Hok. rewrite H. cbn. rewrite Hok. reflexivity.
Qed.

(** The panel's test action over any [onTestProvider]. *)
Lemma test_total (onTestProvider : string -> Result ProviderTestResult.t)
    (n : string) (st : State) :
  test onTestProvider n st =
  Ok (mk (expanded st)
        (<[n := match onTestProvider n with
                | Ok r => r
                | Throw _ => ProviderTestResult.mk false "Failed" None
                end]> (results st))
        None (modelSearch st) (dynamicModels st)).
Proof. unfold test. destruct (onTestProvider n); reflexivity. Qed.

(** C8, as the code has it: the connectivity test is total in the
    settings panel, not below it.  Whatever the network does, the panel's
    test action, wired to the providers hook and the API client as the
    application wires them, ends normally with no test running and a
    result recorded for the provider; nothing else of the panel changes.
    The result is the one the server sent when the request to
    [/api/providers/<name>/test] is answered OK with a JSON body; it is the
    failure result with the message [Failed] and no latency when the
    server cannot be reached, answers with an error status, or sends a body
    that is not JSON. *)
Theorem C8_connectivity_test_total (fetch : Api.Fetch ProviderTestResult.t)
    (n : string) (st : State) :
  let answer :=
    fetch ("/api/providers/" +:+ n +:+ "/test")
      (Some {| Api.method := "POST"; Api.body := None |}) in
  let failed := ProviderTestResult.mk false "Failed" None in
  exists (st' : State) (r : ProviderTestResult.t),
    test (UseProviders.testConnection fetch) n st = Ok st'
    /\ results st' !! n = Some r
    /\ testing st' = None
    /\ expanded st' = expanded st
    /\ modelSearch st' = modelSearch st
    /\ dynamicModels st' = dynamicModels st
    /\ (forall m, m <> n -> results st' !! m = results st !! m)
    /\ (forall res r0, answer = Ok res -> Api.ok res = true -> Api.json res = Ok r0 ->
                       r = r0)
    /\ (forall e, answer = Throw e -> r = failed)
    /\ (forall res, answer = Ok res -> Api.ok res = false -> r = failed)
    /\ (forall res e, answer = Ok res -> Api.ok res = true -> Api.json res = Throw e ->
                      r = failed).
Proof.
  cbv zeta. rewrite test_total. eexists; eexists.
  split; [reflexivity|]. cbn [results testing expanded modelSearch dynamicModels].
  split; [apply lookup_insert_eq|]. do 4 (split; [reflexivity|]).
  split; [intros m Hm; apply lookup_insert_ne; congruence|].
  unfold UseProviders.testConnection, Api.testProvider, Api.fetchJson, mbind, result_bind.
  change (Api.API_BASE +:+ "/providers/" +:+ n +:+ "/test")
    with ("/api/providers/" +:+ n +:+ "/test").
  destruct (fetch ("/api/providers/" +:+ n +:+ "/test")
              (Some {| Api.method := "POST"; Api.body := None |})) as [res|e].
  - destruct (Api.ok res) eqn:Eok; cbn [negb].
    + destruct (Api.json res) as [r0|e] eqn:Ej.
      * split; [intros res' r1 H _ Hj; injection H as <-; congruence|].
        split; [discriminate|].
        split; [intros res' H Hk; injection H as <-; congruence|].
        intros res' e H _ Hj. injection H as <-. congruence.
      * split; [intros res' r1 H _ Hj; injection H as <-; congruence|].
        repeat split; reflexivity.
    + split; [intros res' r1 H Hk; injection H as <-; congruence|].
      repeat split; reflexivity.
  - split; [discriminate|]. repeat split; reflexivity.
Qed.

Lemma C8_connectivity_test_total_witness :
  exists st' : State,
    test (UseProviders.testConnection Wire.unreachable) "openai"
      (mk None ∅ None EmptyString ∅) = Ok st'
    /\ results st' !! "openai" = Some (ProviderTestResult.mk false "Failed" None)
    /\ testing st' = None.
Proof.
  destruct (C8_connectivity_test_total Wire.unreachable "openai"
              (mk None ∅ None EmptyString ∅))
    as (st' & r & H1 & H2 & H3 & _ & _ & _ & _ & _ & H5 & _).
  exists st'. split; [exact H1|]. split; [|exact H3].
  rewrite H2. f_equal. exact (H5 (Error "Failed to fetch") eq_refl).
Defined.

(** C8 as stated fails for the two functions below the panel: the API
    client's [testProvider] and the hook's [testConnection] pass a network
    failure and an error status on to their caller as an exception. *)
Lemma C8_counterexample :
  Api.testProvider Wire.unreachable "openai" = Throw (Error "Failed to fetch")
  /\ UseProviders.testConnection Wire.unreachable "openai" = Throw (Error "Failed to fetch")
  /\ UseProviders.testConnection
       (fun _ _ => Ok {| Api.ok := false; Api.status := 502; Api.text := "Bad Gateway";
                         Api.json := Throw (Error "SyntaxError") |})
       "openai"
     = Throw (Error "API Error 502: Bad Gateway").
Proof. vm_compute. repeat split. Qed.

End RegistryClaims.

(** * Further properties *)

(** ** The read loop, for any sink *)

Section LoopFacts.
Context {P : Platform}.

Import Stream.

Lemma split_nl_no_nl (s : string) :
  Js.nl ∉ String.list_ascii_of_string s <-> Js.split_nl s = [s].
Proof.
  induction s as [|c s IH]; cbn [String.list_ascii_of_string Js.split_nl].
  - split; [reflexivity|]. intros _ H. inversion H.
  - rewrite not_elem_of_cons. destruct (Ascii.eqb c Js.nl) eqn:E.
    + apply Ascii.eqb_eq in E. split; [intros [H _]; congruence|discriminate].
    + apply Ascii.eqb_neq in E.
      destruct (Js.split_nl s) as [|l ls] eqn:Es; [destruct (split_nl_not_nil s Es)|].
      split.
      * intros [_ H]. apply IH in H. injection H as -> ->. reflexivity.
      * intros H. injection H as -> ->. split; [congruence|apply IH; reflexivity].
Qed.

Lemma events_no_nl (s : string) : Js.split_nl s = [s] -> events s = [].
Proof. intros H. unfold events, complete_lines. rewrite H. reflexivity. Qed.

Lemma pending_of_no_nl (s : string) : Js.split_nl s = [s] -> pending s = s.
Proof. intros H. unfold pending. rewrite H. reflexivity. Qed.

Lemma split_nl_no_nl_app (a b : string) :
  Js.split_nl a = [a] -> Js.split_nl b = [b] -> Js.split_nl (a +:+ b) = [a +:+ b].
Proof.
  intros Ha Hb. rewrite split_nl_app, (pending_of_no_nl a Ha), Ha. cbn [removelast app].
  apply split_nl_no_nl. apply split_nl_no_nl in Ha, Hb.
  clear -Ha Hb. induction a as [|c a IH].
  - rewrite append_empty_l. exact Hb.
  - rewrite append_cons. cbn [String.list_ascii_of_string] in *.
    rewrite not_elem_of_cons in *. destruct Ha as [Hc Ha]. split; [exact Hc|apply IH, Ha].
Qed.

Lemma received_app {A} (l1 l2 : list (Api.Step A)) :
  received (l1 ++ l2) = received l1 +:+ received l2.
Proof.
  induction l1 as [|[v|a] l1 IH]; cbn [app received].
  - rewrite append_empty_l. reflexivity.
  - rewrite IH, append_assoc. reflexivity.
  - exact IH.
Qed.

Lemma foldl_observe {S T} (options : Api.Sink S) (f : S -> T) (g : T -> Api.Callback -> T) :
  (forall c s, f (Api.deliver options s c) = g (f s) c) ->
  forall calls s, f (foldl (Api.deliver options) s calls) = foldl g (f s) calls.
Proof.
  intros H calls. induction calls as [|c calls IH]; intros s; cbn [foldl]; [reflexivity|].
  rewrite IH, H. reflexivity.
Qed.

(** An observation of the caller's state that the interleaved actions do
    not change follows the events of the text received, whatever runs
    between the reads; the buffer is the unfinished line. *)
Lemma read_loop_observe {S A T} (options : Api.Sink S) (meanwhile : A -> S -> S)
    (f : S -> T) (g : T -> Api.Callback -> T) :
  (forall c s, f (Api.deliver options s c) = g (f s) c) ->
  (forall a s, f (meanwhile a s) = f s) ->
  forall steps buffer s,
    fst (Api.read_loop options meanwhile (pending buffer) steps s) =
      pending (pending buffer +:+ received steps) /\
    f (snd (Api.read_loop options meanwhile (pending buffer) steps s)) =
      foldl g (f s) (events (pending buffer +:+ received steps)).
Proof.
  intros Hc Hm steps.
  induction steps as [|[value|a] steps IH]; intros buffer s; cbn [Api.read_loop received].
  - rewrite append_empty_r, pending_idemp. unfold events.
    rewrite complete_lines_pending. split; reflexivity.
  - rewrite on_chunk_deliver.
    destruct (IH (pending buffer +:+ value)
                (foldl (Api.deliver options) s (events (pending buffer +:+ value)))) as [IH1 IH2].
    rewrite IH1, IH2, (foldl_observe options f g Hc).
    rewrite <- append_assoc, (pending_app (pending buffer +:+ value)),
      (events_app (pending buffer +:+ value)), foldl_app.
    split; reflexivity.
  - rewrite <- (Hm a s). apply IH.
Qed.

Lemma read_loop_observe_start {S A T} (options : Api.Sink S) (meanwhile : A -> S -> S)
    (f : S -> T) (g : T -> Api.Callback -> T) :
  (forall c s, f (Api.deliver options s c) = g (f s) c) ->
  (forall a s, f (meanwhile a s) = f s) ->
  forall steps s,
    fst (Api.read_loop options meanwhile EmptyString steps s) = pending (received steps) /\
    f (snd (Api.read_loop options meanwhile EmptyString steps s)) =
      foldl g (f s) (events (received steps)).
Proof.
  intros Hc Hm steps s.
  pose proof (read_loop_observe options meanwhile f g Hc Hm steps EmptyString s) as H.
  rewrite pending_empty, append_empty_l in H. exact H.
Qed.

Lemma read_loop_fst {S A} (options : Api.Sink S) (meanwhile : A -> S -> S)
    (steps : list (Api.Step A)) (s : S) :
  fst (Api.read_loop options meanwhile EmptyString steps s) = pending (received steps).
Proof.
  exact (proj1 (read_loop_observe_start options meanwhile (fun _ => tt) (fun _ _ => tt)
                  (fun _ _ => eq_refl) (fun _ _ => eq_refl) steps s)).
Qed.

(** X1: the buffer kept between two reads is the text received after the
    last line feed, whatever the sink does and whatever runs between the
    reads; it never holds a line feed. *)
Theorem buffer_is_unfinished_line {S A} (options : Api.Sink S) (meanwhile : A -> S -> S)
    (steps : list (Api.Step A)) (s : S) :
  fst (Api.read_loop options meanwhile EmptyString steps s) = pending (received steps) /\
  Js.nl ∉ String.list_ascii_of_string
           (fst (Api.read_loop options meanwhile EmptyString steps s)).
Proof.
  rewrite read_loop_fst. split; [reflexivity|]. apply split_nl_no_nl, pending_no_nl.
Qed.

(** X2: a last line that no line feed ends is never handled: a final chunk
    without a line feed leaves the caller's state as it was, whatever the
    line holds. *)
Theorem unterminated_line_not_delivered {S A} (options : Api.Sink S)
    (meanwhile : A -> S -> S) (steps : list (Api.Step A)) (tail : string) (s : S) :
  Js.nl ∉ String.list_ascii_of_string tail ->
  snd (Api.read_loop options meanwhile EmptyString (steps ++ [Api.Read tail]) s) =
  snd (Api.read_loop options meanwhile EmptyString steps s).
Proof.
  intros Ht. rewrite read_loop_app. cbn [Api.read_loop].
  rewrite on_chunk_deliver. cbn [snd].
  rewrite read_loop_fst, events_no_nl; [reflexivity|].
  apply split_nl_no_nl_app; [apply pending_no_nl|apply split_nl_no_nl, Ht].
Qed.

End LoopFacts.

Lemma unterminated_line_not_delivered_witness :
  Stream.delivered (P := Wire.reference) (A := unit)
    [Api.Read (Wire.token "He"); Api.Read ("data: " +:+ Json.object_text [("type", "done")])]
  = [Api.Token (Json.str "He")].
Proof.
  unfold Stream.delivered.
  refine (eq_trans
            (unterminated_line_not_delivered (P := Wire.reference) Api.recorder
               (fun (_ : unit) log => log) [Api.Read (Wire.token "He")]
               ("data: " +:+ Json.object_text [("type", "done")]) [] _) _).
  - apply split_nl_no_nl. vm_compute. reflexivity.
  - vm_compute. reflexivity.
Defined.

(** ** The chat hook: status, failures and the message list *)

Section HookStatus.
Context {P : Platform}.

Import Stream.

Lemma foldl_flag (calls : list Api.Callback) (b : bool) :
  foldl (fun b c => if is_terminal c then false else b) b calls =
  if existsb is_terminal calls then false else b.
Proof.
  revert b. induction calls as [|c calls IH]; intros b; cbn [foldl existsb]; [reflexivity|].
  rewrite IH. destruct (is_terminal c); cbn [orb]; [|reflexivity].
  destruct (existsb is_terminal calls); reflexivity.
Qed.

Lemma foldl_last_of {V} (h : Api.Callback -> option V) (calls : list Api.Callback) (d : V) :
  foldl (fun acc c => default acc (h c)) d calls = default d (last (omap h calls)).
Proof.
  induction calls as [|c calls IH] using rev_ind; [reflexivity|].
  rewrite foldl_app, omap_app. cbn [foldl omap list_omap]. rewrite IH.
  destruct (h c) as [v|]; cbn [default].
  - rewrite last_snoc. reflexivity.
  - rewrite app_nil_r. reflexivity.
Qed.

Lemma streaming_status (steps : list (Api.Step UseChat.Action)) (s : UseChat.State) :
  let final := snd (UseChat.streaming steps s) in
  let evs := events (received steps) in
  UseChat.isStreaming final = (if existsb is_terminal evs then false else UseChat.isStreaming s) /\
  UseChat.error final = default (UseChat.error s) (last (omap failure_of evs)) /\
  UseChat.convIdRef final = default (UseChat.convIdRef s) (last (omap conversation_id_of evs)).
Proof.
  cbv zeta. unfold UseChat.streaming. split; [|split].
  - rewrite <- foldl_flag.
    apply (read_loop_observe_start UseChat.callbacks UseChat.meanwhile UseChat.isStreaming).
    + intros [] st; cbn; [destruct (UseChat.abortRef st)|..]; reflexivity.
    + intros [] st. reflexivity.
  - rewrite <- foldl_last_of.
    apply (read_loop_observe_start UseChat.callbacks UseChat.meanwhile UseChat.error).
    + intros [] st; cbn; [destruct (UseChat.abortRef st)|..]; reflexivity.
    + intros [] st. reflexivity.
  - rewrite <- foldl_last_of.
    apply (read_loop_observe_start UseChat.callbacks UseChat.meanwhile UseChat.convIdRef).
    + intros [] st; cbn; [destruct (UseChat.abortRef st)|..]; reflexivity.
    + intros [] st. reflexivity.
Qed.

Lemma sendMessage_answers (steps : list (Api.Step UseChat.Action)) (ending : Api.ReadEnd)
    (content : string) (settings : ChatSettings.t) (cid sp : option string)
    (att : option (list UseChat.File)) (st : UseChat.State) :
  snd (UseChat.sendMessage (Wire.answers steps ending) content settings cid sp att st) =
  let st1 := snd (UseChat.streaming steps (UseChat.begin content cid att st)) in
  match ending with
  | Api.Eof => st1
  | Api.ReadError (Error message) =>
      UseChat.setIsStreaming false (UseChat.setError (Json.str message) st1)
  end.
Proof.
  unfold UseChat.sendMessage, Api.streamChat, Wire.answers, UseChat.streaming.
  cbn [Api.chat_ok Api.chat_body negb].
  destruct ending as [|[message]]; reflexivity.
Qed.

Lemma sendMessage_returns (fetch : string -> Api.ChatRequest -> Result (Api.ChatResponse UseChat.Action))
    (content : string) (settings : ChatSettings.t) (cid sp : option string)
    (att : option (list UseChat.File)) (st : UseChat.State) :
  fst (UseChat.sendMessage fetch content settings cid sp att st) =
  UseChat.convIdRef (snd (UseChat.sendMessage fetch content settings cid sp att st)).
Proof.
  unfold UseChat.sendMessage.
  destruct (Api.streamChat _ _ _ _ _) as [st1 outcome]. reflexivity.
Qed.

(** X3: when the response ends cleanly, the spinner and the error shown
    depend on the events of the response text alone, not on the chunking
    nor on the stop button: [isStreaming] is off exactly when the text
    carries a [done] or an error event (a response that just ends leaves it
    on), and [error] is the payload of the last error event, [null] if
    there is none. *)
Theorem status_after_clean_end (steps : list (Api.Step UseChat.Action))
    (content : string) (settings : ChatSettings.t) (cid sp : option string)
    (att : option (list UseChat.File)) (st : UseChat.State) :
  let final := snd (UseChat.sendMessage (Wire.answers steps Api.Eof)
                      content settings cid sp att st) in
  let evs := events (received steps) in
  UseChat.isStreaming final = negb (existsb is_terminal evs) /\
  UseChat.error final = default Json.null (last (omap failure_of evs)).
Proof.
  cbv zeta. rewrite sendMessage_answers. cbv zeta.
  destruct (streaming_status steps (UseChat.begin content cid att st)) as (H1 & H2 & _).
  rewrite H1, H2. split; [|reflexivity].
  destruct (existsb is_terminal _); reflexivity.
Qed.



(** X5: every way [streamChat] throws ends in the hook with the message
    shown and the spinner off.  An unreachable server shows the rejection's
    message, a response that is not OK shows [Chat API error: <status>], a
    response without body shows [No response body]; in all three the user
    message and an empty assistant message stay in the list and the id
    passed in is returned.  A read that fails shows its message over the
    state the stream had reached. *)
Theorem failures_are_shown
    (fetch : string -> Api.ChatRequest -> Result (Api.ChatResponse UseChat.Action))
    (content : string) (settings : ChatSettings.t) (cid sp : option string)
    (att : option (list UseChat.File)) (st : UseChat.State) :
  let request :=
    UseChat.request settings cid sp
      (UseChat.messages st ++ [ChatMessage.make user (UseChat.messageContent content att)]) in
  let result := UseChat.sendMessage fetch content settings cid sp att st in
  (forall message, fetch "/api/chat" request = Throw (Error message) ->
     result = (UseChat.of_option cid, failed message content cid att st))
  /\ (forall res, fetch "/api/chat" request = Ok res -> Api.chat_ok res = false ->
        result = (UseChat.of_option cid,
                  failed ("Chat API error: " +:+ Js.show_nat (Api.chat_status res))
                    content cid att st))
  /\ (forall res, fetch "/api/chat" request = Ok res -> Api.chat_ok res = true ->
        Api.chat_body res = None ->
        result = (UseChat.of_option cid, failed "No response body" content cid att st))
  /\ (forall res steps message, fetch "/api/chat" request = Ok res -> Api.chat_ok res = true ->
        Api.chat_body res = Some (steps, Api.ReadError (Error message)) ->
        snd result =
        UseChat.setIsStreaming false
          (UseChat.setError (Json.str message)
             (snd (UseChat.streaming steps (UseChat.begin content cid att st))))).
Proof.
  cbv zeta. unfold UseChat.sendMessage, Api.streamChat.
  change (Api.API_BASE +:+ "/chat") with "/api/chat".
  assert (Hf : forall message,
             UseChat.setIsStreaming false
               (UseChat.setError (Json.str message) (UseChat.begin content cid att st))
             = failed message content cid att st).
  { intros message.
    unfold failed, UseChat.begin, UseChat.setIsStreaming, UseChat.setError,
      UseChat.setMessages, UseChat.set_convIdRef, UseChat.set_abortRef.
    cbn. rewrite <- app_assoc. reflexivity. }
  split; [|split; [|split]].
  - intros message ->. rewrite <- Hf. reflexivity.
  - intros res -> ->. rewrite <- Hf. reflexivity.
  - intros res -> -> ->. rewrite <- Hf. reflexivity.
  - intros res steps message -> -> ->. reflexivity.
Qed.

End HookStatus.


(** A second message sent while the first response is read takes over the
    ref: the first call, whose response announced [c7], resolves with
    [undefined]. *)
Example second_send_takes_the_id :
  fst (UseChat.sendMessage_among (P := Wire.reference)
         (UseChat.page (P := Wire.reference))
         (Wire.answers
            [Api.Read (Wire.conversation_id "c7");
             Api.Meanwhile (UseChat.send_called None);
             Api.Read (Wire.token "He" +:+ Wire.done "c7")] Api.Eof)
         [] "hi" Wire.settings None None None Wire.blank)
  = Ok Json.undefined.
Proof. vm_compute. reflexivity. Qed.

Lemma failures_are_shown_witness :
  UseChat.sendMessage (P := Wire.reference) (fun _ _ => Throw (Error "Failed to fetch"))
    "hi" Wire.settings (Some "c1") None None Wire.blank
  = (Json.str "c1",
     UseChat.mk
       [ChatMessage.make user (Text "hi"); ChatMessage.make assistant (Text EmptyString)]
       false (Json.str "Failed to fetch") false (Json.str "c1")).
Proof.
  exact (proj1 (failures_are_shown (P := Wire.reference)
                  (fun _ _ => Throw (Error "Failed to fetch"))
                  "hi" Wire.settings (Some "c1") None None Wire.blank)
           "Failed to fetch" eq_refl).
Defined.

Section HookMessages.
Context {P : Platform}.

Import Stream.

(** X6: how the network cuts the response text into chunks changes nothing:
    two uninterrupted streams that carry the same text leave [sendMessage]
    with the same returned id and the same state. *)
Theorem chunking_does_not_matter (chunks1 chunks2 : list string) (ending : Api.ReadEnd)
    (content : string) (settings : ChatSettings.t) (cid sp : option string)
    (att : option (list UseChat.File)) (st : UseChat.State) :
  Js.concat chunks1 = Js.concat chunks2 ->
  UseChat.sendMessage (Wire.answers (Api.Read <$> chunks1) ending)
    content settings cid sp att st =
  UseChat.sendMessage (Wire.answers (Api.Read <$> chunks2) ending)
    content settings cid sp att st.
Proof.
  intros H.
  apply injective_projections.
  - rewrite !sendMessage_returns, !sendMessage_answers. cbv zeta.
    unfold UseChat.streaming. rewrite !read_loop_uninterrupted, H. reflexivity.
  - rewrite !sendMessage_answers. cbv zeta.
    unfold UseChat.streaming. rewrite !read_loop_uninterrupted, H. reflexivity.
Qed.

Lemma append_token_frame (token : Json.Value) (prev : list ChatMessage.t) :
  length (UseChat.append_token token prev) = length prev /\
  removelast (UseChat.append_token token prev) = removelast prev /\
  ChatMessage.role <$> UseChat.append_token token prev = ChatMessage.role <$> prev /\
  (forall l, last prev = Some l -> ChatMessage.role l <> assistant ->
             UseChat.append_token token prev = prev).
Proof.
  unfold UseChat.append_token.
  destruct (last prev) as [l|] eqn:El; [|repeat split; congruence].
  destruct (decide (ChatMessage.role l = assistant)) as [Hr|Hr].
  - apply last_Some in El as [prior ->].
    rewrite length_app. cbn [length].
    replace (length prior + 1 - 1)%nat with (length prior + 0)%nat by lia.
    rewrite insert_app_r. cbn [insert list_insert].
    rewrite !List.removelast_last, !fmap_app, !length_app. cbn.
    repeat split; try congruence.
  - repeat split; reflexivity.
Qed.

(** X7: a stream never adds, removes or reorders a message and never
    touches any message but the last: whatever the response holds and
    whenever the stop button is pressed, the list keeps its length, its
    roles and all its messages before the last, and it is unchanged
    altogether when its last message is not an assistant message. *)
Theorem stream_touches_last_message_only (steps : list (Api.Step UseChat.Action))
    (st : UseChat.State) :
  let final := UseChat.messages (snd (UseChat.streaming steps st)) in
  length final = length (UseChat.messages st) /\
  removelast final = removelast (UseChat.messages st) /\
  ChatMessage.role <$> final = ChatMessage.role <$> UseChat.messages st /\
  (forall l, last (UseChat.messages st) = Some l -> ChatMessage.role l <> assistant ->
             final = UseChat.messages st).
Proof.
  cbv zeta. unfold UseChat.streaming.
  assert (Hd : forall c s,
             UseChat.messages (Api.deliver UseChat.callbacks s c) = UseChat.messages s \/
             exists token, UseChat.messages (Api.deliver UseChat.callbacks s c) =
                           UseChat.append_token token (UseChat.messages s)).
  { intros [token| | |] s; cbn; [|auto..].
    destruct (UseChat.abortRef s); [auto|right; exists token; reflexivity]. }
  assert (Hm : forall a s, UseChat.messages (UseChat.meanwhile a s) = UseChat.messages s).
  { intros [] s. reflexivity. }
  split; [|split; [|split]].
  - apply (read_loop_invariant UseChat.callbacks UseChat.meanwhile
             (fun s => length (UseChat.messages s) = length (UseChat.messages st)));
      [| |reflexivity].
    + intros c s Hs. destruct (Hd c s) as [->|[token ->]]; [exact Hs|].
      rewrite (proj1 (append_token_frame token _)). exact Hs.
    + intros a s Hs. rewrite Hm. exact Hs.
  - apply (read_loop_invariant UseChat.callbacks UseChat.meanwhile
             (fun s => removelast (UseChat.messages s) = removelast (UseChat.messages st)));
      [| |reflexivity].
    + intros c s Hs. destruct (Hd c s) as [->|[token ->]]; [exact Hs|].
      rewrite (proj1 (proj2 (append_token_frame token _))). exact Hs.
    + intros a s Hs. rewrite Hm. exact Hs.
  - apply (read_loop_invariant UseChat.callbacks UseChat.meanwhile
             (fun s => ChatMessage.role <$> UseChat.messages s =
                       ChatMessage.role <$> UseChat.messages st));
      [| |reflexivity].
    + intros c s Hs. destruct (Hd c s) as [->|[token ->]]; [exact Hs|].
      rewrite (proj1 (proj2 (proj2 (append_token_frame token _)))). exact Hs.
    + intros a s Hs. rewrite Hm. exact Hs.
  - intros l Hl Hr.
    apply (read_loop_invariant UseChat.callbacks UseChat.meanwhile
             (fun s => UseChat.messages s = UseChat.messages st));
      [| |reflexivity].
    + intros c s Hs. destruct (Hd c s) as [->|[token ->]]; [exact Hs|].
      rewrite Hs. apply (append_token_frame token (UseChat.messages st)) with l; assumption.
    + intros a s Hs. rewrite Hm. exact Hs.
Qed.

Lemma append_token_nil (token : Json.Value) : UseChat.append_token token [] = [].
Proof. reflexivity. Qed.

(** X8: a new chat started while a response is read empties the list, and
    the list stays empty to the end of the stream, whatever the stream
    still delivers, whatever else stops or fails and even if [sendMessage]
    has been called but is still reading its attachments, until a message
    is added or a conversation is opened. *)
Theorem cleared_chat_stays_empty (pre post : list (Api.Step UseChat.PageAction))
    (buffer : string) (st : UseChat.State) :
  Forall (fun a => UseChat.fills_messages a = false) (interleaved post) ->
  UseChat.messages
    (snd (Api.read_loop UseChat.callbacks UseChat.page buffer
            (pre ++ Api.Meanwhile UseChat.new_chat :: post) st)) = [].
Proof.
  intros Hq. rewrite read_loop_app. cbn [Api.read_loop].
  apply (read_loop_invariant_on UseChat.callbacks UseChat.page
           (fun s => UseChat.messages s = [])
           (fun a => UseChat.fills_messages a = false)); [| |exact Hq|reflexivity].
  - intros [] s Hs; cbn; [destruct (UseChat.abortRef s); cbn; rewrite Hs|..];
      try reflexivity; exact Hs.
  - intros a s Ha Hs. destruct a as [| | | | |[]|]; try discriminate; cbn;
      try exact Hs; try reflexivity.
    destruct (UseChat.abortRef s); cbn; rewrite Hs; reflexivity.
Qed.

End HookMessages.

Lemma cleared_chat_stays_empty_witness :
  UseChat.messages
    (snd (Api.read_loop (P := Wire.reference)
            (UseChat.callbacks (P := Wire.reference))
            (UseChat.page (P := Wire.reference)) EmptyString
            ([Api.Read (Wire.token "He")] ++
             Api.Meanwhile UseChat.new_chat ::
             [Api.Read (Wire.token "llo"); Api.Meanwhile (UseChat.send_called None);
              Api.Read (Wire.done "c1")])
            (UseChat.mk
               [ChatMessage.make user (Text "hi");
                ChatMessage.make assistant (Text EmptyString)]
               true Json.null false Json.undefined)))
  = [].
Proof.
  apply (cleared_chat_stays_empty (P := Wire.reference)). repeat constructor.
Defined.

(** A message sent after the new chat, while the old response is still
    read, gets the old response's tokens. *)
Example old_stream_writes_the_new_chat :
  UseChat.messages
    (snd (Api.read_loop (P := Wire.reference)
            (UseChat.callbacks (P := Wire.reference))
            (UseChat.page (P := Wire.reference)) EmptyString
            [Api.Read (Wire.token "He"); Api.Meanwhile UseChat.new_chat;
             Api.Meanwhile (UseChat.send_called None);
             Api.Meanwhile (UseChat.send_started [ChatMessage.make user (Text "next")]);
             Api.Read (Wire.token "llo")]
            (UseChat.mk
               [ChatMessage.make user (Text "hi");
                ChatMessage.make assistant (Text EmptyString)]
               true Json.null false Json.undefined)))
  = [ChatMessage.make user (Text "next"); ChatMessage.make assistant (Text "llo")].
Proof. vm_compute. reflexivity. Qed.

Lemma chunking_does_not_matter_witness :
  UseChat.sendMessage (P := Wire.reference)
    (Wire.answers (Api.Read <$> [Wire.token "He" +:+ Wire.done "c1"]) Api.Eof)
    "hi" Wire.settings None None None Wire.blank =
  UseChat.sendMessage (P := Wire.reference)
    (Wire.answers (Api.Read <$> ["data: {"; Js.slice 7 (Wire.token "He"); Wire.done "c1"])
       Api.Eof)
    "hi" Wire.settings None None None Wire.blank.
Proof.
  apply (chunking_does_not_matter (P := Wire.reference)). vm_compute. reflexivity.
Defined.

Lemma stream_touches_last_message_only_witness :
  UseChat.messages
    (snd (UseChat.streaming (P := Wire.reference)
            [Api.Read (Wire.token "He"); Api.Meanwhile UseChat.stop; Api.Read (Wire.done "c1")]
            (UseChat.mk [ChatMessage.make user (Text "hi")] true Json.null false
               Json.undefined)))
  = [ChatMessage.make user (Text "hi")].
Proof.
  apply (stream_touches_last_message_only (P := Wire.reference)) with
    (l := ChatMessage.make user (Text "hi")).
  - reflexivity.
  - discriminate.
Defined.

(** ** Attachments, from the input bar to the bubble *)

Section Composer.

Lemma parts_of_file_nil (f : UseChat.File) :
  UseChat.parts_of_file f = [] <->
  UseChat.is_image f = false /\ UseChat.is_text_like f = false.
Proof.
  unfold UseChat.parts_of_file.
  destruct (UseChat.is_image f); [split; [discriminate|intros [? _]; discriminate]|].
  destruct (UseChat.is_text_like f); [split; [discriminate|intros [_ ?]; discriminate]|].
  split; auto.
Qed.

Lemma flat_map_nil {X Y} (f : X -> list Y) (l : list X) :
  flat_map f l = [] <-> Forall (fun x => f x = []) l.
Proof.
  induction l as [|x l IH]; cbn [flat_map].
  - split; [constructor|reflexivity].
  - rewrite Forall_cons, <- IH. split.
    + intros H. apply app_eq_nil in H. exact H.
    + intros [-> ->]. reflexivity.
Qed.

Lemma messageContent_parts (content : string) (file : UseChat.File)
    (files : list UseChat.File) :
  UseChat.messageContent content (Some (file :: files)) =
  Parts ((if Js.truthy_string (Js.trim content) then [text_part content] else [])
         ++ flat_map UseChat.parts_of_file (file :: files)).
Proof. unfold UseChat.messageContent. rewrite push_files_parts. reflexivity. Qed.

Lemma messageContent_nil (content : string) (file : UseChat.File)
    (files : list UseChat.File) :
  UseChat.messageContent content (Some (file :: files)) = Parts [] <->
  Js.truthy_string (Js.trim content) = false /\
  Forall (fun f => UseChat.is_image f = false /\ UseChat.is_text_like f = false)
    (file :: files).
Proof.
  rewrite messageContent_parts.
  assert (Hf : Forall (fun f => UseChat.is_image f = false /\ UseChat.is_text_like f = false)
                 (file :: files) <->
               flat_map UseChat.parts_of_file (file :: files) = []).
  { rewrite flat_map_nil. apply Forall_iff. intros f. symmetry. apply parts_of_file_nil. }
  rewrite Hf. destruct (Js.truthy_string (Js.trim content)).
  - split; [discriminate|intros [? _]; discriminate].
  - cbn [app]. split; [intros H; injection H as H; auto|intros [_ H]; rewrite H; reflexivity].
Qed.

Lemma trimStart_truthy (s : string) :
  Js.truthy_string (Js.trimStart s) = true -> Js.truthy_string s = true.
Proof. destruct s; [discriminate|reflexivity]. Qed.

Lemma trim_truthy (s : string) :
  Js.truthy_string (Js.trim s) = true -> Js.truthy_string s = true.
Proof.
  intros H. apply trimStart_truthy.
  destruct (Js.trimStart s) as [|c r] eqn:E; [|reflexivity].
  exfalso. revert H. unfold Js.trim. rewrite E. discriminate.
Qed.

(** The parts [sendMessage] builds all have something to show. *)
Lemma built_parts_render (content : string) (attachments : option (list UseChat.File))
    (parts : list ContentPart) :
  UseChat.messageContent content attachments = Parts parts ->
  Forall (fun part => is_Some (MessageBubble.render_part part)) parts.
Proof.
  destruct attachments as [[|file files]|]; try discriminate.
  rewrite messageContent_parts. intros H.
  assert (Hp : parts =
               (if Js.truthy_string (Js.trim content) then [text_part content] else [])
               ++ flat_map UseChat.parts_of_file (file :: files)) by congruence.
  rewrite Hp. clear H Hp.
  apply Forall_app. split.
  - destruct (Js.truthy_string (Js.trim content)) eqn:E; [|constructor].
    repeat constructor. cbn [MessageBubble.render_part].
    rewrite (trim_truthy content E). eauto.
  - apply Forall_flat_map, Forall_forall. intros f _.
    unfold UseChat.parts_of_file.
    destruct (UseChat.is_image f); [repeat constructor; cbn; eauto|].
    destruct (UseChat.is_text_like f); [|constructor].
    repeat constructor. cbn [MessageBubble.render_part].
    rewrite append_cons. cbn. eauto.
Qed.

Lemma omap_all_some {X Y} (f : X -> option Y) (l : list X) :
  Forall (fun x => is_Some (f x)) l -> length (omap f l) = length l.
Proof.
  induction 1 as [|x l [y Hy] _ IH]; [reflexivity|].
  cbn [omap list_omap]. rewrite Hy. cbn [length]. f_equal. exact IH.
Qed.

(** X9: a message with attachments is sent with an empty list of parts
    exactly when the typed text is blank and no attachment is an image or
    a text-like file. *)
Theorem empty_message_content (content : string) (file : UseChat.File)
    (files : list UseChat.File) :
  UseChat.messageContent content (Some (file :: files)) = Parts [] <->
  Js.truthy_string (Js.trim content) = false /\
  Forall (fun f => UseChat.is_image f = false /\ UseChat.is_text_like f = false)
    (file :: files).
Proof. apply messageContent_nil. Qed.

(** X10: the bubble shows every part that [sendMessage] builds: none of
    them is a text part with an empty text, so the bubble holds as many
    blocks as the content has parts. *)
Theorem every_part_is_rendered (content : string) (attachments : option (list UseChat.File))
    (parts : list ContentPart) :
  UseChat.messageContent content attachments = Parts parts ->
  Forall (fun part => is_Some (MessageBubble.render_part part)) parts /\
  length (MessageBubble.renderContent (Parts parts)) = length parts.
Proof.
  intros H. pose proof (built_parts_render content attachments parts H) as Hall.
  split; [exact Hall|]. apply omap_all_some, Hall.
Qed.

Lemma every_part_is_rendered_witness :
  length
    (MessageBubble.renderContent
       (Parts [text_part "see"; image_url_part "data:image/png;base64,AAAA"])) = 2%nat.
Proof.
  exact (proj2 (every_part_is_rendered "see"
                  (Some [ {| UseChat.type := "image/png"; UseChat.name := "a.png";
                             UseChat.dataURL := "data:image/png;base64,AAAA";
                             UseChat.text := EmptyString |} ])
                  [text_part "see"; image_url_part "data:image/png;base64,AAAA"] eq_refl)).
Defined.

(** X11: what the input bar lets through and what the bubble then shows.
    [handleSend] sends unless the input is blank and there is no
    attachment; the user bubble of a message it sends is empty exactly when
    the input is blank and no attachment is an image or a text-like
    file. *)
Theorem empty_bubble (input : string) (attachments : list UseChat.File) :
  let sent := fst (fst (ChatArea.handleSend input attachments)) in
  (sent = None <-> Js.truthy_string (Js.trim input) = false /\ attachments = []) /\
  (sent <> None ->
   sent = Some (input, attachments) /\
   (MessageBubble.renderContent (UseChat.messageContent input (Some attachments)) = [] <->
    Js.truthy_string (Js.trim input) = false /\
    Forall (fun f => UseChat.is_image f = false /\ UseChat.is_text_like f = false)
      attachments)).
Proof.
  cbv zeta. unfold ChatArea.handleSend.
  destruct (Js.truthy_string (Js.trim input)) eqn:Ei; cbn [negb andb fst].
  - split; [split; [discriminate|intros [? _]; discriminate]|].
    intros _. split; [reflexivity|].
    split; [|intros [? _]; discriminate].
    intros H. exfalso.
    destruct attachments as [|file files]; [discriminate|].
    rewrite messageContent_parts, Ei in H. cbn in H.
    rewrite (trim_truthy input Ei) in H. discriminate.
  - destruct attachments as [|file files]; cbn [length].
    + rewrite bool_decide_eq_true_2 by reflexivity. cbn [fst].
      split; [split; auto|]. intros H. destruct (H eq_refl).
    + rewrite bool_decide_eq_false_2 by discriminate. cbn [fst].
      split; [split; [discriminate|intros [_ ?]; discriminate]|].
      intros _. split; [reflexivity|].
      pose proof (messageContent_nil input file files) as Hn.
      rewrite Ei in Hn. rewrite <- Hn. clear Hn.
      destruct (UseChat.messageContent input (Some (file :: files))) as [s|parts] eqn:E.
      * split; discriminate.
      * pose proof (omap_all_some _ _ (built_parts_render _ _ _ E)) as Hl.
        cbn [MessageBubble.renderContent]. split.
        -- intros H. rewrite H in Hl. destruct parts; [reflexivity|discriminate].
        -- intros H. injection H as ->. reflexivity.
Qed.

Lemma empty_bubble_witness :
  MessageBubble.renderContent
    (UseChat.messageContent "  "
       (Some [ {| UseChat.type := "application/pdf"; UseChat.name := "b.pdf";
                  UseChat.dataURL := "data:application/pdf;base64,BBBB";
                  UseChat.text := "%PDF" |} ])) = [].
Proof.
  apply (empty_bubble "  "
           [ {| UseChat.type := "application/pdf"; UseChat.name := "b.pdf";
                UseChat.dataURL := "data:application/pdf;base64,BBBB";
                UseChat.text := "%PDF" |} ]).
  - discriminate.
  - split; [reflexivity|]. repeat constructor.
Defined.

Lemma filter_index_all {X} (keep : nat -> bool) (k : nat) (l : list X) :
  (forall j, (k <= j)%nat -> keep j = true) -> ChatArea.filter_index keep k l = l.
Proof.
  revert k. induction l as [|x l IH]; intros k H; cbn [ChatArea.filter_index]; [reflexivity|].
  rewrite (H k) by lia. rewrite IH; [reflexivity|]. intros j Hj. apply H. lia.
Qed.

Lemma filter_index_delete {X} (index i t : nat) (l : list X) :
  t = (i + index)%nat ->
  ChatArea.filter_index (fun j => negb (Nat.eqb j t)) i l = delete index l.
Proof.
  revert index i. induction l as [|x l IH]; intros index i Ht; cbn [ChatArea.filter_index].
  - destruct index; reflexivity.
  - destruct index as [|index].
    + replace (Nat.eqb i t) with true by (symmetry; apply Nat.eqb_eq; lia).
      cbn [negb delete list_delete]. apply filter_index_all.
      intros j Hj. destruct (Nat.eqb j t) eqn:E; [apply Nat.eqb_eq in E; lia|reflexivity].
    + replace (Nat.eqb i t) with false by (symmetry; apply Nat.eqb_neq; lia).
      cbn [negb delete list_delete]. rewrite (IH index (S i)) by lia. reflexivity.
Qed.

(** X12: removing an attachment by its position removes that one file and
    keeps the others in order; a position past the end removes nothing. *)
Theorem removeAttachment_delete (index : nat) (prev : list UseChat.File) :
  ChatArea.removeAttachment index prev = delete index prev /\
  ((length prev <= index)%nat -> ChatArea.removeAttachment index prev = prev) /\
  ((index < length prev)%nat ->
   S (length (ChatArea.removeAttachment index prev)) = length prev).
Proof.
  unfold ChatArea.removeAttachment.
  rewrite (filter_index_delete index O index prev eq_refl).
  split; [reflexivity|split].
  - intros H. rewrite delete_take_drop, take_ge, drop_ge, app_nil_r by lia. reflexivity.
  - intros H. rewrite length_delete by (apply lookup_lt_is_Some_2, H). lia.
Qed.

End Composer.

Lemma removeAttachment_delete_witness :
  ChatArea.removeAttachment 5
    [ {| UseChat.type := "image/png"; UseChat.name := "a.png";
         UseChat.dataURL := "data:image/png;base64,AAAA"; UseChat.text := EmptyString |} ]
  = [ {| UseChat.type := "image/png"; UseChat.name := "a.png";
         UseChat.dataURL := "data:image/png;base64,AAAA"; UseChat.text := EmptyString |} ].
Proof.
  apply (removeAttachment_delete 5). cbn. lia.
Defined.

(** ** The settings panel: options, catalog and buttons *)

Section PanelFacts.

Import SettingsPanel.

(** X13: ticking an option box stores that one option and nothing else:
    the option reads back as set, every other option of every provider
    reads as before, and the selected provider, the model and the sampling
    parameters are untouched. *)
Theorem updateOption_frame (st : ChatSettings.t) (n : string) (key : OptionKey) (val : bool) :
  let st' := App.handleSettingsChange (updateOption st n key val) st in
  getOption st' n key = val /\
  (forall n' key', n' <> n \/ key' <> key -> getOption st' n' key' = getOption st n' key') /\
  ChatSettings.provider st' = ChatSettings.provider st /\
  ChatSettings.model st' = ChatSettings.model st /\
  ChatSettings.temperature st' = ChatSettings.temperature st /\
  ChatSettings.top_p st' = ChatSettings.top_p st /\
  ChatSettings.max_tokens st' = ChatSettings.max_tokens st /\
  ChatSettings.presence_penalty st' = ChatSettings.presence_penalty st /\
  ChatSettings.frequency_penalty st' = ChatSettings.frequency_penalty st.
Proof.
  cbv zeta. split; [apply getOption_updateOption|].
  split; [|repeat split].
  intros n' key' H.
  unfold getOption, updateOption, App.handleSettingsChange. cbn.
  destruct (decide (n' = n)) as [->|Hn].
  - rewrite lookup_insert_eq.
    destruct H as [H|H]; [congruence|].
    destruct (ChatSettings.provider_options st) as [options|]; cbn [default]; unfold id.
    + destruct (options !! n) as [o|]; destruct key, key'; try congruence; reflexivity.
    + rewrite lookup_empty. destruct key, key'; try congruence; reflexivity.
  - rewrite lookup_insert_ne by congruence.
    destruct (ChatSettings.provider_options st) as [options|]; cbn [default]; unfold id;
      [reflexivity|].
    rewrite lookup_empty. reflexivity.
Qed.

Lemma updateOption_frame_witness :
  getOption
    (App.handleSettingsChange
       (updateOption
          (settings (Wire.with_options (ProviderOptions.mk None (Some true))))
          "openrouter" free_only true)
       (settings (Wire.with_options (ProviderOptions.mk None (Some true)))))
    "openrouter" auto_choose = true.
Proof.
  refine (eq_trans
            (proj1 (proj2 (updateOption_frame
                             (settings (Wire.with_options (ProviderOptions.mk None (Some true))))
                             "openrouter" free_only true))
               "openrouter" auto_choose _) _).
  - right. discriminate.
  - reflexivity.
Defined.

(** X14: the use-provider button of a card is never on the page.  From a
    freshly mounted panel (no card expanded), after any sequence of card
    clicks, option changes, model clicks and model-name commits, the only
    card that can be expanded is the selected provider's, and the button is
    rendered only in the expanded card of a provider that is not
    selected. *)
Theorem use_provider_button_never_shown (w : World) (events : list Event) (p : Provider.t) :
  expanded (panel w) = None ->
  rendered (foldl step w events) (click_use_provider p) = false.
Proof.
  intros H.
  pose proof (run_expanded_is_selected events w (or_introl H)) as [Hi|Hi];
    unfold rendered, isExpanded, isSelected; rewrite Hi.
  - rewrite bool_decide_eq_false_2 by discriminate. reflexivity.
  - destruct (decide (ChatSettings.provider (settings (foldl step w events)) = Provider.name p))
      as [E|E].
    + rewrite (bool_decide_eq_true_2 _ E), andb_false_r. reflexivity.
    + rewrite bool_decide_eq_false_2 by congruence. reflexivity.
Qed.

Lemma use_provider_button_never_shown_witness :
  rendered
    (foldl step (Wire.with_options (ProviderOptions.mk None None))
       [click_card (Wire.openrouter ["a"]); change_free_only (Wire.openrouter ["a"]) true])
    (click_use_provider (Wire.openrouter ["a"])) = false.
Proof.
  apply use_provider_button_never_shown. reflexivity.
Defined.

(** X15: the catalog of a card.  Reading it throws exactly when the
    provider's name is a member of [Object.prototype] for which no models
    have been fetched; otherwise it lists every model of the provider and
    every fetched model exactly once, in their order of first
    appearance. *)
Theorem combinedModels_distinct (p : Provider.t) (w : World) :
  let listed := default [] (Provider.models p) ++
                default [] (dynamicModels (panel w) !! Provider.name p) in
  (combinedModels p w = Throw (Error "TypeError") <->
   dynamicModels (panel w) !! Provider.name p = None /\
   Js.on_Object_prototype (Provider.name p) = true) /\
  (forall e, combinedModels p w = Throw e -> e = Error "TypeError") /\
  (forall l, combinedModels p w = Ok l ->
     NoDup l /\
     (forall m, m ∈ l <-> m ∈ listed) /\
     l `sublist_of` listed /\
     (NoDup listed -> l = listed)).
Proof.
  cbv zeta. split; [|split].
  - rewrite combinedModels_Throw. split; [intros (_ & H); exact H|intros H; auto].
  - intros e H. apply combinedModels_Throw in H. apply H.
  - intros l H. apply combinedModels_Ok in H as [_ ->].
    destruct (unique_from_spec
                (default [] (Provider.models p) ++
                 default [] (dynamicModels (panel w) !! Provider.name p)) []) as (N & M & S).
    split; [exact N|]. split; [|split; [exact S|]].
    + intros m. rewrite M. split; [tauto|]. intros H. split; [exact H|]. apply not_elem_of_nil.
    + generalize (default [] (Provider.models p) ++
                  default [] (dynamicModels (panel w) !! Provider.name p)).
      clear. intros l.
      assert (H : forall seen, NoDup l -> (forall m, m ∈ l -> m ∉ seen) ->
                               unique_from seen l = l).
      { induction l as [|x l IH]; intros seen Hn Hs; cbn [unique_from]; [reflexivity|].
        apply NoDup_cons in Hn as [Hx Hn].
        rewrite bool_decide_eq_false_2 by (apply Hs; left).
        rewrite IH; [reflexivity|exact Hn|].
        intros m Hm. rewrite not_elem_of_cons. split; [congruence|apply Hs; right; exact Hm]. }
      intros Hn. apply H; [exact Hn|]. intros m _. apply not_elem_of_nil.
Qed.

Lemma combinedModels_distinct_witness :
  combinedModels (Wire.openrouter ["a"; "b"])
    {| settings := Wire.settings;
       panel := mk None ∅ None EmptyString {[ "openrouter" := ["c"] ]} |}
  = Ok ["a"; "b"; "c"]
  /\ combinedModels
       (Provider.mk "constructor" "Custom" "https://example.org/v1" EmptyString "m" "api"
          "custom" true None None (Some ["m"]))
       {| settings := Wire.settings; panel := mk None ∅ None EmptyString ∅ |}
     = Throw (Error "TypeError").
Proof.
  split.
  - pose proof (proj2 (proj2 (combinedModels_distinct (Wire.openrouter ["a"; "b"])
                                {| settings := Wire.settings;
                                   panel := mk None ∅ None EmptyString
                                              {[ "openrouter" := ["c"] ]} |}))) as H.
    cbv zeta in H.
    destruct (combinedModels (Wire.openrouter ["a"; "b"])
                {| settings := Wire.settings;
                   panel := mk None ∅ None EmptyString {[ "openrouter" := ["c"] ]} |})
      as [l|e] eqn:E; [|vm_compute in E; discriminate].
    f_equal. apply (H l eq_refl).
    apply NoDup_ListNoDup. vm_compute. repeat constructor; cbn; intuition discriminate.
  - apply combinedModels_distinct. split; vm_compute; reflexivity.
Defined.

Lemma highlighted_once (x : string) (l : list string) :
  NoDup l ->
  (length (filter (fun b : string * bool => Is_true (snd b))
             ((fun m => (m, bool_decide (x = m))) <$> l)) <= 1)%nat.
Proof.
  induction 1 as [|m l Hm Hn IH]; [cbn; lia|].
  cbn [fmap list_fmap]. destruct (decide (x = m)) as [->|Hx].
  - rewrite filter_cons_True by (cbn; rewrite bool_decide_eq_true_2 by reflexivity; exact I).
    cbn [length].
    assert (E : filter (fun b : string * bool => Is_true (snd b))
                  ((fun m0 => (m0, bool_decide (m = m0))) <$> l) = []).
    { clear IH Hn. induction l as [|y l IHl]; [reflexivity|].
      apply not_elem_of_cons in Hm as [Hy Hm]. cbn [fmap list_fmap].
      rewrite filter_cons_False; [apply IHl, Hm|].
      cbn. rewrite bool_decide_eq_false_2 by congruence. exact id. }
    fold (fmap (M := list) (fun m0 => (m0, bool_decide (m = m0))) l). rewrite E. cbn. lia.
  - rewrite filter_cons_False; [exact IH|].
    cbn. rewrite bool_decide_eq_false_2 by congruence. exact id.
Qed.

(** X16: the model buttons of a card.  No model has two buttons, every
    button is a model of the catalog, and at most one button is
    highlighted: the one of the card's current model, when the filters
    leave it on the list. *)
Theorem model_buttons_sound (p : Provider.t) (w : World) (buttons : list (string * bool)) :
  model_area p w = Ok (model_buttons buttons) ->
  NoDup (fst <$> buttons) /\
  (exists catalog, combinedModels p w = Ok catalog /\
                   forall m, m ∈ fst <$> buttons -> m ∈ catalog) /\
  (length (filter (fun b : string * bool => Is_true (snd b)) buttons) <= 1)%nat /\
  (forall m, (m, true) ∈ buttons <-> m = current_model p w /\ m ∈ fst <$> buttons).
Proof.
  intros H. apply model_area_Ok in H as (l & Hl & H).
  destruct l as [|m0 l0]; [discriminate|]. injection H as ->.
  pose proof (combinedModels_nodup p w _ Hl) as Hn.
  set (l := m0 :: l0) in *.
  set (by_tier := if getOption (settings w) (Provider.name p) free_only
                  then filter (fun m => Is_true (free_tier m)) l else l).
  set (shown := if Js.truthy_string (modelSearch (panel w))
                then filter (fun m => Is_true (Js.includes (Js.toLowerCase m)
                                                 (Js.toLowerCase (modelSearch (panel w)))))
                       by_tier
                else by_tier).
  assert (Hsub : shown `sublist_of` l).
  { subst shown by_tier.
    destruct (Js.truthy_string _), (getOption _ _ _);
      repeat (etransitivity; [apply sublist_filter|]); reflexivity. }
  assert (Hshown : NoDup shown) by (eapply sublist_NoDup; eassumption).
  rewrite fst_marked.
  split; [exact Hshown|]. split; [|split].
  - exists l. split; [exact Hl|]. intros m Hm. exact (sublist_subseteq _ _ Hsub m Hm).
  - apply highlighted_once, Hshown.
  - intros m. rewrite list_elem_of_fmap. split.
    + intros (m' & E & Hm'). injection E as -> E. symmetry in E.
      apply bool_decide_eq_true in E. auto.
    + intros [-> Hm]. exists (current_model p w). split; [|exact Hm].
      rewrite bool_decide_eq_true_2 by reflexivity. reflexivity.
Qed.

End PanelFacts.

Lemma model_buttons_sound_witness :
  NoDup (fst <$> [("a:free", false); ("c:free", false)]).
Proof.
  refine (proj1 (model_buttons_sound (Wire.openrouter ["a:free"; "b"; "c:free"])
                   (SettingsPanel.step
                      (Wire.with_options (ProviderOptions.mk (Some true) None))
                      (SettingsPanel.click_card (Wire.openrouter ["a:free"; "b"; "c:free"])))
                   [("a:free", false); ("c:free", false)] _)).
  vm_compute. reflexivity.
Defined.

(** ** Refreshing the catalog and adding a provider *)

Section PanelForms.

Import SettingsPanel.

(** X17: refreshing the models of a provider never throws and always ends
    with no refresh pending.  It touches nothing of the panel but the
    fetched models of that provider: when the server answers OK with a
    list, that list replaces them and every model of it is in the card's
    catalog; when the server cannot be reached, answers with an error
    status or with a body that is not JSON, the panel is exactly as
    before. *)
Theorem handleRefreshModels_total (fetch : Api.Fetch (list string)) (n : string)
    (st : State) (fetching : option string) :
  exists st' : State,
    handleRefreshModels fetch n (st, fetching) = Ok (st', None)
    /\ expanded st' = expanded st /\ results st' = results st
    /\ testing st' = testing st /\ modelSearch st' = modelSearch st
    /\ (forall m, m <> n -> dynamicModels st' !! m = dynamicModels st !! m)
    /\ (forall res models,
          fetch ("/api/providers/" +:+ n +:+ "/models") None = Ok res ->
          Api.ok res = true -> Api.json res = Ok models ->
          dynamicModels st' !! n = Some models /\
          forall (p : Provider.t) (s : ChatSettings.t) (m : string),
            Provider.name p = n -> m ∈ models ->
            exists catalog,
              combinedModels p {| settings := s; panel := st' |} = Ok catalog /\
              m ∈ catalog)
    /\ (forall e, fetch ("/api/providers/" +:+ n +:+ "/models") None = Throw e -> st' = st)
    /\ (forall res, fetch ("/api/providers/" +:+ n +:+ "/models") None = Ok res ->
                    Api.ok res = false -> st' = st)
    /\ (forall res e, fetch ("/api/providers/" +:+ n +:+ "/models") None = Ok res ->
                      Api.json res = Throw e -> st' = st).
Proof.
  unfold handleRefreshModels, try_catch, mbind, result_bind. cbn [fst snd].
  destruct (fetch ("/api/providers/" +:+ n +:+ "/models") None) as [res|e] eqn:Ef.
  - destruct (Api.ok res) eqn:Eok.
    + destruct (Api.json res) as [models|e] eqn:Ej.
      * exists (setDynamicModels (fun prev => <[n := models]> prev) st).
        split; [reflexivity|]. do 4 (split; [reflexivity|]).
        split; [intros m Hm; cbn; apply lookup_insert_ne; congruence|].
        split.
        { intros res' models' Hr Hok Hj. injection Hr as <-.
          rewrite Ej in Hj. injection Hj as <-.
          split; [cbn; apply lookup_insert_eq|].
          intros p s m Hn Hm. unfold combinedModels, read_dynamicModels.
          cbn [panel dynamicModels setDynamicModels].
          rewrite Hn, lookup_insert_eq. eexists. split; [reflexivity|].
          apply (unique_from_spec _ []). split; [|apply not_elem_of_nil].
          apply elem_of_app. right. exact Hm. }
        split; [intros e He; discriminate|].
        split; [intros res' Hr Hk; injection Hr as <-; congruence|].
        intros res' e Hr Hj. injection Hr as <-. congruence.
      * exists st. split; [reflexivity|]. do 4 (split; [reflexivity|]).
        split; [reflexivity|].
        split; [intros res' models' Hr Hok Hj; injection Hr as <-; congruence|].
        repeat split; reflexivity.
    + exists st. split; [reflexivity|]. do 4 (split; [reflexivity|]).
      split; [reflexivity|].
      split; [intros res' models' Hr Hok Hj; injection Hr as <-; congruence|].
      repeat split; reflexivity.
  - exists st. split; [reflexivity|]. do 4 (split; [reflexivity|]).
    split; [reflexivity|].
    split; [intros res' models' Hr; discriminate|].
    repeat split; reflexivity.
Qed.

Lemma handleRefreshModels_total_witness :
  exists st' : State,
    handleRefreshModels Wire.unreachable "openrouter"
      (mk None ∅ None EmptyString {[ "openrouter" := ["a"] ]}, None) = Ok (st', None)
    /\ dynamicModels st' !! "openrouter" = Some ["a"].
Proof.
  destruct (handleRefreshModels_total Wire.unreachable "openrouter"
              (mk None ∅ None EmptyString {[ "openrouter" := ["a"] ]}) None)
    as (st' & H & _ & _ & _ & _ & _ & _ & Hk & _).
  exists st'. split; [exact H|].
  rewrite (Hk (Error "Failed to fetch") eq_refl). reflexivity.
Defined.

Lemma normal_unit (c : ascii) :
  let c' := if Js.is_white (Js.lower_unit c) then "_"%char else Js.lower_unit c in
  Js.is_white c' = false /\ Js.lower_unit c' = c'.
Proof.
  destruct c as [[] [] [] [] [] [] [] []]; vm_compute; split; reflexivity.
Qed.

Lemma normal_name (value : string) :
  Forall (fun c => Js.is_white c = false /\ Js.lower_unit c = c)
    (String.list_ascii_of_string (replace_spaces (Js.toLowerCase value))).
Proof.
  induction value as [|c value IH]; cbn; [constructor|].
  constructor; [apply normal_unit|exact IH].
Qed.

Lemma truthy_not_empty (s : string) : Js.truthy_string s = true -> s <> EmptyString.
Proof. destruct s; [discriminate|discriminate]. Qed.

(** X18: every provider the add-provider form hands to [onAddProvider]
    has a key, a display name and a base URL that are not empty, and a key
    without white space and without upper-case letters: whatever is typed
    into the form and whenever the button is clicked, also when
    [onAddProvider] rejects. *)
Theorem submitted_providers_are_keyed (onAddProvider : ProviderCreate.t -> Result unit)
    (events : list FormEvent) :
  Forall (fun p =>
            ProviderCreate.name p <> EmptyString /\
            ProviderCreate.display_name p <> EmptyString /\
            ProviderCreate.base_url p <> EmptyString /\
            Forall (fun c => Js.is_white c = false /\ Js.lower_unit c = c)
              (String.list_ascii_of_string (ProviderCreate.name p)))
    (snd (foldl (form_step onAddProvider) (initial_form, []) events)).
Proof.
  set (good := fun p =>
         ProviderCreate.name p <> EmptyString /\
         ProviderCreate.display_name p <> EmptyString /\
         ProviderCreate.base_url p <> EmptyString /\
         Forall (fun c => Js.is_white c = false /\ Js.lower_unit c = c)
           (String.list_ascii_of_string (ProviderCreate.name p))).
  set (inv := fun st : AddForm * list ProviderCreate.t =>
         Forall (fun c => Js.is_white c = false /\ Js.lower_unit c = c)
           (String.list_ascii_of_string (ProviderCreate.name (np (fst st)))) /\
         Forall good (snd st)).
  assert (Hstep : forall st e, inv st -> inv (form_step onAddProvider st e)).
  { intros [form log] e [Hk Hl]. unfold form_step. cbn [fst snd] in *.
    destruct (showAdd form); destruct e; try (split; assumption);
      try (split; [|exact Hl]; cbn; first [exact Hk|apply normal_name]).
    unfold add. cbn [fst snd].
    destruct (Js.truthy_string (ProviderCreate.name (np form))) eqn:E1;
      [|split; assumption].
    destruct (Js.truthy_string (ProviderCreate.display_name (np form))) eqn:E2;
      [|split; assumption].
    destruct (Js.truthy_string (ProviderCreate.base_url (np form))) eqn:E3;
      [|split; assumption].
    cbn [negb orb].
    assert (Hg : good (np form)).
    { repeat split; try (apply truthy_not_empty; assumption). exact Hk. }
    assert (Hlog : Forall good (log ++ [np form])).
    { apply Forall_app. split; [exact Hl|]. constructor; [exact Hg|constructor]. }
    destruct (onAddProvider (np form)); split; cbn [fst snd np];
      [cbn; constructor|exact Hlog|exact Hk|exact Hlog]. }
  assert (Hrun : forall st, inv st -> inv (foldl (form_step onAddProvider) st events)).
  { induction events as [|e events IH]; intros st Hs; cbn [foldl]; [exact Hs|].
    apply IH, Hstep, Hs. }
  apply Hrun. split; cbn; constructor.
Qed.

End PanelForms.

(** ** Removing a conversation *)

Section RemoveFacts.

(** X19: removing a conversation.  When the delete request fails, the hook
    is exactly as before and the failure is passed on.  When it goes
    through, the call succeeds whatever the reload of the list does; the
    active conversation is then either kept or cleared, and it is cleared
    when the callback saw it with the removed id: with a callback of the
    current render, the removed conversation does not stay active. *)
Theorem removeConversation_active (fetch_delete : Api.Fetch Api.Status)
    (fetch_list : Api.Fetch (list Conversation.t))
    (captured : option ConversationDetail.t) (id : string)
    (st : UseConversations.State) :
  let result := UseConversations.removeConversation fetch_delete fetch_list captured id st in
  let active := UseConversations.activeConversation st in
  let active' := UseConversations.activeConversation (fst result) in
  (forall e, Api.deleteConversation fetch_delete id = Throw e -> result = (st, Throw e))
  /\ (forall r, Api.deleteConversation fetch_delete id = Ok r ->
        snd result = Ok () /\
        (ConversationDetail.id <$> captured = Some id -> active' = None) /\
        (ConversationDetail.id <$> captured <> Some id -> active' = active) /\
        (captured = active -> ConversationDetail.id <$> active' <> Some id))
  /\ (active' = active \/ active' = None)
  /\ UseConversations.isLoading (fst result) = UseConversations.isLoading st.
Proof.
  cbv zeta. unfold UseConversations.removeConversation.
  assert (Hl : forall s,
             UseConversations.activeConversation (UseConversations.loadConversations fetch_list s)
             = UseConversations.activeConversation s /\
             UseConversations.isLoading (UseConversations.loadConversations fetch_list s)
             = UseConversations.isLoading s).
  { intros s. unfold UseConversations.loadConversations.
    destruct (Api.listConversations fetch_list); split; reflexivity. }
  destruct (Api.deleteConversation fetch_delete id) as [r|e]; cbn [fst snd].
  - destruct (decide (ConversationDetail.id <$> captured = Some id)) as [E|E].
    + rewrite (bool_decide_eq_true_2 _ E).
      rewrite (proj1 (Hl _)), (proj2 (Hl _)). cbn.
      repeat split; try discriminate; try congruence; auto.
    + rewrite (bool_decide_eq_false_2 _ E).
      rewrite (proj1 (Hl _)), (proj2 (Hl _)).
      repeat split; try discriminate; try congruence; auto.
  - repeat split; try discriminate; try congruence; auto.
Qed.

Lemma removeConversation_active_witness :
  UseConversations.activeConversation
    (fst (UseConversations.removeConversation
            (Wire.replies {| Api.status_text := "ok" |}) Wire.unreachable
            (Some (Wire.conversation "c1" "Old")) "c1"
            (UseConversations.mk [] (Some (Wire.conversation "c1" "Old")) false)))
  = None.
Proof.
  refine (proj1 (proj2 (proj1 (proj2 (removeConversation_active
            (Wire.replies {| Api.status_text := "ok" |}) Wire.unreachable
            (Some (Wire.conversation "c1" "Old")) "c1"
            (UseConversations.mk [] (Some (Wire.conversation "c1" "Old")) false)))
          {| Api.status_text := "ok" |} eq_refl)) eq_refl).
Defined.

End RemoveFacts.

(** ** The theme *)

Section ThemeFacts.

Import ThemeContext.

(** X20: the chosen theme survives a reload: what [setTheme] and
    [toggleTheme] store is read back as the same mode when the provider is
    mounted again; a missing item, or any other string, gives the system
    mode. *)
Theorem theme_survives_reload (window : option bool) (st : State) :
  (forall t, initial (stored (setTheme t st)) = t) /\
  initial (stored (toggleTheme window st)) = theme (toggleTheme window st) /\
  initial None = system /\
  (forall v, (forall t, v <> mode_name t) -> initial (Some v) = system).
Proof.
  split; [intros []; reflexivity|]. split; [|split; [reflexivity|]].
  - unfold toggleTheme. destruct (resolveTheme window (theme st)); reflexivity.
  - intros v H. unfold initial.
    destruct (String.eqb v "light") eqn:E1; [apply String.eqb_eq in E1; destruct (H light E1)|].
    destruct (String.eqb v "dark") eqn:E2; [apply String.eqb_eq in E2; destruct (H dark E2)|].
    destruct (String.eqb v "system"); reflexivity.
Qed.

Lemma theme_survives_reload_witness : initial (Some "auto") = system.
Proof.
  refine (proj2 (proj2 (proj2 (theme_survives_reload None {| theme := system; stored := None |})))
            "auto" _).
  intros []; discriminate.
Defined.

(** X21: the toggle always changes what is shown: after it the resolved
    theme is the other one, the mode is an explicit one (it no longer
    follows the system preference, whatever that becomes), and a second
    toggle brings the first resolved theme back. *)
Theorem toggle_flips (window : option bool) (st : State) :
  let st' := toggleTheme window st in
  resolveTheme window (theme st') <> resolveTheme window (theme st) /\
  theme st' <> system /\
  (forall window', resolveTheme window' (theme st') = resolveTheme window (theme st')) /\
  (forall window', resolveTheme window' (theme (toggleTheme window' st')) =
                   resolveTheme window (theme st)).
Proof.
  cbv zeta. unfold toggleTheme.
  destruct st as [[] s], window as [[]|]; cbn; repeat split; try discriminate;
    intros [[]|]; reflexivity.
Qed.

End ThemeFacts.

(** ** The prompt library *)

Section PromptFacts.

Import PromptLibrary.

Lemma lower_unit_idemp (c : ascii) : Js.lower_unit (Js.lower_unit c) = Js.lower_unit c.
Proof. destruct c as [[] [] [] [] [] [] [] []]; vm_compute; reflexivity. Qed.

Lemma toLowerCase_idemp (s : string) : Js.toLowerCase (Js.toLowerCase s) = Js.toLowerCase s.
Proof.
  induction s as [|c s IH]; [reflexivity|].
  cbn [Js.toLowerCase]. rewrite lower_unit_idemp, IH. reflexivity.
Qed.

Lemma startsWith_empty (s : string) : Js.startsWith s EmptyString = true.
Proof. destruct s; reflexivity. Qed.

Lemma startsWith_refl (s : string) : Js.startsWith s s = true.
Proof.
  unfold Js.startsWith. induction s as [|c s IH]; [reflexivity|].
  cbn. rewrite IH. destruct (Ascii.ascii_dec c c); [reflexivity|congruence].
Qed.

Lemma includes_empty (s : string) : Js.includes s EmptyString = true.
Proof. destruct s; cbn [Js.includes]; rewrite startsWith_empty; reflexivity. Qed.

Lemma includes_refl (s : string) : Js.includes s s = true.
Proof. destruct s; cbn [Js.includes]; rewrite startsWith_refl; reflexivity. Qed.

(** X22: the search of the prompt library.  The result is always a
    selection of the prompts, in their order; an empty search shows them
    all; the case of the letters typed does not matter; and a prompt is
    found by its own title, its own content and its own category, in any
    case. *)
Theorem prompt_search (prompts : list SavedPrompt.t) (search : string) :
  filtered prompts search `sublist_of` prompts /\
  filtered prompts EmptyString = prompts /\
  (forall search', Js.toLowerCase search' = Js.toLowerCase search ->
                   filtered prompts search' = filtered prompts search) /\
  (forall p, p ∈ prompts ->
     Js.toLowerCase search = Js.toLowerCase (SavedPrompt.title p) \/
     Js.toLowerCase search = Js.toLowerCase (SavedPrompt.content p) \/
     Js.toLowerCase search = Js.toLowerCase (SavedPrompt.category p) ->
     p ∈ filtered prompts search).
Proof.
  unfold filtered. split; [apply sublist_filter|]. split; [|split].
  - induction prompts as [|p prompts IH]; [reflexivity|].
    rewrite filter_cons_True, IH; [reflexivity|].
    unfold matches. cbn [Js.toLowerCase]. rewrite includes_empty. exact I.
  - intros search' H. apply list_filter_iff. intros p. unfold matches. rewrite H. reflexivity.
  - intros p Hp H. apply list_elem_of_filter. split; [|exact Hp].
    unfold matches. destruct H as [->|[->| ->]]; rewrite includes_refl;
      rewrite ?orb_true_r; exact I.
Qed.

Lemma prompt_search_witness :
  filtered
    [SavedPrompt.mk "p1" "Code Review" "Review this code." "Technical" [] false
       "2026-01-01T10:00:00" "2026-01-01T10:00:00"]
    "CODE REVIEW"
  = filtered
      [SavedPrompt.mk "p1" "Code Review" "Review this code." "Technical" [] false
         "2026-01-01T10:00:00" "2026-01-01T10:00:00"]
      "code review".
Proof.
  apply prompt_search. vm_compute. reflexivity.
Defined.

(** X23: editing a prompt and saving it.  After [startEdit], [handleSave]
    makes no call and changes nothing when the title or the content of the
    prompt is blank; otherwise it calls [onEdit] once, with the id of the
    prompt and with the prompt's own title, content, category and tags.
    When that call fails the editor is left as it was; when it goes
    through, the form is blank again and no prompt is being edited, but the
    editor stays open. *)
Theorem save_after_edit (perform : Call -> Result unit) (p : SavedPrompt.t) (st : State) :
  let opened := startEdit p st in
  let result := handleSave perform opened in
  let data := PromptCreate.mk (SavedPrompt.title p) (SavedPrompt.content p)
                (Some (SavedPrompt.category p)) (Some (SavedPrompt.tags p)) None in
  (Js.truthy_string (Js.trim (SavedPrompt.title p)) = false \/
   Js.truthy_string (Js.trim (SavedPrompt.content p)) = false ->
   result = (opened, None, Ok ()))
  /\ (Js.truthy_string (Js.trim (SavedPrompt.title p)) = true ->
      Js.truthy_string (Js.trim (SavedPrompt.content p)) = true ->
      snd (fst result) = Some (edit (SavedPrompt.id p) data) /\
      snd result = perform (edit (SavedPrompt.id p) data) /\
      (forall e, perform (edit (SavedPrompt.id p) data) = Throw e -> fst (fst result) = opened) /\
      (perform (edit (SavedPrompt.id p) data) = Ok () ->
       fst (fst result) = mk (search st) None true blank_form)).
Proof.
  cbv zeta. unfold handleSave, startEdit.
  cbn [form editing search creating PromptCreate.title PromptCreate.content].
  split.
  - intros [H|H]; rewrite H; cbn [negb orb]; [reflexivity|].
    rewrite orb_true_r. reflexivity.
  - intros H1 H2. rewrite H1, H2. cbn [negb orb].
    destruct (perform _) as [[]|e]; cbn [fst snd].
    + split; [reflexivity|]. split; [reflexivity|]. split; [discriminate|reflexivity].
    + split; [reflexivity|]. split; [reflexivity|]. split; [reflexivity|discriminate].
Qed.

Lemma save_after_edit_witness :
  fst (fst (handleSave (fun _ => Ok ())
              (startEdit
                 (SavedPrompt.mk "p1" "Code Review" "Review this code." "Technical" [] false
                    "2026-01-01T10:00:00" "2026-01-01T10:00:00")
                 (mk EmptyString None false blank_form))))
  = mk EmptyString None true blank_form.
Proof.
  refine (proj2 (proj2 (proj2 (proj2 (save_after_edit (fun _ => Ok ())
            (SavedPrompt.mk "p1" "Code Review" "Review this code." "Technical" [] false
               "2026-01-01T10:00:00" "2026-01-01T10:00:00")
            (mk EmptyString None false blank_form)) _ _))) eq_refl).
  - vm_compute. reflexivity.
  - vm_compute. reflexivity.
Defined.

End PromptFacts.

(** ** The free-tier test *)

Section FreeTier.

Import SettingsPanel.

(** X24: the free-only filter keeps exactly the models whose lower-cased
    id contains [free]: the second test of the filter, for an id that ends
    in [:free], never decides. *)
Theorem free_tier_is_includes (m : string) :
  free_tier m = Js.includes (Js.toLowerCase m) "free" /\
  (Js.endsWith (Js.toLowerCase m) ":free" = true ->
   Js.includes (Js.toLowerCase m) "free" = true).
Proof.
  assert (H : Js.endsWith (Js.toLowerCase m) ":free" = true ->
              Js.includes (Js.toLowerCase m) "free" = true).
  { intros E. apply endsWith_split in E as [t ->].
    change ":free" with (":" +:+ ("free" +:+ EmptyString)).
    rewrite <- append_assoc. apply includes_middle. }
  split; [|exact H]. unfold free_tier.
  destruct (Js.includes (Js.toLowerCase m) "free"); [reflexivity|].
  destruct (Js.endsWith (Js.toLowerCase m) ":free"); [|reflexivity].
  symmetry. apply H. reflexivity.
Qed.

Lemma free_tier_is_includes_witness :
  Js.includes (Js.toLowerCase "google/gemini-2.0-flash-exp:FREE") "free" = true.
Proof.
  apply free_tier_is_includes. vm_compute. reflexivity.
Defined.

End FreeTier.
